(** * Replicated web services over session-decoupled consensus

    A shallow embedding of the Go sources of the two-layer BFT web service
    (layer-2 [app], [srvreg], [repository], [server]; layer-1 handlers) and
    the properties of its specification that were checked against it.

    Conventions of the embedding:
    - a Go [string] or [[]byte] is a [string] (a sequence of bytes);
    - a Go [int64] is a [Z] together with its two's-complement wrap-around;
    - a Go [map] is a [gmap]; the order in which [range] visits it is an
      explicit argument, since Go leaves it unspecified;
    - a pointer that may be [nil] is an [option];
    - a run-time panic is an explicit outcome;
    - calls that leave the repository (encoding/json, the consensus engine,
      the HTTP client) are parameters of the section that uses them, and so
      is the order of the rows of a query that does not fix it. *)

From Stdlib Require Import ZArith List Lia ZifyBool Bool.
From Stdlib Require Import Strings.String Strings.Ascii.
From stdpp Require Import gmap strings list fin_maps pretty.

Import ListNotations.
Local Open Scope string_scope.
Local Open Scope Z_scope.

(* ===================================================================== *)
(** ** Go strings *)
(* ===================================================================== *)

Module GoString.

(** The double quote, for the JSON texts the handlers print. *)
Definition dq : string := String (ascii_of_nat 34) EmptyString.

(** [q s] is [s] between double quotes. *)
Definition q (s : string) : string := dq +:+ s +:+ dq.

(** [concat l] is the concatenation of the strings of [l]
    ([fmt.Sprintf] with only [%s] verbs, or [+] on strings). *)
Fixpoint concat (l : list string) : string :=
  match l with
  | [] => EmptyString
  | s :: r => s +:+ concat r
  end.

Definition is_lower (c : ascii) : bool :=
  let n := nat_of_ascii c in (97 <=? n)%nat && (n <=? 122)%nat.

Definition upper_ascii (c : ascii) : ascii :=
  if is_lower c then ascii_of_nat (nat_of_ascii c - 32) else c.

(** The test [c >= utf8.RuneSelf] that [strings.ToUpper] runs over its
    argument: every byte is below 128. *)
Definition isASCII (s : string) : bool :=
  List.forallb (fun c => (nat_of_ascii c <? 128)%nat) (list_ascii_of_string s).

(** [strings.ToUpper] on a string of ASCII bytes, where Go maps the bytes
    a to z one by one and returns the others as they are. On a string with
    a byte above 127 Go maps the runes by the Unicode tables (U+017F, the
    long s, becomes S) and rewrites invalid UTF-8; that is not modelled:
    the bytes above 127 are left as they are, and what is proved about the
    letter case of methods is stated for methods that are [isASCII]. *)
Fixpoint ToUpper (s : string) : string :=
  match s with
  | EmptyString => EmptyString
  | String c r => String (upper_ascii c) (ToUpper r)
  end.

(** [strings.Split s sep] for a one-byte separator: the pieces of [s]
    between the separators; never the empty list. *)
Fixpoint Split (sep : ascii) (s : string) : list string :=
  match s with
  | EmptyString => [EmptyString]
  | String c r =>
      if Ascii.eqb c sep then EmptyString :: Split sep r
      else match Split sep r with
           | [] => [String c EmptyString]
           | p :: ps => String c p :: ps
           end
  end.

(** [strings.HasPrefix s ":"]. *)
Definition HasPrefixColon (s : string) : bool :=
  match s with
  | String c _ => Ascii.eqb c ":"%char
  | EmptyString => false
  end.

(** [s[lo:hi]]: [None] stands for the slice-bounds panic. *)
Definition slice (s : string) (lo hi : Z) : option string :=
  if (0 <=? lo) && (lo <=? hi) && (hi <=? Z.of_nat (String.length s))
  then Some (String.substring (Z.to_nat lo) (Z.to_nat (hi - lo)) s)
  else None.


End GoString.

(* ===================================================================== *)
(** ** Go int64 and the block-height encoding (app.go) *)
(* ===================================================================== *)

Module Int64.

Definition in_range (z : Z) : Prop := - 2 ^ 63 <= z < 2 ^ 63.

(** Two's-complement wrap-around of a mathematical integer to 64 bits. *)
Definition wrap (z : Z) : Z := (z + 2 ^ 63) mod 2 ^ 64 - 2 ^ 63.

(** [x << n] on int64. *)
Definition shl (x n : Z) : Z := wrap (Z.shiftl x n).

(** [x >> n] on int64 (arithmetic shift). *)
Definition shr (x n : Z) : Z := Z.shiftr x n.

(** [byte(x)]: the low eight bits. *)
Definition to_byte (x : Z) : Z := x mod 256.

(** [int64(b)] for a byte [b]. *)
Definition of_byte (b : Z) : Z := b.

End Int64.

(** [int64ToBytes] (app.go:509). *)
Definition int64ToBytes (i : Z) : list Z :=
  [ Int64.to_byte (Int64.shr i 56);
    Int64.to_byte (Int64.shr i 48);
    Int64.to_byte (Int64.shr i 40);
    Int64.to_byte (Int64.shr i 32);
    Int64.to_byte (Int64.shr i 24);
    Int64.to_byte (Int64.shr i 16);
    Int64.to_byte (Int64.shr i 8);
    Int64.to_byte i ].

(** [bytesToInt64] (app.go:525). *)
Definition bytesToInt64 (buf : list Z) : Z :=
  match buf with
  | b0 :: b1 :: b2 :: b3 :: b4 :: b5 :: b6 :: b7 :: _ =>
      Z.lor (Z.lor (Z.lor (Z.lor (Z.lor (Z.lor (Z.lor
        (Int64.shl (Int64.of_byte b0) 56)
        (Int64.shl (Int64.of_byte b1) 48))
        (Int64.shl (Int64.of_byte b2) 40))
        (Int64.shl (Int64.of_byte b3) 32))
        (Int64.shl (Int64.of_byte b4) 24))
        (Int64.shl (Int64.of_byte b5) 16))
        (Int64.shl (Int64.of_byte b6) 8))
        (Int64.of_byte b7)
  | _ => 0
  end.

(* ===================================================================== *)
(** ** crypto/sha256 and encoding/hex *)
(* ===================================================================== *)

Module SHA256.

(** Words are 32-bit: a [Z] in [0, 2^32). *)
Definition w32 (x : Z) : Z := x mod 2 ^ 32.
Definition add32 (x y : Z) : Z := w32 (x + y).
Definition rotr (n x : Z) : Z := Z.lor (Z.shiftr x n) (w32 (Z.shiftl x (32 - n))).
Definition not32 (x : Z) : Z := 2 ^ 32 - 1 - x.

Definition Ch (x y z : Z) : Z := Z.lxor (Z.land x y) (Z.land (not32 x) z).
Definition Maj (x y z : Z) : Z :=
  Z.lxor (Z.lxor (Z.land x y) (Z.land x z)) (Z.land y z).
Definition bsig0 (x : Z) : Z := Z.lxor (Z.lxor (rotr 2 x) (rotr 13 x)) (rotr 22 x).
Definition bsig1 (x : Z) : Z := Z.lxor (Z.lxor (rotr 6 x) (rotr 11 x)) (rotr 25 x).
Definition ssig0 (x : Z) : Z := Z.lxor (Z.lxor (rotr 7 x) (rotr 18 x)) (Z.shiftr x 3).
Definition ssig1 (x : Z) : Z := Z.lxor (Z.lxor (rotr 17 x) (rotr 19 x)) (Z.shiftr x 10).

(** Trial division: [n] has no divisor among [d], [d-1], ..., 2. *)
Fixpoint no_divisor (n : Z) (d : nat) : bool :=
  match d with
  | O | S O => true
  | S d' => negb (n mod Z.of_nat d =? 0) && no_divisor n d'
  end.

Definition is_prime (n : Z) : bool :=
  (1 <? n) && no_divisor n (Z.to_nat (Z.sqrt n)).

(** The first 64 primes: 2, 3, 5, ..., 311. *)
Definition primes : list Z :=
  Eval vm_compute in
    List.filter is_prime (List.map Z.of_nat (List.seq 2 310)).

(** The integer cube root of [n], one bit at a time from bit [k] down. *)
Fixpoint cube_root (k : nat) (n acc : Z) : Z :=
  match k with
  | O => acc
  | S k' =>
      let c := acc + 2 ^ Z.of_nat k' in
      if c * c * c <=? n then cube_root k' n c else cube_root k' n acc
  end.

(** The round constants: the first 32 bits of the fractional parts of the
    cube roots of the first 64 primes. *)
Definition K : list Z :=
  Eval vm_compute in
    List.map (fun p => w32 (cube_root 40 (p * 2 ^ 96) 0)) primes.

(** The initial hash value: the first 32 bits of the fractional parts of
    the square roots of the first 8 primes. *)
Definition H0 : list Z :=
  Eval vm_compute in
    List.map (fun p => w32 (Z.sqrt (p * 2 ^ 64))) (List.firstn 8 primes).

(** Big-endian bytes of a [k]-byte unsigned number. *)
Fixpoint be_bytes (k : nat) (x : Z) : list Z :=
  match k with
  | O => []
  | S k' => (Z.shiftr x (8 * Z.of_nat k')) mod 256 :: be_bytes k' x
  end.

(** The message followed by 0x80, zeros up to 56 modulo 64, and its bit
    length on eight bytes. *)
Definition pad (msg : list Z) : list Z :=
  let n := Z.of_nat (List.length msg) in
  let zeros := Z.to_nat ((55 - n) mod 64) in
  msg ++ [128] ++ List.repeat 0 zeros ++ be_bytes 8 (8 * n).

Fixpoint words (fuel : nat) (bs : list Z) : list Z :=
  match fuel, bs with
  | S f, b0 :: b1 :: b2 :: b3 :: r =>
      (b0 * 2 ^ 24 + b1 * 2 ^ 16 + b2 * 2 ^ 8 + b3) :: words f r
  | _, _ => []
  end.

(** The message schedule: [w] holds w_0 .. w_(t-1); [n] more are added. *)
Fixpoint schedule (n : nat) (w : list Z) : list Z :=
  match n with
  | O => w
  | S n' =>
      let t := List.length w in
      let g (k : nat) := List.nth (t - k) w 0 in
      schedule n' (w ++ [add32 (add32 (ssig1 (g 2%nat)) (g 7%nat))
                               (add32 (ssig0 (g 15%nat)) (g 16%nat))])
  end.

Record regs := { ra : Z; rb : Z; rc : Z; rd : Z; re : Z; rf : Z; rg : Z; rh : Z }.

Definition round (s : regs) (kw : Z * Z) : regs :=
  let t1 := add32 (add32 (add32 (add32 (rh s) (bsig1 (re s)))
                                (Ch (re s) (rf s) (rg s))) (fst kw)) (snd kw) in
  let t2 := add32 (bsig0 (ra s)) (Maj (ra s) (rb s) (rc s)) in
  {| ra := add32 t1 t2; rb := ra s; rc := rb s; rd := rc s;
     re := add32 (rd s) t1; rf := re s; rg := rf s; rh := rg s |}.

Definition of_list (h : list Z) : regs :=
  {| ra := List.nth 0 h 0; rb := List.nth 1 h 0; rc := List.nth 2 h 0;
     rd := List.nth 3 h 0; re := List.nth 4 h 0; rf := List.nth 5 h 0;
     rg := List.nth 6 h 0; rh := List.nth 7 h 0 |}.

Definition to_list (s : regs) : list Z :=
  [ra s; rb s; rc s; rd s; re s; rf s; rg s; rh s].

Definition block (h : list Z) (blk : list Z) : list Z :=
  let w := schedule 48 (words 16 blk) in
  let s := List.fold_left round (List.combine K w) (of_list h) in
  List.map (fun p => add32 (fst p) (snd p)) (List.combine h (to_list s)).

Fixpoint blocks (fuel : nat) (h : list Z) (bs : list Z) : list Z :=
  match fuel with
  | O => h
  | S f =>
      match bs with
      | [] => h
      | _ => blocks f (block h (List.firstn 64 bs)) (List.skipn 64 bs)
      end
  end.

Definition bytes_of_string (s : string) : list Z :=
  List.map (fun c => Z.of_nat (nat_of_ascii c)) (list_ascii_of_string s).

(** [sha256.Sum256(data)]: the 32 bytes of the digest. *)
Definition Sum256 (data : string) : list Z :=
  let p := pad (bytes_of_string data) in
  List.concat (List.map (be_bytes 4) (blocks (List.length p) H0 p)).

End SHA256.

Module Hex.

Definition digit (n : Z) : ascii :=
  ascii_of_nat (Z.to_nat (if n <? 10 then 48 + n else 87 + n)).

(** [hex.EncodeToString]: two lower-case digits per byte. *)
Fixpoint EncodeToString (bs : list Z) : string :=
  match bs with
  | [] => EmptyString
  | b :: r => String (digit (b / 16)) (String (digit (b mod 16)) (EncodeToString r))
  end.

End Hex.

(* ===================================================================== *)
(** ** encoding/base64 *)
(* ===================================================================== *)

Module Base64.

Definition alphabet : string :=
  "ABCDEFGHIJKLMNOPQRSTUVWXYZabcdefghijklmnopqrstuvwxyz0123456789+/".

(** The character of a six-bit value. *)
Definition char (n : Z) : ascii :=
  match String.get (Z.to_nat n) alphabet with
  | Some c => c
  | None => "="%char
  end.

(** Three bytes give four characters; the last group is padded. *)
Fixpoint encode (bs : list Z) : string :=
  match bs with
  | [] => EmptyString
  | [a] =>
      String (char (a / 4)) (String (char (a mod 4 * 16)) "==")
  | [a; b] =>
      String (char (a / 4))
        (String (char (a mod 4 * 16 + b / 16))
           (String (char (b mod 16 * 4)) "="))
  | a :: b :: c :: rest =>
      String (char (a / 4))
        (String (char (a mod 4 * 16 + b / 16))
           (String (char (b mod 16 * 4 + c / 64))
              (String (char (c mod 64)) (encode rest))))
  end.

(** [base64.StdEncoding.EncodeToString]. *)
Definition EncodeToString (data : string) : string :=
  encode (SHA256.bytes_of_string data).

End Base64.

(* ===================================================================== *)
(** ** Outcomes of Go calls *)
(* ===================================================================== *)

(** A call returns, or the goroutine panics. *)
Inductive Outcome (A : Type) : Type :=
| Ret (a : A)
| Panic (why : string).
Arguments Ret {A} a.
Arguments Panic {A} why.

(* ===================================================================== *)
(** ** srvreg: envelope and service registry (service-registry.go) *)
(* ===================================================================== *)

Module srvreg.

(** [Request]; [Timestamp] is the originator's clock reading. *)
Record Request := {
  Method : string;
  Path : string;
  Headers : gmap string string;
  Body : string;
  RemoteAddr : string;
  RequestID : string;
  Timestamp : Z
}.

(** [Response]; [BodyInterface] is a display-only view of [Body] that no
    handler fills in, and is left out; where the web server sets it, on the
    transactions of a block that it lists, it is paired with the
    transaction (see [server.blockTransactions]). *)
Record Response := {
  StatusCode : Z;
  RHeaders : gmap string string;
  RBody : string;
  Error : string
}.

(** What [json.Unmarshal] leaves in an [interface{}]: nil, a bool, a
    float64 (its 64 bits), a string, a slice or a map with string keys. *)
#[warnings="-register-all"] Inductive JSON :=
| JNull
| JBool (b : bool)
| JNumber (float64 : Z)
| JString (s : string)
| JArray (items : list JSON)
| JObject (fields : gmap string JSON).

(** [json.Unmarshal] of a text into a [map[string]interface{}] and into a
    [[]interface{}], as [ParseBody] calls it; [None] is an error. The nil
    map and the nil slice, which the text null leaves, read as the empty
    ones. *)
Class BodyParser := {
  Unmarshal_map : string -> option (gmap string JSON);
  Unmarshal_slice : string -> option (list JSON)
}.

(** [ParseBody] (service-registry.go:50): the body as a JSON object, or
    else as a JSON array, or else nil. *)
Definition ParseBody `{BodyParser} (r : Response) : option JSON :=
  if String.eqb (RBody r) EmptyString then None
  else
    match Unmarshal_map (RBody r) with
    | Some bodyMap => Some (JObject bodyMap)
    | None =>
        match Unmarshal_slice (RBody r) with
        | Some bodyArray => Some (JArray bodyArray)
        | None => None
        end
    end.

(** [Transaction]: the envelope. *)
Record Transaction := {
  TRequest : Request;
  TResponse : Response;
  OriginNodeID : string;
  BlockHeight : Z
}.

(** What a [ServiceHandler] returns: a pointer to a Response (or nil) and
    an error (or nil). *)
Definition HandlerResult : Type := option Response * option string.

(** [ServiceHandler], over the state [S] the handlers work on. *)
Definition ServiceHandler (S : Type) : Type :=
  Request -> S -> Outcome HandlerResult * S.

(** [RouteKey{Method, Path}]: the method and the path. *)
Abbreviation RouteKey := (string * string)%type.

(** [ServiceRegistry], for handlers of type [H]. *)
Record ServiceRegistry (H : Type) := {
  handlers : gmap RouteKey H;
  exactRoutes : gmap RouteKey bool;
  isByzantine : bool
}.
Arguments handlers {H} _.
Arguments exactRoutes {H} _.
Arguments isByzantine {H} _.

(** [NewServiceRegistry]. *)
Definition NewServiceRegistry {H : Type} (byz : bool) : ServiceRegistry H :=
  {| handlers := ∅; exactRoutes := ∅; isByzantine := byz |}.

(** [RegisterHandler]. *)
Definition RegisterHandler {H : Type} (method path : string) (isExactPath : bool)
    (handler : H) (sr : ServiceRegistry H) : ServiceRegistry H :=
  let key : RouteKey := (GoString.ToUpper method, path) in
  {| handlers := <[key := handler]> (handlers sr);
     exactRoutes := <[key := isExactPath]> (exactRoutes sr);
     isByzantine := isByzantine sr |}.

(** [sr.exactRoutes[key]]: a missing key reads as [false]. *)
Definition isExact {H : Type} (sr : ServiceRegistry H) (key : RouteKey) : bool :=
  default false (exactRoutes sr !! key).

(** The loop of [matchPath] over the two segment lists (of equal length
    when it is called). *)
Fixpoint matchParts (patternParts pathParts : list string) : bool :=
  match patternParts, pathParts with
  | p :: ps, x :: xs =>
      if GoString.HasPrefixColon p then matchParts ps xs
      else if String.eqb p x then matchParts ps xs
      else false
  | _, _ => true
  end.

(** [matchPath]. *)
Definition matchPath (pattern path : string) : bool :=
  let patternParts := GoString.Split "/" pattern in
  let pathParts := GoString.Split "/" path in
  if negb (Nat.eqb (List.length patternParts) (List.length pathParts)) then false
  else matchParts patternParts pathParts.

(** The test of the pattern loop of [GetHandlerForPath] on one entry. *)
Definition patternHit {H : Type} (sr : ServiceRegistry H) (method path : string)
    (routeKey : RouteKey) : bool :=
  String.eqb (fst routeKey) (GoString.ToUpper method)
  && negb (isExact sr routeKey)
  && matchPath (snd routeKey) path.

(** [GetHandlerForPath]. [visit] is the sequence in which [range
    sr.handlers] yields the entries of the map on this call: Go does not
    specify it, so it is an argument (see [visits]). *)
Definition GetHandlerForPath {H : Type} (visit : list (RouteKey * H))
    (sr : ServiceRegistry H) (method path : string) : option H :=
  let key : RouteKey := (GoString.ToUpper method, path) in
  let pattern :=
    snd <$> List.find (fun e => patternHit sr method path (fst e)) visit in
  match handlers sr !! key with
  | Some handler => if isExact sr key then Some handler else pattern
  | None => pattern
  end.

(** The sequences [range] may produce for a registry: every entry once. *)
Definition visits {H : Type} (sr : ServiceRegistry H)
    (visit : list (RouteKey * H)) : Prop :=
  visit ≡ₚ map_to_list (handlers sr).

(** [RegisterDefaultServices] (service-registry.go:226), over the seven
    handlers it registers. *)
Definition RegisterDefaultServices {H : Type}
    (CreateTestPackage CreateSessionHandler ScanPackageHandler
     ValidatePackageHandler QualityCheckHandler LabelPackageHandler
     CommitSessionHandler : H) (sr : ServiceRegistry H) : ServiceRegistry H :=
  RegisterHandler "POST" "/commit/:id" false CommitSessionHandler
    (RegisterHandler "POST" "/session/:id/label" false LabelPackageHandler
      (RegisterHandler "POST" "/session/:id/qc" false QualityCheckHandler
        (RegisterHandler "POST" "/session/:id/validate" false ValidatePackageHandler
          (RegisterHandler "GET" "/session/:id/scan/:packageID" false ScanPackageHandler
            (RegisterHandler "POST" "/session/start" true CreateSessionHandler
              (RegisterHandler "POST" "/session/test-package" true CreateTestPackage
                 sr)))))).

End srvreg.

(* ===================================================================== *)
(** ** app: the ABCI application (app.go) *)
(* ===================================================================== *)

Module app.
Import srvreg.

(** encoding/json on envelopes. [Unmarshal_ptr data] is
    [json.Unmarshal(data, &tx)] for [var tx *srvreg.Transaction]: the
    pointer after the call ([None] when it is still nil: a syntax error
    leaves the target untouched, and the JSON text null sets it to nil)
    and the error. [Marshal] is [json.Marshal] of an envelope. *)
Class EnvelopeCodec := {
  Unmarshal_ptr : string -> option Transaction * option string;
  Marshal : Transaction -> string
}.

Definition zeroRequest : Request :=
  {| Method := EmptyString; Path := EmptyString; Headers := ∅;
     Body := EmptyString; RemoteAddr := EmptyString;
     RequestID := EmptyString; Timestamp := 0 |}.

Definition zeroResponse : Response :=
  {| StatusCode := 0; RHeaders := ∅; RBody := EmptyString;
     Error := EmptyString |}.

Definition zeroTransaction : Transaction :=
  {| TRequest := zeroRequest; TResponse := zeroResponse;
     OriginNodeID := EmptyString; BlockHeight := 0 |}.

(** [json.Unmarshal(data, &tx)] for [var tx srvreg.Transaction]: the
    struct after the call and the error. *)
Definition Unmarshal_val `{EnvelopeCodec} (data : string)
    : Transaction * option string :=
  match Unmarshal_ptr data with
  | (Some tx, err) => (tx, err)
  | (None, err) => (zeroTransaction, err)
  end.

Inductive ProposalStatus := ACCEPT | REJECT.

(** What [ProcessProposal] returns: the status of the response and the
    error. *)
Definition Verdict : Type := ProposalStatus * option string.

Record Event := { EType : string; Attributes : list (string * string) }.

Record ExecTxResult := {
  Code : Z;
  Data : string;
  Log : string;
  Events : list Event
}.

(** [Application]: the key-value log, the write batch of the block being
    finalized ([None] is the nil pointer), the registry and the node id.
    Handlers work on a state of type [St]. *)
Record Application (St : Type) := {
  badgerDB : gmap string string;
  onGoingBlock : option (gmap string string);
  serviceRegistry : ServiceRegistry (ServiceHandler St);
  nodeID : string
}.
Arguments badgerDB {St} _.
Arguments onGoingBlock {St} _.
Arguments serviceRegistry {St} _.
Arguments nodeID {St} _.

(** [compareResponses] (app.go:471). *)
Definition compareResponses (a b : Response) : bool :=
  if negb (Z.eqb (StatusCode a) (StatusCode b)) then false
  else if negb (String.eqb (RBody a) (RBody b)) then false
  else true.

(** [CheckTx]: the response code and the error. *)
Definition CheckTx `{EnvelopeCodec} (txBytes : string) : Z * option string :=
  match snd (Unmarshal_val txBytes) with
  | Some err => (1, Some ("fail to parse tx on CheckTx: " +:+ err))
  | None => (0, None)
  end.

(** [PrepareProposal]. *)
Definition PrepareProposal (txs : list string) : list string := txs.

(** The iteration orders of the registry map, one for each transaction of
    a proposal (by its index). *)
Definition RangeSchedule (St : Type) : Type :=
  nat -> list (RouteKey * ServiceHandler St).

(** The loop of [ProcessProposal] from the [i]-th transaction on. *)
Fixpoint ProcessProposal_from `{EnvelopeCodec} {St : Type}
    (a : Application St) (sched : RangeSchedule St) (i : nat)
    (txs : list string) (st : St) : Outcome Verdict * St :=
  match txs with
  | [] => (Ret (ACCEPT, None), st)
  | txBytes :: rest =>
      match fst (Unmarshal_ptr txBytes) with
      | None => (Panic "invalid memory address or nil pointer dereference", st)
      | Some tx =>
          let isTxOriginator := String.eqb (nodeID a) (OriginNodeID tx) in
          if negb isTxOriginator then
            match GetHandlerForPath (sched i) (serviceRegistry a)
                    (Method (TRequest tx)) (Path (TRequest tx)) with
            | Some handler =>
                match handler (TRequest tx) st with
                | (Panic why, st') => (Panic why, st')
                | (Ret (_, Some err), st') =>
                    (Ret (REJECT, Some err), st')
                | (Ret (None, None), st') =>
                    (Panic "invalid memory address or nil pointer dereference", st')
                | (Ret (Some response, None), st') =>
                    if negb (compareResponses response (TResponse tx)) then
                      (Ret (REJECT,
                            Some "response is different, byzantine behavior detected"),
                       st')
                    else ProcessProposal_from a sched (S i) rest st'
                end
            | None =>
                (Ret (REJECT, Some "handler not found, byzantine behavior detected"),
                 st)
            end
          else ProcessProposal_from a sched (S i) rest st
      end
  end.

(** [ProcessProposal] (app.go:252). *)
Definition ProcessProposal `{EnvelopeCodec} {St : Type}
    (a : Application St) (sched : RangeSchedule St)
    (txs : list string) (st : St) : Outcome Verdict * St :=
  ProcessProposal_from a sched 0%nat txs st.

(** [generateTxID]. *)
Definition generateTxID (requestID nodeID : string) : string :=
  Hex.EncodeToString (SHA256.Sum256 (requestID +:+ nodeID)).

Definition string_of_bytes (bs : list Z) : string :=
  string_of_list_ascii (List.map (fun b => ascii_of_nat (Z.to_nat b)) bs).

(** [calculateAppHash]. *)
Definition calculateAppHash (txResults : list ExecTxResult) : string :=
  let allData :=
    List.fold_left (fun acc r => acc +:+ Data r) txResults EmptyString in
  string_of_bytes (SHA256.Sum256 allData).

(** [storeTransaction]: the batch after the two writes, and the result. *)
Definition storeTransaction (txID : string) (tx : Transaction)
    (status : string) (rawTx : string) (batch : gmap string string)
    : gmap string string * ExecTxResult :=
  let txKey := "tx:" +:+ txID in
  let batch1 := <[txKey := rawTx]> batch in
  let statusKey := "status:" +:+ txID in
  let batch2 := <[statusKey := status]> batch1 in
  let events :=
    [ {| EType := "dews_tx";
         Attributes := [ ("request_id", RequestID (TRequest tx));
                         ("origin_node", OriginNodeID tx);
                         ("status", status);
                         ("tx_id", txID) ] |};
      {| EType := "request";
         Attributes := [ ("method", Method (TRequest tx));
                         ("path", Path (TRequest tx)) ] |} ] in
  (batch2, {| Code := 0; Data := txID; Log := status; Events := events |}).

(** The loop of [FinalizeBlock] over the transactions. *)
Fixpoint finalizeTxs `{EnvelopeCodec} (txs : list string)
    (batch : gmap string string) : gmap string string * list ExecTxResult :=
  match txs with
  | [] => (batch, [])
  | txBytes :: rest =>
      match Unmarshal_val txBytes with
      | (_, Some _) =>
          let '(batch', results) := finalizeTxs rest batch in
          (batch', {| Code := 1; Data := EmptyString;
                      Log := "Invalid transaction format"; Events := [] |}
                   :: results)
      | (tx, None) =>
          let txID := generateTxID (RequestID (TRequest tx)) (OriginNodeID tx) in
          let '(batch1, result) :=
            storeTransaction txID tx "accepted" txBytes batch in
          let '(batch', results) := finalizeTxs rest batch1 in
          (batch', result :: results)
      end
  end.

(** [FinalizeBlock] (app.go:302): the application afterwards, the results
    of the transactions and the application hash. The writes of the batch
    are taken to succeed. *)
Definition FinalizeBlock `{EnvelopeCodec} {St : Type} (a : Application St)
    (height : Z) (txs : list string)
    : Application St * list ExecTxResult * string :=
  let '(batch, txResults) := finalizeTxs txs ∅ in
  let blockHeight := height in
  let appHash := calculateAppHash txResults in
  let batch1 :=
    <["last_block_height" := string_of_bytes (int64ToBytes blockHeight)]> batch in
  let batch2 := <["last_block_app_hash" := appHash]> batch1 in
  ({| badgerDB := badgerDB a; onGoingBlock := Some batch2;
      serviceRegistry := serviceRegistry a; nodeID := nodeID a |},
   txResults, appHash).

(** [Commit] (app.go:376): the batch is flushed into the log. The flush is
    taken to succeed. *)
Definition Commit {St : Type} (a : Application St) : Outcome (Application St) :=
  match onGoingBlock a with
  | None => Panic "invalid memory address or nil pointer dereference"
  | Some batch =>
      Ret {| badgerDB := batch ∪ badgerDB a; onGoingBlock := onGoingBlock a;
             serviceRegistry := serviceRegistry a; nodeID := nodeID a |}
  end.

(** [Info] (app.go:57): the last block height and application hash read
    from the log. *)
Definition Info {St : Type} (a : Application St) : Z * string :=
  match badgerDB a !! "last_block_height" with
  | None => (0, EmptyString)
  | Some val =>
      let lastBlockHeight := bytesToInt64 (SHA256.bytes_of_string val) in
      match badgerDB a !! "last_block_app_hash" with
      | None => (lastBlockHeight, EmptyString)
      | Some h => (lastBlockHeight, h)
      end
  end.

(** [QueryResponse]: the fields that [Query] fills in. A nil byte slice
    reads as the empty string. *)
Record QueryResponse := {
  QCode : Z;
  QLog : string;
  QKey : string;
  QValue : string
}.

(** [verifyTransaction] (app.go:157): the transaction stored under an id
    and its status. Reads of the log fail only with a missing key. *)
Definition verifyTransaction {St : Type} (a : Application St) (txID : string)
    : QueryResponse :=
  let txKey := "tx:" +:+ txID in
  match badgerDB a !! txKey with
  | None =>
      {| QCode := 1; QLog := "Transaction not found"; QKey := EmptyString;
         QValue := EmptyString |}
  | Some txData =>
      let statusKey := "status:" +:+ txID in
      let status :=
        match badgerDB a !! statusKey with
        | Some val => val
        | None => "unknown"
        end in
      {| QCode := 0; QLog := status; QKey := EmptyString; QValue := txData |}
  end.

(** [Query] (app.go:109). *)
Definition Query {St : Type} (a : Application St) (data : string) : QueryResponse :=
  if Nat.eqb (String.length data) 0 then
    {| QCode := 1; QLog := "Empty query data"; QKey := EmptyString;
       QValue := EmptyString |}
  else if String.prefix "verify:" data then
    let txID := String.substring 7 (String.length data - 7) data in
    verifyTransaction a txID
  else
    match badgerDB a !! data with
    | None =>
        {| QCode := 0; QLog := "key doesn't exist"; QKey := data;
           QValue := EmptyString |}
    | Some val =>
        {| QCode := 0; QLog := "exists"; QKey := data; QValue := val |}
    end.

End app.

(* ===================================================================== *)
(** ** repository/models: the rows of the session store *)
(* ===================================================================== *)

(** Columns filled in by the database clock ([created_at], [updated_at],
    [timestamp]) are left out: no handler reads them back. *)
Module models.

Module Operator.
Record t := { ID : string; Name : string; Role : string; AccessLevel : string }.
End Operator.

Module Supplier.
Record t := { ID : string; Name : string; Location : string }.
End Supplier.

Module Courier.
Record t := { ID : string; Name : string; ServiceLevel : string; ContactInfo : string }.
End Courier.

Module Session.
Record t := {
  ID : string;
  Status : string;
  OperatorID : string;
  IsCommitted : bool;
  TxHash : option string
}.
End Session.

Module Item.
Record t := {
  ID : string;
  PackageID : string;
  Quantity : Z;
  Description : string;
  CatalogID : option string
}.
End Item.

Module QCRecord.
Record t := {
  ID : string;
  PackageID : string;
  SessionID : string;
  Passed : bool;
  InspectorID : string;
  Issues : string
}.
End QCRecord.

Module Label.
Record t := {
  ID : string;
  PackageID : string;
  SessionID : string;
  Destination : string;
  CourierID : string;
  Courier : string;
  Priority : string
}.
End Label.

(** [Package]: its columns, and the associations that [Preload] fills in
    ([Items], [Supplier], [QCRecords]; they are empty in a stored row). *)
Module Package.
Record t := {
  ID : string;
  SessionID : option string;
  SupplierID : string;
  DeliveryNoteID : string;
  Signature : string;
  IsTrusted : bool;
  Status : string;
  Items : list Item.t;
  Supplier : option Supplier.t;
  QCRecords : list QCRecord.t
}.
End Package.

(** [Transaction]: the ledger record of a committed session. *)
Module Transaction.
Record t := {
  TxHash : string;
  SessionID : string;
  BlockHeight : Z;
  Status : string
}.
End Transaction.

End models.

(* ===================================================================== *)
(** ** The relational store behind the repository *)
(* ===================================================================== *)

Module store.
Import models.

(** The tables; each is the list of its rows in primary-key order. *)
Record Tables := {
  operators : list Operator.t;
  suppliers : list Supplier.t;
  couriers : list Courier.t;
  sessions : list Session.t;
  packages : list Package.t;
  items : list Item.t;
  qc_records : list QCRecord.t;
  labels : list Label.t;
  transactions : list Transaction.t
}.

(** What a statement can fail with: gorm's ErrRecordNotFound, or a
    PostgreSQL error with its SQLSTATE code. *)
Inductive DbErr :=
| ErrRecordNotFound
| PgError (code message detail : string).

(** [err.Error()]. *)
Definition Error (e : DbErr) : string :=
  match e with
  | ErrRecordNotFound => "record not found"
  | PgError code message _ =>
      GoString.concat ["ERROR: "; message; " (SQLSTATE "; code; ")"]
  end.

Definition has_pk {R : Type} (pk : R -> string) (k : string) (rows : list R) : bool :=
  List.existsb (fun r => String.eqb (pk r) k) rows.

(** [Where(cond).First(&row)]: the first row, in primary-key order, that
    satisfies the condition. *)
Definition First {R : Type} (cond : R -> bool) (rows : list R) : DbErr + R :=
  match List.find cond rows with
  | Some r => inr r
  | None => inl ErrRecordNotFound
  end.

(** A new row is placed by the byte order of its key. *)
Fixpoint insert_row {R : Type} (pk : R -> string) (r : R) (rows : list R) : list R :=
  match rows with
  | [] => [r]
  | x :: rest =>
      if String.ltb (pk r) (pk x) then r :: rows
      else x :: insert_row pk r rest
  end.

Definition update_row {R : Type} (pk : R -> string) (r : R) (rows : list R) : list R :=
  List.map (fun x => if String.eqb (pk x) (pk r) then r else x) rows.

Definition unique_violation (table key value : string) : DbErr :=
  PgError "23505"
    (GoString.concat ["duplicate key value violates unique constraint on ";
                      GoString.q table])
    (GoString.concat ["Key ("; key; ")=("; value; ") already exists."]).

Definition foreign_key_violation (table key value target : string) : DbErr :=
  PgError "23503"
    (GoString.concat ["insert or update on table "; GoString.q table;
                      " violates foreign key constraint"])
    (GoString.concat ["Key ("; key; ")=("; value; ") is not present in table ";
                      GoString.q target; "."]).

Definition set_sessions (v : list Session.t) (t : Tables) : Tables :=
  {| operators := operators t; suppliers := suppliers t; couriers := couriers t;
     sessions := v; packages := packages t; items := items t;
     qc_records := qc_records t; labels := labels t;
     transactions := transactions t |}.

Definition set_packages (v : list Package.t) (t : Tables) : Tables :=
  {| operators := operators t; suppliers := suppliers t; couriers := couriers t;
     sessions := sessions t; packages := v; items := items t;
     qc_records := qc_records t; labels := labels t;
     transactions := transactions t |}.

Definition set_qc_records (v : list QCRecord.t) (t : Tables) : Tables :=
  {| operators := operators t; suppliers := suppliers t; couriers := couriers t;
     sessions := sessions t; packages := packages t; items := items t;
     qc_records := v; labels := labels t;
     transactions := transactions t |}.

Definition set_labels (v : list Label.t) (t : Tables) : Tables :=
  {| operators := operators t; suppliers := suppliers t; couriers := couriers t;
     sessions := sessions t; packages := packages t; items := items t;
     qc_records := qc_records t; labels := v;
     transactions := transactions t |}.

Definition set_transactions (v : list Transaction.t) (t : Tables) : Tables :=
  {| operators := operators t; suppliers := suppliers t; couriers := couriers t;
     sessions := sessions t; packages := packages t; items := items t;
     qc_records := qc_records t; labels := labels t;
     transactions := v |}.

(** [Create(&session)]: the primary key is new and the operator exists. *)
Definition Create_Session (s : Session.t) (t : Tables) : DbErr + Tables :=
  if has_pk Session.ID (Session.ID s) (sessions t) then
    inl (unique_violation "sessions" "session_id" (Session.ID s))
  else if negb (has_pk Operator.ID (Session.OperatorID s) (operators t)) then
    inl (foreign_key_violation "sessions" "operator_id" (Session.OperatorID s)
           "operators")
  else inr (set_sessions (insert_row Session.ID s (sessions t)) t).

(** [Save(&session)] of a row read in the same transaction. *)
Definition Save_Session (s : Session.t) (t : Tables) : DbErr + Tables :=
  if has_pk Session.ID (Session.ID s) (sessions t) then
    inr (set_sessions (update_row Session.ID s (sessions t)) t)
  else inr (set_sessions (insert_row Session.ID s (sessions t)) t).

(** The row of a package: its columns without the preloaded associations. *)
Definition package_row (p : Package.t) : Package.t :=
  {| Package.ID := Package.ID p; Package.SessionID := Package.SessionID p;
     Package.SupplierID := Package.SupplierID p;
     Package.DeliveryNoteID := Package.DeliveryNoteID p;
     Package.Signature := Package.Signature p;
     Package.IsTrusted := Package.IsTrusted p;
     Package.Status := Package.Status p;
     Package.Items := []; Package.Supplier := None; Package.QCRecords := [] |}.

Definition same_session (sid : string) (p : Package.t) : bool :=
  match Package.SessionID p with
  | Some s => String.eqb s sid
  | None => false
  end.

(** [Save(&pkg)] of a row read in the same transaction: [session_id] is
    unique among the packages and refers to a session. The preloaded
    associations are existing rows, which the save leaves as they are. *)
Definition Save_Package (p : Package.t) (t : Tables) : DbErr + Tables :=
  match Package.SessionID p with
  | Some sid =>
      if List.existsb
           (fun x => same_session sid x && negb (String.eqb (Package.ID x) (Package.ID p)))
           (packages t)
      then inl (unique_violation "packages" "session_id" sid)
      else if negb (has_pk Session.ID sid (sessions t)) then
        inl (foreign_key_violation "packages" "session_id" sid "sessions")
      else inr (set_packages (update_row Package.ID (package_row p) (packages t)) t)
  | None =>
      inr (set_packages (update_row Package.ID (package_row p) (packages t)) t)
  end.

(** [Create(&qcRecord)]. *)
Definition Create_QCRecord (q : QCRecord.t) (t : Tables) : DbErr + Tables :=
  if has_pk QCRecord.ID (QCRecord.ID q) (qc_records t) then
    inl (unique_violation "qc_records" "qc_id" (QCRecord.ID q))
  else inr (set_qc_records (insert_row QCRecord.ID q (qc_records t)) t).

(** [Create(&newLabel)]. *)
Definition Create_Label (l : Label.t) (t : Tables) : DbErr + Tables :=
  if has_pk Label.ID (Label.ID l) (labels t) then
    inl (unique_violation "labels" "label_id" (Label.ID l))
  else inr (set_labels (insert_row Label.ID l (labels t)) t).

(** [Create(&tx)]: [session_id] is the primary key of the ledger. *)
Definition Create_Transaction (x : Transaction.t) (t : Tables) : DbErr + Tables :=
  if has_pk Transaction.SessionID (Transaction.SessionID x) (transactions t) then
    inl (unique_violation "transactions" "session_id" (Transaction.SessionID x))
  else inr (set_transactions
              (insert_row Transaction.SessionID x (transactions t)) t).

(** [Preload("Items").Preload("Supplier")] on a package row. *)
Definition preload_items_supplier (t : Tables) (p : Package.t) : Package.t :=
  {| Package.ID := Package.ID p; Package.SessionID := Package.SessionID p;
     Package.SupplierID := Package.SupplierID p;
     Package.DeliveryNoteID := Package.DeliveryNoteID p;
     Package.Signature := Package.Signature p;
     Package.IsTrusted := Package.IsTrusted p;
     Package.Status := Package.Status p;
     Package.Items :=
       List.filter (fun i => String.eqb (Item.PackageID i) (Package.ID p)) (items t);
     Package.Supplier :=
       List.find (fun s => String.eqb (Supplier.ID s) (Package.SupplierID p))
                 (suppliers t);
     Package.QCRecords := Package.QCRecords p |}.

(** [Preload("Items")] on a package row. *)
Definition preload_items (t : Tables) (p : Package.t) : Package.t :=
  {| Package.ID := Package.ID p; Package.SessionID := Package.SessionID p;
     Package.SupplierID := Package.SupplierID p;
     Package.DeliveryNoteID := Package.DeliveryNoteID p;
     Package.Signature := Package.Signature p;
     Package.IsTrusted := Package.IsTrusted p;
     Package.Status := Package.Status p;
     Package.Items :=
       List.filter (fun i => String.eqb (Item.PackageID i) (Package.ID p)) (items t);
     Package.Supplier := Package.Supplier p;
     Package.QCRecords := Package.QCRecords p |}.

(** [Preload("Items").Preload("QCRecords")] on a package row. The query
    that loads the QC records has no ORDER BY: [order] is the sequence in
    which the database returns them, a rearrangement of the rows that is
    not specified and so is an argument. *)
Definition preload_items_qc (order : list QCRecord.t -> list QCRecord.t)
    (t : Tables) (p : Package.t) : Package.t :=
  {| Package.ID := Package.ID p; Package.SessionID := Package.SessionID p;
     Package.SupplierID := Package.SupplierID p;
     Package.DeliveryNoteID := Package.DeliveryNoteID p;
     Package.Signature := Package.Signature p;
     Package.IsTrusted := Package.IsTrusted p;
     Package.Status := Package.Status p;
     Package.Items :=
       List.filter (fun i => String.eqb (Item.PackageID i) (Package.ID p)) (items t);
     Package.Supplier := Package.Supplier p;
     Package.QCRecords :=
       order (List.filter
                (fun c => String.eqb (QCRecord.PackageID c) (Package.ID p))
                (qc_records t)) |}.

Definition with_status (status : string) (p : Package.t) : Package.t :=
  {| Package.ID := Package.ID p; Package.SessionID := Package.SessionID p;
     Package.SupplierID := Package.SupplierID p;
     Package.DeliveryNoteID := Package.DeliveryNoteID p;
     Package.Signature := Package.Signature p;
     Package.IsTrusted := Package.IsTrusted p;
     Package.Status := status;
     Package.Items := Package.Items p; Package.Supplier := Package.Supplier p;
     Package.QCRecords := Package.QCRecords p |}.

End store.

(* ===================================================================== *)
(** ** repository: the operations of the layer-2 session store *)
(* ===================================================================== *)

Module repository.
Import models store.

Definition PgErrForeignKeyViolation : string := "23503".
Definition PgErrUniqueViolation : string := "23505".

(** [RepositoryError]. *)
Module RepositoryError.
Record t := { Code : string; Message : string; Detail : string }.
End RepositoryError.

(** [ConsensusResult]. *)
Module ConsensusResult.
Record t := { TxHash : string; BlockHeight : Z; Code : Z }.
End ConsensusResult.

(** [Repository]: the committed tables behind the connection pool, the
    number of transactions that were begun and neither committed nor
    rolled back, and the configured layer-1 addresses. *)
Record Repository := {
  db : Tables;
  openTx : nat;
  l1Addresses : list string
}.

(** [r.db.Begin()]: the transaction works on a copy of the tables. *)
Definition Begin (r : Repository) : Tables := db r.

(** [dbTx.Rollback()]: the copy is dropped. *)
Definition Rollback (r : Repository) (w : Tables) : Repository := r.

(** [dbTx.Commit()], taken to succeed: the copy becomes the tables. *)
Definition CommitTx (r : Repository) (w : Tables) : Repository :=
  {| db := w; openTx := openTx r; l1Addresses := l1Addresses r |}.

(** A return that neither commits nor rolls back: the tables stay as they
    were and the transaction stays open. *)
Definition abandon (r : Repository) (w : Tables) : Repository :=
  {| db := db r; openTx := S (openTx r); l1Addresses := l1Addresses r |}.

(** The payload of [CommitToL1]. *)
Record CommitPayload := {
  session_id : string;
  operator_id : string;
  package_id : string;
  supplier_signature : string;
  destination : string;
  priority : string;
  courier_id : string;
  qc_passed : bool;
  issues : list string;
  timestamp : Z
}.

(** The [meta] object that [CommitToL1] decodes from the reply. *)
Record L1Meta := {
  tx_id : string;
  request_id : string;
  status : string;
  block_height : Z;
  block_hash : string
}.

(** What [http.NewRequest] and [httpClient.Do] and [io.ReadAll] give. *)
Inductive HttpResult :=
| RequestError (e : string)
| NetworkError (e : string)
| ReadError (e : string)
| Replied (statusCode : Z) (body : string).

(** The calls of the repository that leave it: the clock, encoding/json,
    the HTTP client that reaches layer 1, and the sequence in which the
    database returns the QC records of a package (see
    [store.preload_items_qc]). *)
Class Outside := {
  time_Now : Z;
  Marshal_issues : list string -> string + string;
  Marshal_payload : CommitPayload -> string + string;
  http_POST : string -> string -> HttpResult;
  Unmarshal_ClientResponse : string -> string + L1Meta;
  rows_order : list QCRecord.t -> list QCRecord.t
}.

(** The sequences the database may return: every row once. *)
Definition rearranges `{Outside} : Prop :=
  forall rows : list QCRecord.t, rows_order rows ≡ₚ rows.

Definition mkErr (code message detail : string) : RepositoryError.t :=
  {| RepositoryError.Code := code; RepositoryError.Message := message;
     RepositoryError.Detail := detail |}.

(** The loop of [ConnectDB] (part_004:105) from attempt [i] on, with [n]
    attempts left. [Open i] is what [gorm.Open] returns on attempt [i]:
    a handle and an error (or nil); [db] is the field [r.db], [None] while
    it is nil. A failed attempt sleeps and falls through to the
    assignment [r.db = DB]; a successful one leaves the loop by [break]. *)
Fixpoint ConnectDB_from {DB : Type} (Open : nat -> DB * option string)
    (i n : nat) (db : option DB) : option DB :=
  match n with
  | O => db
  | S n' =>
      match Open i with
      | (handle, Some _) => ConnectDB_from Open (S i) n' (Some handle)
      | (_, None) => db
      end
  end.

(** [ConnectDB]: ten attempts at most. *)
Definition ConnectDB {DB : Type} (Open : nat -> DB * option string)
    (db : option DB) : option DB :=
  ConnectDB_from Open 0 10 db.

(** [CreateSession] (part_004:269). *)
Definition CreateSession (sessionID operatorID : string) (r : Repository)
    : (RepositoryError.t + Session.t) * Repository :=
  let session :=
    {| Session.ID := sessionID; Session.Status := "active";
       Session.OperatorID := operatorID; Session.IsCommitted := false;
       Session.TxHash := None |} in
  let dbTx := Begin r in
  match Create_Session session dbTx with
  | inl (PgError code message detail) =>
      (inl (mkErr code message detail), Rollback r dbTx)
  | inl err =>
      (inl (mkErr "DATABASE_ERROR" "Database error occured" (Error err)),
       Rollback r dbTx)
  | inr dbTx1 => (inr session, CommitTx r dbTx1)
  end.

(** [ScanPackage] (part_004:313). *)
Definition ScanPackage (sessionID packageID : string) (r : Repository)
    : (RepositoryError.t + Package.t) * Repository :=
  let dbTx := Begin r in
  match First (fun p => String.eqb (Package.ID p) packageID) (packages dbTx) with
  | inl ErrRecordNotFound =>
      (inl (mkErr "ENTITY_NOT_FOUND" "Package does not exist"
              (GoString.concat ["Package with id "; packageID; " does not exist"])),
       Rollback r dbTx)
  | inl err =>
      (inl (mkErr "DATABASE_ERROR" "Database error" (Error err)), Rollback r dbTx)
  | inr row =>
      let pkg := with_status "pending_validation" (preload_items_supplier dbTx row) in
      match Save_Package pkg dbTx with
      | inl err =>
          (inl (mkErr "UPDATE_FAILED" "Failed to update package" (Error err)),
           Rollback r dbTx)
      | inr dbTx1 => (inr pkg, CommitTx r dbTx1)
      end
  end.

(** [ValidatePackage] (part_004:363). *)
Definition ValidatePackage (supplierSignature packageID SessionID : string)
    (r : Repository) : (RepositoryError.t + Package.t) * Repository :=
  let dbTx := Begin r in
  match First (fun p => String.eqb (Package.ID p) packageID) (packages dbTx) with
  | inl ErrRecordNotFound =>
      (inl (mkErr "ENTITY_NOT_FOUND" "Package does not exist"
              (GoString.concat ["Package with id "; packageID; " does not exist"])),
       Rollback r dbTx)
  | inl err =>
      (inl (mkErr "DATABASE_ERROR" "Database error" (Error err)), Rollback r dbTx)
  | inr row =>
      let loaded := preload_items_supplier dbTx row in
      let pkg :=
        {| Package.ID := Package.ID loaded; Package.SessionID := Some SessionID;
           Package.SupplierID := Package.SupplierID loaded;
           Package.DeliveryNoteID := Package.DeliveryNoteID loaded;
           Package.Signature := Package.Signature loaded;
           Package.IsTrusted := true;
           Package.Status := "validated";
           Package.Items := Package.Items loaded;
           Package.Supplier := Package.Supplier loaded;
           Package.QCRecords := Package.QCRecords loaded |} in
      match Save_Package pkg dbTx with
      | inl err =>
          (inl (mkErr "UPDATE_FAILED" "Failed to update package" (Error err)),
           Rollback r dbTx)
      | inr dbTx1 => (inr pkg, CommitTx r dbTx1)
      end
  end.

(** The id of a QC record (part_004:477). The digest has 32 bytes, so its
    hexadecimal form has 64 characters and [[:16]] is its first 16. *)
Definition qcID (packageID sessionID : string) : string :=
  let compositeID := packageID +:+ sessionID in
  let hash := SHA256.Sum256 compositeID in
  "QC-" +:+ String.substring 0 16 (Hex.EncodeToString hash).

(** [QualityCheck] (part_004:412). *)
Definition QualityCheck `{Outside} (sessionID : string) (qcPassed : bool)
    (issues : list string) (r : Repository)
    : (RepositoryError.t + Package.t * QCRecord.t) * Repository :=
  let dbTx := Begin r in
  match First (fun s => String.eqb (Session.ID s) sessionID) (sessions dbTx) with
  | inl ErrRecordNotFound =>
      (inl (mkErr "ENTITY_NOT_FOUND" "Session does not exist"
              (GoString.concat ["Session with id "; sessionID; " does not exist"])),
       Rollback r dbTx)
  | inl err =>
      (inl (mkErr "DATABASE_ERROR" "Database error" (Error err)), Rollback r dbTx)
  | inr session =>
      match First (same_session sessionID) (packages dbTx) with
      | inl ErrRecordNotFound =>
          (inl (mkErr "ENTITY_NOT_FOUND" "Package does not exist"
                  (GoString.concat ["Package associated with session "; sessionID;
                                    " does not exist"])),
           Rollback r dbTx)
      | inl err =>
          (inl (mkErr "DATABASE_ERROR" "Database error" (Error err)),
           Rollback r dbTx)
      | inr row =>
          let pkg := preload_items dbTx row in
          if negb (String.eqb (Package.Status pkg) "validated") then
            (inl (mkErr "INVALID_STATE" "Package is not ready for QC"
                    (GoString.concat ["Package status is "; Package.Status pkg;
                                      ", must be 'validated'"])),
             Rollback r dbTx)
          else
            let marshalled :=
              if (0 <? Z.of_nat (List.length issues))
              then Marshal_issues issues else inr EmptyString in
            match marshalled with
            | inl err =>
                (inl (mkErr "MARSHALING_ERROR" "Failed to process issues data" err),
                 Rollback r dbTx)
            | inr issuesStr =>
                let qcRecord :=
                  {| QCRecord.ID := qcID (Package.ID pkg) sessionID;
                     QCRecord.PackageID := Package.ID pkg;
                     QCRecord.SessionID := sessionID;
                     QCRecord.Passed := qcPassed;
                     QCRecord.InspectorID := Session.OperatorID session;
                     QCRecord.Issues := issuesStr |} in
                match Create_QCRecord qcRecord dbTx with
                | inl err =>
                    (inl (mkErr "INSERT_FAILED" "Failed to create QC record"
                            (Error err)),
                     Rollback r dbTx)
                | inr dbTx1 =>
                    let pkg1 :=
                      with_status (if qcPassed then "qc_passed" else "qc_failed") pkg in
                    match Save_Package pkg1 dbTx1 with
                    | inl err =>
                        (inl (mkErr "UPDATE_FAILED" "Failed to update package status"
                                (Error err)),
                         Rollback r dbTx)
                    | inr dbTx2 => (inr (pkg1, qcRecord), CommitTx r dbTx2)
                    end
                end
            end
      end
  end.

(** The id of a label (part_004:600). *)
Definition labelID (courierID packageID sessionID : string) : string :=
  let hash := SHA256.Sum256 (courierID +:+ packageID +:+ sessionID) in
  "LBL-" +:+ String.substring 0 16 (Hex.EncodeToString hash).

(** [LabelPackage] (part_004:535). *)
Definition LabelPackage (sessionID destination priority courierID : string)
    (r : Repository) : (RepositoryError.t + Label.t) * Repository :=
  let dbTx := Begin r in
  match First (fun s => String.eqb (Session.ID s) sessionID) (sessions dbTx) with
  | inl ErrRecordNotFound =>
      (inl (mkErr "ENTITY_NOT_FOUND" "Session does not exist"
              (GoString.concat ["Session with id "; sessionID; " does not exist"])),
       Rollback r dbTx)
  | inl err =>
      (inl (mkErr "DATABASE_ERROR" "A database error occurred" (Error err)),
       Rollback r dbTx)
  | inr session =>
      match First (same_session sessionID) (packages dbTx) with
      | inl ErrRecordNotFound =>
          (inl (mkErr "ENTITY_NOT_FOUND" "No package found for this session"
                  (GoString.concat ["No package found for session "; sessionID])),
           Rollback r dbTx)
      | inl err =>
          (inl (mkErr "DATABASE_ERROR" "A database error occurred" (Error err)),
           Rollback r dbTx)
      | inr pkg =>
          match First (fun c => String.eqb (Courier.ID c) courierID) (couriers dbTx) with
          | inl ErrRecordNotFound =>
              (inl (mkErr "ENTITY_NOT_FOUND" "Courier does not exist"
                      (GoString.concat ["Courier with id "; courierID;
                                        " does not exist"])),
               Rollback r dbTx)
          | inl err =>
              (inl (mkErr "DATABASE_ERROR" "A database error occurred" (Error err)),
               Rollback r dbTx)
          | inr courier =>
              let newLabel :=
                {| Label.ID := labelID (Courier.ID courier) (Package.ID pkg) sessionID;
                   Label.PackageID := Package.ID pkg;
                   Label.SessionID := Session.ID session;
                   Label.Destination := destination;
                   Label.CourierID := Courier.ID courier;
                   Label.Courier := Courier.Name courier;
                   Label.Priority := priority |} in
              match Create_Label newLabel dbTx with
              | inl err =>
                  (inl (mkErr "DATABASE_ERROR" "Failed to create label" (Error err)),
                   Rollback r dbTx)
              | inr dbTx1 =>
                  match First (fun l => String.eqb (Label.ID l) (Label.ID newLabel))
                              (labels dbTx1) with
                  | inl err =>
                      (inl (mkErr "DATABASE_ERROR"
                              "Label created but couldn't be verified" (Error err)),
                       Rollback r dbTx)
                  | inr _ => (inr newLabel, CommitTx r dbTx1)
                  end
              end
          end
      end
  end.

(** [CommitToL1] (part_004:882). *)
Definition CommitToL1 `{Outside} (r : Repository)
    (sessionID operatorID packageID supplierSignature destination priority
     courierID : string) (qcPassed : bool) (issues : list string)
    : RepositoryError.t + ConsensusResult.t :=
  match l1Addresses r with
  | [] =>
      inl (mkErr "CONFIG_ERROR" "No L1 node addresses configured"
             "l1Addresses slice is empty")
  | addr0 :: _ =>
      let payload :=
        {| session_id := sessionID; operator_id := operatorID;
           package_id := packageID; supplier_signature := supplierSignature;
           destination := destination; priority := priority;
           courier_id := courierID; qc_passed := qcPassed; issues := issues;
           timestamp := time_Now |} in
      match Marshal_payload payload with
      | inl err =>
          inl (mkErr "SERIALIZATION_ERROR" "Failed to serialize L1 commit payload" err)
      | inr payloadBytes =>
          let url :=
            GoString.concat ["http://"; addr0; "/session/"; sessionID; "/commit-l1"] in
          match http_POST url payloadBytes with
          | RequestError err =>
              inl (mkErr "REQUEST_ERROR" "Failed to create HTTP request" err)
          | NetworkError err =>
              inl (mkErr "NETWORK_ERROR" "Failed to connect to L1 node" err)
          | ReadError err =>
              inl (mkErr "READ_ERROR" "Failed to read response from L1 node" err)
          | Replied _ bodyBytes =>
              match Unmarshal_ClientResponse bodyBytes with
              | inl err =>
                  inl (mkErr "PARSE_ERROR" "Failed to parse L1 node response" err)
              | inr meta =>
                  inr {| ConsensusResult.BlockHeight := block_height meta;
                         ConsensusResult.TxHash := block_hash meta;
                         ConsensusResult.Code := 0 |}
              end
          end
      end
  end.

(** [CommitSession] (part_004:664). *)
Definition CommitSession `{Outside} (sessionID operatorID : string)
    (r : Repository)
    : Outcome (RepositoryError.t + Transaction.t) * Repository :=
  let dbTx := Begin r in
  match First (fun s => String.eqb (Session.ID s) sessionID) (sessions dbTx) with
  | inl ErrRecordNotFound =>
      (Ret (inl (mkErr "ENTITY_NOT_FOUND" "Session does not exist"
                   (GoString.concat ["Session with id "; sessionID;
                                     " does not exist"]))),
       abandon r dbTx)
  | inl (PgError code message detail) =>
      (Ret (inl (mkErr code message detail)), abandon r dbTx)
  | inr session =>
      if String.eqb (Session.Status session) "committed" then
        (Ret (inl (mkErr "CONFLICT" "Session already committed"
                     "the session is already committed")),
         abandon r dbTx)
      else if negb (String.eqb operatorID (Session.OperatorID session)) then
        (Ret (inl (mkErr "UNAUTHORIZED" "Authorization Failed"
                     "you are not authorized to commit this session")),
         abandon r dbTx)
      else
        match First (same_session (Session.ID session)) (packages dbTx) with
        | inl ErrRecordNotFound =>
            (Ret (inl (mkErr "INVALID_STATE" "Session not ready for commit"
                         (GoString.concat ["Session "; sessionID;
                            " does not have a package associated to it"]))),
             abandon r dbTx)
        | inl (PgError code message detail) =>
            (Ret (inl (mkErr code message detail)), abandon r dbTx)
        | inr row =>
            let pkg := preload_items_qc rows_order dbTx row in
            if negb (String.eqb (Package.Status pkg) "qc_passed") then
              (Ret (inl (mkErr "INVALID_STATE" "Package not ready for commit"
                           (GoString.concat ["Package status is "; Package.Status pkg;
                                             ", must be 'qc_passed'"]))),
               Rollback r dbTx)
            else
              match First (fun l => String.eqb (Label.PackageID l) (Package.ID pkg))
                          (labels dbTx) with
              | inl ErrRecordNotFound =>
                  (Ret (inl (mkErr "INVALID_STATE" "Package not labeled"
                               "Package must be labeled before committing")),
                   Rollback r dbTx)
              | inl _ =>
                  (Ret (inl (mkErr "INVALID_STATE" "Package not ready for commit"
                               (GoString.concat ["Package "; Package.ID pkg;
                                                 ", is not yet labelled"]))),
                   Rollback r dbTx)
              | inr label =>
                  let qcPassed := String.eqb (Package.Status pkg) "qc_passed" in
                  match Package.QCRecords pkg with
                  | [] => (Panic "index out of range [0] with length 0",
                           abandon r dbTx)
                  | qc0 :: _ =>
                      let rawIssues := QCRecord.Issues qc0 in
                      match GoString.slice rawIssues 1
                              (Z.of_nat (String.length rawIssues) - 1) with
                      | None => (Panic "slice bounds out of range", abandon r dbTx)
                      | Some rawIssues1 =>
                          let issues := GoString.Split "," rawIssues1 in
                          match CommitToL1 r (Session.ID session)
                                  (Session.OperatorID session) (Package.ID pkg)
                                  "signature123" (Label.Destination label)
                                  (Label.Priority label) (Label.CourierID label)
                                  qcPassed issues with
                          | inl repoErr => (Ret (inl repoErr), Rollback r dbTx)
                          | inr l1Resp =>
                              let tx :=
                                {| Transaction.TxHash := EmptyString;
                                   Transaction.SessionID := Session.ID session;
                                   Transaction.BlockHeight :=
                                     ConsensusResult.BlockHeight l1Resp;
                                   Transaction.Status := "committed" |} in
                              let session1 :=
                                {| Session.ID := Session.ID session;
                                   Session.Status := "committed";
                                   Session.OperatorID := Session.OperatorID session;
                                   Session.IsCommitted := true;
                                   Session.TxHash := Some (Transaction.TxHash tx) |} in
                              match Save_Session session1 dbTx with
                              | inl err =>
                                  (Ret (inl (mkErr "DATABASE_ERROR"
                                               "Failed to update session status"
                                               (Error err))),
                                   Rollback r dbTx)
                              | inr dbTx1 =>
                                  let pkg1 := with_status "committed" pkg in
                                  match Save_Package pkg1 dbTx1 with
                                  | inl err =>
                                      (Ret (inl (mkErr "DATABASE_ERROR"
                                                   "Failed to update package status"
                                                   (Error err))),
                                       Rollback r dbTx)
                                  | inr dbTx2 =>
                                      match Create_Transaction tx dbTx2 with
                                      | inl err =>
                                          (Ret (inl (mkErr "CONSENSUS_ERROR"
                                                       "a consensus error occurred"
                                                       (Error err))),
                                           Rollback r dbTx)
                                      | inr dbTx3 =>
                                          (Ret (inr tx), CommitTx r dbTx3)
                                      end
                                  end
                              end
                          end
                      end
                  end
              end
        end
  end.

End repository.

(* ===================================================================== *)
(** ** srvreg handlers (the handler file, label.go:183-649) *)
(* ===================================================================== *)

Module handlers.
Import srvreg models store repository.

Module startSessionHandlerBody.
Record t := { OperatorID : string }.
End startSessionHandlerBody.

Module scanPackageHandlerBody.
Record t := { PackageID : string }.
End scanPackageHandlerBody.

Module validatePackageHandlerBody.
Record t := { Signature : string; PackageID : string }.
End validatePackageHandlerBody.

Module QualityCheckBody.
Record t := { Passed : bool; Issues : list string }.
End QualityCheckBody.

Module labelPackageHandlerBody.
Record t := {
  Label : string; Destination : string; Priority : string; CourierID : string
}.
End labelPackageHandlerBody.

Module commitSessionHandlerBody.
Record t := { OperatorID : string }.
End commitSessionHandlerBody.

Module receiveCommitHandlerBody.
Record t := {
  OperatorID : string;
  PackageID : string;
  SupplierSignature : string;
  QcPassed : bool;
  Issues : list string;
  Timestamp : Z;
  Label : string;
  Destination : string;
  Priority : string;
  CourierID : string
}.
End receiveCommitHandlerBody.

(** encoding/json on the bodies of the requests and on what the handlers
    print: [json.Unmarshal] into each body struct (the error text, or the
    struct), and [json.Marshal] of the item list and of a ledger record. *)
Class BodyCodec := {
  Unmarshal_startSession : string -> string + startSessionHandlerBody.t;
  Unmarshal_scanPackage : string -> string + scanPackageHandlerBody.t;
  Unmarshal_validatePackage : string -> string + validatePackageHandlerBody.t;
  Unmarshal_QualityCheck : string -> string + QualityCheckBody.t;
  Unmarshal_labelPackage : string -> string + labelPackageHandlerBody.t;
  Unmarshal_commitSession : string -> string + commitSessionHandlerBody.t;
  Unmarshal_receiveCommit : string -> string + receiveCommitHandlerBody.t;
  Marshal_expectedContents : list Item.t -> string + string;
  Marshal_Transaction : Transaction.t -> string
}.

Definition StatusOK : Z := 200.
Definition StatusCreated : Z := 201.
Definition StatusAccepted : Z := 202.
Definition StatusBadRequest : Z := 400.
Definition StatusNotFound : Z := 404.
Definition StatusConflict : Z := 409.
Definition StatusUnprocessableEntity : Z := 422.
Definition StatusInternalServerError : Z := 500.

Definition defaultHeaders : gmap string string :=
  {[ "Content-Type" := "application/json" ]}.

Definition mkResponse (status : Z) (body : string) : Response :=
  {| StatusCode := status; RHeaders := defaultHeaders; RBody := body;
     srvreg.Error := EmptyString |}.

(** The text [{"error":"msg"}]. *)
Definition errorBody (msg : string) : string :=
  GoString.concat ["{"; GoString.q "error"; ":"; GoString.q msg; "}"].

(** [fmt.Sprintf("%v", dbErr)] for a pointer to a [RepositoryError]. *)
Definition show_RepositoryError (e : RepositoryError.t) : string :=
  GoString.concat ["&{"; RepositoryError.Code e; " "; RepositoryError.Message e;
                   " "; RepositoryError.Detail e; "}"].

Definition nl : string := String (ascii_of_nat 10) EmptyString.
Definition tab : string := String (ascii_of_nat 9) EmptyString.

(** [strings.Replace(s, c, "", -1)] for a one-byte [c]. *)
Fixpoint removeByte (c : ascii) (s : string) : string :=
  match s with
  | EmptyString => EmptyString
  | String x r => if Ascii.eqb x c then removeByte c r else String x (removeByte c r)
  end.

(** [strings.Replace(s, "    ", "", -1)]: runs of four spaces, from the left. *)
Fixpoint removeFourSpaces (s : string) : string :=
  match s with
  | EmptyString => EmptyString
  | String a r =>
      match r with
      | String b (String c (String d r4)) =>
          if Ascii.eqb a " " && Ascii.eqb b " " && Ascii.eqb c " " && Ascii.eqb d " "
          then removeFourSpaces r4
          else String a (removeFourSpaces r)
      | _ => String a (removeFourSpaces r)
      end
  end.

(** Segments of the path and the session id at index 2, as every handler
    with a session in its path reads them: [None] when the path does not
    have four segments. *)
Definition sessionOfPath (path : string) : option string :=
  let pathParts := GoString.Split "/" path in
  if negb (Nat.eqb (List.length pathParts) 4) then None
  else List.nth_error pathParts 2.

Definition invalidPath : HandlerResult :=
  (Some (mkResponse StatusBadRequest (errorBody "Invalid path format")),
   Some "invalid path format").

(** The [switch dbErr.Code] of [CreateSessionHandler]. *)
Definition CreateSession_failed (dbErr : RepositoryError.t) : HandlerResult :=
  if String.eqb (RepositoryError.Code dbErr) PgErrForeignKeyViolation then
    (Some (mkResponse StatusBadRequest (errorBody (RepositoryError.Detail dbErr))),
     Some ("foreign key violation: " +:+ RepositoryError.Message dbErr))
  else if String.eqb (RepositoryError.Code dbErr) PgErrUniqueViolation then
    (Some (mkResponse StatusConflict (errorBody (RepositoryError.Detail dbErr))),
     Some ("unique violation: " +:+ RepositoryError.Message dbErr))
  else
    (Some (mkResponse StatusInternalServerError (errorBody "Internal server error")),
     None).

(** [CreateSessionHandler] (label.go:201). *)
Definition CreateSessionHandler `{BodyCodec} : ServiceHandler Repository :=
  fun req r =>
  let sessionID := "SESSION-" +:+ RequestID req in
  match Unmarshal_startSession (Body req) with
  | inl err =>
      (Ret (Some (mkResponse StatusUnprocessableEntity
                    (errorBody ("Failed to create session: " +:+ err))),
            Some err), r)
  | inr body =>
      let operatorID := startSessionHandlerBody.OperatorID body in
      if String.eqb operatorID EmptyString then
        (Ret (Some (mkResponse StatusBadRequest (errorBody "operator ID is required")),
              None), r)
      else
        match CreateSession sessionID operatorID r with
        | (inl dbErr, r1) => (Ret (CreateSession_failed dbErr), r1)
        | (inr session, r1) =>
            (Ret (Some (mkResponse StatusCreated
                          (GoString.concat
                             ["{"; GoString.q "message"; ":";
                              GoString.q "Session generated"; ",";
                              GoString.q "id"; ":"; GoString.q (Session.ID session);
                              "}"])),
                  None), r1)
        end
  end.

(** The [switch dbErr.Code] of [ScanPackageHandler], [ValidatePackageHandler]
    and [QualityCheckHandler]. *)
Definition notFound_or_500 (dbErr : RepositoryError.t) : HandlerResult :=
  if String.eqb (RepositoryError.Code dbErr) "ENTITY_NOT_FOUND" then
    (Some (mkResponse StatusNotFound (errorBody (RepositoryError.Message dbErr))),
     Some ("entity not found: " +:+ RepositoryError.Message dbErr))
  else
    (Some (mkResponse StatusInternalServerError (errorBody "Internal server error")),
     None).

Definition ScanPackage_failed : RepositoryError.t -> HandlerResult := notFound_or_500.
Definition ValidatePackage_failed : RepositoryError.t -> HandlerResult := notFound_or_500.
Definition QualityCheck_failed : RepositoryError.t -> HandlerResult := notFound_or_500.

(** The body of a successful scan, before and after the three
    [strings.Replace]. *)
Definition scanBody (supplierName packageID contentsJSON signature : string) : string :=
  let t3 := tab +:+ tab +:+ tab in
  let response :=
    GoString.concat
      ["{"; nl;
       t3; GoString.q "status"; ": 200,"; nl;
       t3; GoString.q "source"; ": "; GoString.q supplierName; ","; nl;
       t3; GoString.q "package_id"; ": "; GoString.q packageID; ","; nl;
       t3; GoString.q "expected_contents"; ": "; contentsJSON; ","; nl;
       t3; GoString.q "supplier_signature"; ": "; GoString.q signature; ","; nl;
       t3; GoString.q "next_step"; ": "; GoString.q "validate"; nl;
       tab; "}"] in
  removeByte (ascii_of_nat 9)
    (removeFourSpaces (removeByte (ascii_of_nat 10) response)).

(** [ScanPackageHandler] (label.go:258). *)
Definition ScanPackageHandler `{BodyCodec} : ServiceHandler Repository :=
  fun req r =>
  match Unmarshal_scanPackage (Body req) with
  | inl err =>
      (Ret (Some (mkResponse StatusUnprocessableEntity
                    (errorBody ("Invalid body format: " +:+ err))),
            Some "invalid body format"), r)
  | inr body =>
      match sessionOfPath (Path req) with
      | None => (Ret invalidPath, r)
      | Some sessionID =>
          if String.eqb (scanPackageHandlerBody.PackageID body) EmptyString then
            (Ret (None, Some "package_id is required"), r)
          else
            match ScanPackage sessionID (scanPackageHandlerBody.PackageID body) r with
            | (inl dbErr, r1) => (Ret (ScanPackage_failed dbErr), r1)
            | (inr pkg, r1) =>
                match Marshal_expectedContents (Package.Items pkg) with
                | inl _ =>
                    (Ret (Some (mkResponse StatusInternalServerError
                                  (errorBody "Failed to process item data")),
                          None), r1)
                | inr contentsJSON =>
                    let supplierName :=
                      match Package.Supplier pkg with
                      | Some s => Supplier.Name s
                      | None => "Unknown Supplier"
                      end in
                    (Ret (Some (mkResponse StatusOK
                                  (scanBody supplierName (Package.ID pkg) contentsJSON
                                     (Package.Signature pkg))),
                          None), r1)
                end
            end
      end
  end.

(** [ValidatePackageHandler] (label.go:353). *)
Definition ValidatePackageHandler `{BodyCodec} : ServiceHandler Repository :=
  fun req r =>
  match Unmarshal_validatePackage (Body req) with
  | inl err =>
      (Ret (Some (mkResponse StatusUnprocessableEntity
                    (errorBody ("Invalid body format: " +:+ err))),
            Some "invalid body format"), r)
  | inr body =>
      if String.eqb (validatePackageHandlerBody.Signature body) EmptyString then
        (Ret (Some (mkResponse StatusBadRequest (errorBody "signature is required")),
              None), r)
      else if String.eqb (validatePackageHandlerBody.PackageID body) EmptyString then
        (Ret (Some (mkResponse StatusBadRequest (errorBody "package_id is required")),
              None), r)
      else
        match sessionOfPath (Path req) with
        | None => (Ret invalidPath, r)
        | Some sessionID =>
            match ValidatePackage (validatePackageHandlerBody.Signature body)
                    (validatePackageHandlerBody.PackageID body) sessionID r with
            | (inl dbErr, r1) => (Ret (ValidatePackage_failed dbErr), r1)
            | (inr pkg, r1) =>
                match Package.Supplier pkg with
                | None =>
                    (Panic "invalid memory address or nil pointer dereference", r1)
                | Some supplier =>
                    (Ret (Some (mkResponse StatusAccepted
                                  (GoString.concat
                                     ["{"; GoString.q "message"; ":";
                                      GoString.q "package validated successfully"; ",";
                                      GoString.q "package_id"; ":";
                                      GoString.q (Package.ID pkg); ",";
                                      GoString.q "supplier"; ":";
                                      GoString.q (Supplier.Name supplier); ",";
                                      GoString.q "session_id"; ":";
                                      GoString.q sessionID; "}"])),
                          None), r1)
                end
            end
        end
  end.

(** The body of a successful quality check, with the line breaks and tabs
    of the format string. *)
Definition qcBody (packageID qcRecordID inspectorID : string) : string :=
  let t2 := tab +:+ tab in
  GoString.concat
    ["{"; nl;
     t2; GoString.q "message"; ":";
         GoString.q ("QC record created for package " +:+ packageID); ","; nl;
     t2; GoString.q "package_id"; ":"; GoString.q packageID; ","; nl;
     t2; GoString.q "qc_record_id"; ":"; GoString.q qcRecordID; ","; nl;
     t2; GoString.q "operator_id"; ": "; GoString.q inspectorID; nl;
     t2; "}"].

(** [QualityCheckHandler] (label.go:419). The repository returns either an
    error or both records, so the [qcRecord == nil] test after the error
    switch never holds. *)
Definition QualityCheckHandler `{BodyCodec} `{Outside} : ServiceHandler Repository :=
  fun req r =>
  match sessionOfPath (Path req) with
  | None => (Ret invalidPath, r)
  | Some sessionID =>
      match Unmarshal_QualityCheck (Body req) with
      | inl err =>
          (Ret (Some (mkResponse StatusUnprocessableEntity
                        (errorBody ("Invalid body format: " +:+ err))),
                Some "invalid body format"), r)
      | inr body =>
          match QualityCheck sessionID (QualityCheckBody.Passed body)
                  (QualityCheckBody.Issues body) r with
          | (inl dbErr, r1) => (Ret (QualityCheck_failed dbErr), r1)
          | (inr (pkg, qcRecord), r1) =>
              (Ret (Some (mkResponse StatusAccepted
                            (qcBody (Package.ID pkg) (QCRecord.ID qcRecord)
                               (QCRecord.InspectorID qcRecord))),
                    None), r1)
          end
      end
  end.

(** The chain of [if dbErr.Code == ...] of [LabelPackageHandler]. *)
Definition LabelPackage_failed (dbErr : RepositoryError.t) : HandlerResult :=
  let err := Some ("database error: " +:+ show_RepositoryError dbErr) in
  if String.eqb (RepositoryError.Code dbErr) "ENTITY_NOT_FOUND" then
    (Some (mkResponse StatusNotFound (errorBody (RepositoryError.Detail dbErr))), err)
  else if String.eqb (RepositoryError.Code dbErr) PgErrForeignKeyViolation then
    (Some (mkResponse StatusBadRequest (errorBody (RepositoryError.Detail dbErr))), err)
  else
    (Some (mkResponse StatusInternalServerError
             (errorBody (RepositoryError.Detail dbErr))), err).

(** The operation [LabelPackage] that the handler file calls, with the
    text of the label as its second argument. The repository under src/
    has [LabelPackage] without that argument, so the operation the handler
    calls is not under src/ and is a parameter. *)
Class LabelOperation := {
  LabelPackage_with_label :
    string -> string -> string -> string -> string -> Repository ->
    (RepositoryError.t + Label.t) * Repository
}.

(** [LabelPackageHandler] (label.go:486). *)
Definition LabelPackageHandler `{BodyCodec} `{LabelOperation}
    : ServiceHandler Repository :=
  fun req r =>
  match sessionOfPath (Path req) with
  | None => (Ret invalidPath, r)
  | Some sessionID =>
      match Unmarshal_labelPackage (Body req) with
      | inl err =>
          (Ret (Some (mkResponse StatusUnprocessableEntity (errorBody err)),
                Some err), r)
      | inr body =>
          match LabelPackage_with_label sessionID
                  (labelPackageHandlerBody.Label body)
                  (labelPackageHandlerBody.Destination body)
                  (labelPackageHandlerBody.Priority body)
                  (labelPackageHandlerBody.CourierID body) r with
          | (inl dbErr, r1) => (Ret (LabelPackage_failed dbErr), r1)
          | (inr newLabel, r1) =>
              (Ret (Some (mkResponse StatusAccepted
                            (GoString.concat
                               ["{"; GoString.q "label_id"; ":";
                                GoString.q (Label.ID newLabel); "}"])),
                    None), r1)
          end
      end
  end.

(** The chain of [if dbErr.Code == ...] of [CommitSessionHandler]. *)
Definition CommitSession_failed (dbErr : RepositoryError.t) : HandlerResult :=
  let err := Some ("database error: " +:+ show_RepositoryError dbErr) in
  if String.eqb (RepositoryError.Code dbErr) "INVALID_STATE" then
    (Some (mkResponse StatusConflict (errorBody (RepositoryError.Detail dbErr))), err)
  else if String.eqb (RepositoryError.Code dbErr) "ENTITY_NOT_FOUND" then
    (Some (mkResponse StatusNotFound (errorBody (RepositoryError.Detail dbErr))), err)
  else if String.eqb (RepositoryError.Code dbErr) PgErrForeignKeyViolation then
    (Some (mkResponse StatusBadRequest (errorBody (RepositoryError.Detail dbErr))), err)
  else
    (Some (mkResponse StatusInternalServerError
             (errorBody (RepositoryError.Detail dbErr))), err).

(** [CommitSessionHandler] (label.go:543). *)
Definition CommitSessionHandler `{BodyCodec} `{Outside} : ServiceHandler Repository :=
  fun req r =>
  match sessionOfPath (Path req) with
  | None => (Ret invalidPath, r)
  | Some sessionID =>
      match Unmarshal_commitSession (Body req) with
      | inl err =>
          (Ret (Some (mkResponse StatusUnprocessableEntity (errorBody err)),
                Some err), r)
      | inr body =>
          match CommitSession sessionID (commitSessionHandlerBody.OperatorID body) r with
          | (Panic why, r1) => (Panic why, r1)
          | (Ret (inl dbErr), r1) => (Ret (CommitSession_failed dbErr), r1)
          | (Ret (inr tx), r1) =>
              (Ret (Some (mkResponse StatusAccepted
                            (GoString.concat
                               ["{"; GoString.q "tx"; ":"; Marshal_Transaction tx; "}"])),
                    None), r1)
          end
      end
  end.

(** The layer-1 repository, whose source is not under src/: the one
    operation the handler file calls on it, over its own store [L1]. *)
Class L1Repository (L1 : Type) := {
  ReplicateCommitFromL2 :
    string -> string -> string -> string -> string -> string -> string -> string ->
    bool -> list string -> L1 -> option RepositoryError.t * L1
}.

(** [ReceiveCommitHandler] (label.go:615). In its last error return the
    variable [err] is the nil result of [json.Unmarshal]. *)
Definition ReceiveCommitHandler `{BodyCodec} {L1 : Type} `{L1Repository L1}
    : ServiceHandler L1 :=
  fun req r =>
  match sessionOfPath (Path req) with
  | None => (Ret invalidPath, r)
  | Some sessionID =>
      match Unmarshal_receiveCommit (Body req) with
      | inl err =>
          (Ret (Some (mkResponse StatusUnprocessableEntity EmptyString), Some err), r)
      | inr body =>
          match ReplicateCommitFromL2 sessionID
                  (receiveCommitHandlerBody.OperatorID body)
                  (receiveCommitHandlerBody.PackageID body)
                  (receiveCommitHandlerBody.SupplierSignature body)
                  (receiveCommitHandlerBody.Label body)
                  (receiveCommitHandlerBody.Destination body)
                  (receiveCommitHandlerBody.Priority body)
                  (receiveCommitHandlerBody.CourierID body)
                  (receiveCommitHandlerBody.QcPassed body)
                  (receiveCommitHandlerBody.Issues body) r with
          | (Some repoErr, r1) =>
              (Ret (Some (mkResponse StatusUnprocessableEntity
                            (errorBody
                               (GoString.concat
                                  [RepositoryError.Code repoErr; ", ";
                                   RepositoryError.Message repoErr; ", ";
                                   RepositoryError.Detail repoErr]))),
                    None), r1)
          | (None, r1) =>
              (Ret (Some (mkResponse StatusAccepted (Body req)), None), r1)
          end
      end
  end.

End handlers.

(* ===================================================================== *)
(** ** GenerateResponse (service-registry.go:280) and the layer-2 web
       server (part_002) *)
(* ===================================================================== *)

Module server.
Import srvreg repository.

Definition notFoundResponse (req : Request) : Response :=
  {| StatusCode := 404;
     RHeaders := {[ "Content-Type" := "text/plain" ]};
     RBody := GoString.concat ["Service not found for "; Method req; " "; Path req];
     srvreg.Error := EmptyString |}.

(** The rewrite of a successful response by a node in Byzantine mode. *)
Definition corrupt (response : Response) : Response :=
  if Z.eqb (StatusCode response) 200 || Z.eqb (StatusCode response) 201 then
    {| StatusCode := 500;
       RHeaders := RHeaders response;
       RBody := GoString.concat
                  ["{"; GoString.q "message"; ": ";
                   GoString.q "Byzantiner node response - data corrupted"; "}"];
       srvreg.Error := srvreg.Error response |}
  else response.

(** [GenerateResponse]. *)
Definition GenerateResponse {St : Type}
    (visit : list (RouteKey * ServiceHandler St))
    (services : ServiceRegistry (ServiceHandler St))
    (req : Request) (st : St) : Outcome HandlerResult * St :=
  match GetHandlerForPath visit services (Method req) (Path req) with
  | None => (Ret (Some (notFoundResponse req), None), st)
  | Some handler =>
      match handler req st with
      | (Panic why, st1) => (Panic why, st1)
      | (Ret (response, err), st1) =>
          if isByzantine services then
            match response with
            | None =>
                (Panic "invalid memory address or nil pointer dereference", st1)
            | Some resp => (Ret (Some (corrupt resp), err), st1)
            end
          else (Ret (response, err), st1)
      end
  end.

(** What [BroadcastTxCommit] gives: an error, or the hash of the
    transaction, the height of its block and the code of CheckTx. *)
Inductive BroadcastResult :=
| BroadcastFailed (err : string)
| BroadcastDone (hash : list Z) (height : Z) (checkTxCode : Z).

(** The consensus engine as the server and the repository call it:
    [BroadcastTxCommit] on the bytes of an envelope, and [Block] at a
    height (an error, or the transactions of the block; [None] is a
    result without a block). *)
Class Engine := {
  BroadcastTxCommit : string -> BroadcastResult;
  Block : Z -> string + option (list string)
}.

(** [RunConsensus] (part_004:819), under the background context the
    server passes, which is never done. *)
Definition RunConsensus `{app.EnvelopeCodec} `{Engine} (payload : Transaction)
    : RepositoryError.t + ConsensusResult.t :=
  let payloadBytes := app.Marshal payload in
  match BroadcastTxCommit payloadBytes with
  | BroadcastFailed err =>
      inl (mkErr "CONSENSUS_ERROR" "Failed to commit to blockchain" err)
  | BroadcastDone hash height code =>
      if negb (Z.eqb code 0) then
        inl (mkErr "CONSENSUS_ERROR" "Blockchain rejected transaction"
               ("CheckTx code: " +:+ pretty code))
      else
        inr {| ConsensusResult.TxHash := Hex.EncodeToString hash;
               ConsensusResult.BlockHeight := height;
               ConsensusResult.Code := code |}
  end.

(** The loop over the transactions of a block: each one in base64, and
    the ones that decode, each with the [BodyInterface] that the loop sets
    on its response. *)
Fixpoint blockTransactions `{app.EnvelopeCodec} `{BodyParser} (txs : list string)
    : list (Transaction * option JSON) * list string :=
  match txs with
  | [] => ([], [])
  | tx :: rest =>
      let b64Tx := Base64.EncodeToString tx in
      let '(parsed, b64) := blockTransactions rest in
      match app.Unmarshal_val tx with
      | (parsedTx, None) =>
          ((parsedTx, ParseBody (TResponse parsedTx)) :: parsed, b64Tx :: b64)
      | (_, Some _) => (parsed, b64Tx :: b64)
      end
  end.

(** [ClientResponse]: what the client is sent on the normal path. [CBody]
    is the [interface{}] that [ParseBody] returned, [None] for nil. Of
    [Meta] the fields [TxID], [RequestID], [BlockHeight] and [BlockTxs] are
    kept; its [Status] is the constant
    confirmed, and [ConfirmTime] and [ResponseInfo] are left out, as is the
    empty [BlockchainRef]. *)
Record ClientResponse := {
  CStatusCode : Z;
  CHeaders : gmap string string;
  CBody : option JSON;
  MetaTxID : string;
  MetaRequestID : string;
  MetaBlockHeight : Z;
  MetaBlockTransactions : list (Transaction * option JSON);
  BlockTransactionsB64 : list string;
  NodeID : string
}.

(** One write to the [http.ResponseWriter]. *)
Inductive Written :=
| JSONError (message : string) (statusCode : Z)
| Reply (r : ClientResponse).

(** What serving one request did: the writes to the client, the envelopes
    handed to the consensus engine, and whether the goroutine panicked. *)
Record Served := {
  written : list Written;
  submitted : list Transaction;
  panicked : bool
}.

Definition served (w : list Written) (s : list Transaction) : Served :=
  {| written := w; submitted := s; panicked := false |}.

Definition crashed (w : list Written) (s : list Transaction) : Served :=
  {| written := w; submitted := s; panicked := true |}.

(** [WebServer]: the registry and the id of the node. *)
Record WebServer (St : Type) := {
  serviceRegistry : ServiceRegistry (ServiceHandler St);
  nodeID : string
}.
Arguments serviceRegistry {St} _.
Arguments nodeID {St} _.

(** [handleSessionAPI] (part_002:270). [requestID] is the result of
    [generateRequestID], [converted] that of
    [ConvertHttpRequestToConsensusRequest], [visit] the iteration order of
    the registry map on the lookup. *)
Definition handleSessionAPI `{app.EnvelopeCodec} `{BodyParser} `{Engine}
    {St : Type}
    (ws : WebServer St) (visit : list (RouteKey * ServiceHandler St))
    (requestID : string + string) (converted : string + Request) (st : St)
    : Served * St :=
  match requestID with
  | inl _ => (served [JSONError "Internal Server Error" 500] [], st)
  | inr requestID =>
  match converted with
  | inl err =>
      (served [JSONError ("Failed to convert request: " +:+ err) 422] [], st)
  | inr request =>
  match GenerateResponse visit (serviceRegistry ws) request st with
  | (Panic _, st1) => (crashed [] [], st1)
  | (Ret (_, Some err), st1) =>
      (served [JSONError ("Failed to generate response: " +:+ err) 422] [], st1)
  | (Ret (None, None), st1) => (crashed [] [], st1)
  | (Ret (Some response, None), st1) =>
      let transaction :=
        {| TRequest := request; TResponse := response;
           OriginNodeID := nodeID ws; BlockHeight := 0 |} in
      match RunConsensus transaction with
      | inl repoErr =>
          if String.eqb (RepositoryError.Code repoErr) "CONSENSUS_ERROR" then
            (served [JSONError ("Consensus error occurred: "
                                +:+ RepositoryError.Detail repoErr) 500]
                    [transaction], st1)
          else
            (crashed [JSONError ("An error occured: "
                                 +:+ RepositoryError.Message repoErr) 500]
                     [transaction], st1)
      | inr consensusResponse =>
          let blockHeight := ConsensusResult.BlockHeight consensusResponse in
          match Block blockHeight with
          | inl err => (served [JSONError err 500] [transaction], st1)
          | inr None => (crashed [] [transaction], st1)
          | inr (Some txs) =>
              let blockTxs := blockTransactions txs in
              (served
                 [Reply {| CStatusCode := StatusCode response;
                           CHeaders := RHeaders response;
                           CBody := ParseBody response;
                           MetaTxID := ConsensusResult.TxHash consensusResponse;
                           MetaRequestID := requestID;
                           MetaBlockHeight := blockHeight;
                           MetaBlockTransactions := fst blockTxs;
                           BlockTransactionsB64 := snd blockTxs;
                           NodeID := nodeID ws |}]
                 [transaction], st1)
          end
      end
  end end end.

(** [handleCommitAPI] (part_002:387): the envelope is assembled and the
    client is answered; nothing is handed to the consensus engine. *)
Definition handleCommitAPI `{BodyParser} {St : Type}
    (ws : WebServer St) (visit : list (RouteKey * ServiceHandler St))
    (requestID : string + string) (converted : string + Request) (st : St)
    : Served * St :=
  match requestID with
  | inl _ => (served [JSONError "Internal Server Error" 500] [], st)
  | inr requestID =>
  match converted with
  | inl err =>
      (served [JSONError ("Failed to convert request: " +:+ err) 422] [], st)
  | inr request =>
  match GenerateResponse visit (serviceRegistry ws) request st with
  | (Panic _, st1) => (crashed [] [], st1)
  | (Ret (_, Some err), st1) =>
      (served [JSONError ("Failed to generate response: " +:+ err) 422] [], st1)
  | (Ret (None, None), st1) => (crashed [] [], st1)
  | (Ret (Some response, None), st1) =>
      (served
         [Reply {| CStatusCode := StatusCode response;
                   CHeaders := RHeaders response;
                   CBody := ParseBody response;
                   MetaTxID := EmptyString;
                   MetaRequestID := EmptyString;
                   MetaBlockHeight := 0;
                   MetaBlockTransactions := [];
                   BlockTransactionsB64 := [];
                   NodeID := nodeID ws |}]
         [], st1)
  end end end.

(** The loop of [extractPortFromAddress]: [n] is [i + 1] for the index
    [i] that runs from the last byte down to the first. *)
Fixpoint extractPort_from (address : string) (n : nat) : string :=
  match n with
  | O => EmptyString
  | S i =>
      match String.get i address with
      | Some c =>
          if Ascii.eqb c ":"
          then String.substring (i + 1) (String.length address - (i + 1)) address
          else extractPort_from address i
      | None => extractPort_from address i
      end
  end.

(** [extractPortFromAddress] (part_002:569). *)
Definition extractPortFromAddress (address : string) : string :=
  extractPort_from address (String.length address).










End server.

(* ===================================================================== *)
(** ** The registry lookup in the words of the specification *)
(* ===================================================================== *)

Module registry_spec.
Import srvreg.

(** One call of [register(method, path, exact?, handler)]. *)
Record Registration (H : Type) := {
  rMethod : string;
  rPath : string;
  rExact : bool;
  rHandler : H
}.
Arguments rMethod {H} _.
Arguments rPath {H} _.
Arguments rExact {H} _.
Arguments rHandler {H} _.

(** The registry after the registrations [regs], made from left to right. *)
Definition register_all {H : Type} (regs : list (Registration H))
    (sr : ServiceRegistry H) : ServiceRegistry H :=
  List.fold_left
    (fun acc r => RegisterHandler (rMethod r) (rPath r) (rExact r) (rHandler r) acc)
    regs sr.

Definition sameMethod {H : Type} (method : string) (r : Registration H) : bool :=
  String.eqb (GoString.ToUpper (rMethod r)) (GoString.ToUpper method).

(** The lookup as the specification words it: an exact registration of
    the path first; then, among the non-exact registrations whose pattern
    matches, the first one registered. *)
Definition lookup_first_registered {H : Type} (regs : list (Registration H))
    (method path : string) : option H :=
  match List.find (fun r => rExact r && sameMethod method r
                            && String.eqb (rPath r) path) regs with
  | Some r => Some (rHandler r)
  | None =>
      rHandler <$>
        List.find (fun r => negb (rExact r) && sameMethod method r
                            && matchPath (rPath r) path) regs
  end.

(** The entries of the map that the pattern loop accepts for a query. *)
Definition patternHits {H : Type} (sr : ServiceRegistry H)
    (method path : string) : list (RouteKey * H) :=
  List.filter (fun e => patternHit sr method path (fst e))
              (map_to_list (handlers sr)).

(** Two overlapping patterns, registered in this order. *)
Definition overlapping : list (Registration string) :=
  [ {| rMethod := "POST"; rPath := "/a/:x"; rExact := false; rHandler := "first" |};
    {| rMethod := "POST"; rPath := "/:y/b"; rExact := false; rHandler := "second" |} ].

(** An order in which [range] may visit the two entries. *)
Definition second_then_first : list (RouteKey * string) :=
  [ (("POST", "/:y/b"), "second"); (("POST", "/a/:x"), "first") ].

(** The default services, with the handlers named by strings. *)
Definition defaultServices : ServiceRegistry string :=
  RegisterDefaultServices "CreateTestPackage" "CreateSessionHandler"
    "ScanPackageHandler" "ValidatePackageHandler" "QualityCheckHandler"
    "LabelPackageHandler" "CommitSessionHandler" (NewServiceRegistry false).

End registry_spec.

(* ===================================================================== *)
(** ** The replay of a proposal, as a relation *)
(* ===================================================================== *)

Module replay.
Import srvreg app.

(** [Passes a sched i txs st st']: from the [i]-th transaction on, every
    transaction of [txs] decodes, and each one that another node
    originated has a handler which, run on the request in the state left
    by the transactions before it, returns no error and a response with
    the status code and the body of the proposed one; [st'] is the state
    after the last handler. *)
Inductive Passes `{EnvelopeCodec} {St : Type} (a : Application St)
    (sched : RangeSchedule St) : nat -> list string -> St -> St -> Prop :=
| Passes_nil i st : Passes a sched i [] st st
| Passes_own i txBytes rest st st' tx :
    fst (Unmarshal_ptr txBytes) = Some tx ->
    OriginNodeID tx = nodeID a ->
    Passes a sched (S i) rest st st' ->
    Passes a sched i (txBytes :: rest) st st'
| Passes_foreign i txBytes rest st st1 st' tx handler response :
    fst (Unmarshal_ptr txBytes) = Some tx ->
    OriginNodeID tx <> nodeID a ->
    GetHandlerForPath (sched i) (serviceRegistry a)
      (Method (TRequest tx)) (Path (TRequest tx)) = Some handler ->
    handler (TRequest tx) st = (Ret (Some response, None), st1) ->
    StatusCode response = StatusCode (TResponse tx) ->
    RBody response = RBody (TResponse tx) ->
    Passes a sched (S i) rest st1 st' ->
    Passes a sched i (txBytes :: rest) st st'.

(** Why the replay of one foreign transaction fails. *)
Inductive Failure :=
| HandlerMissing
| HandlerError (err : string)
| ResponseDiffers.

(** [Fails a visit tx st st1 why]: the handler for the request of [tx] is
    missing, or returns an error, or returns a response whose status code
    or body is not the proposed one; [st1] is the state afterwards. *)
Inductive Fails {St : Type} (a : Application St)
    (visit : list (RouteKey * ServiceHandler St)) (tx : Transaction)
    (st : St) : St -> Failure -> Prop :=
| Fails_missing :
    GetHandlerForPath visit (serviceRegistry a)
      (Method (TRequest tx)) (Path (TRequest tx)) = None ->
    Fails a visit tx st st HandlerMissing
| Fails_error handler response err st1 :
    GetHandlerForPath visit (serviceRegistry a)
      (Method (TRequest tx)) (Path (TRequest tx)) = Some handler ->
    handler (TRequest tx) st = (Ret (response, Some err), st1) ->
    Fails a visit tx st st1 (HandlerError err)
| Fails_differs handler response st1 :
    GetHandlerForPath visit (serviceRegistry a)
      (Method (TRequest tx)) (Path (TRequest tx)) = Some handler ->
    handler (TRequest tx) st = (Ret (Some response, None), st1) ->
    (StatusCode response <> StatusCode (TResponse tx)
     \/ RBody response <> RBody (TResponse tx)) ->
    Fails a visit tx st st1 ResponseDiffers.

(** The error returned with a rejection. *)
Definition rejection (why : Failure) : string :=
  match why with
  | HandlerMissing => "handler not found, byzantine behavior detected"
  | HandlerError err => err
  | ResponseDiffers => "response is different, byzantine behavior detected"
  end.

End replay.

(* ===================================================================== *)
(** ** A concrete outside world for the examples *)
(* ===================================================================== *)

(** The theorems below hold for every codec, engine and layer-1 link. The
    examples run the handlers, and for that they need one of each: a
    decoder for the compact JSON objects the scenario requests carry
    (fields in the given order, string values without escapes), printers
    for what the handlers marshal, and a layer-1 node that answers every
    commit with one fixed reply. *)
Module demo.
Import srvreg models store repository handlers.

Definition dq : string := GoString.dq.

Fixpoint join (sep : string) (l : list string) : string :=
  match l with
  | [] => EmptyString
  | [x] => x
  | x :: r => x +:+ sep +:+ join sep r
  end.

Definition field (k v : string) : string := GoString.q k +:+ ":" +:+ v.
Definition object (fields : list string) : string := "{" +:+ join "," fields +:+ "}".
Definition text (v : string) : string := GoString.q v.
Definition array (vs : list string) : string := "[" +:+ join "," vs +:+ "]".
Definition boolean (b : bool) : string := if b then "true" else "false".

Definition drop (n : nat) (s : string) : string :=
  String.substring n (String.length s - n) s.

(** [cut sep s]: the parts of [s] before and after the first [sep]. *)
Fixpoint cut (sep s : string) : option (string * string) :=
  if String.prefix sep s then Some (EmptyString, drop (String.length sep) s)
  else match s with
       | EmptyString => None
       | String c r =>
           match cut sep r with
           | Some (a, b) => Some (String c a, b)
           | None => None
           end
       end.

Definition strip_prefix (pre s : string) : option string :=
  if String.prefix pre s then Some (drop (String.length pre) s) else None.

Definition strip_suffix (suf s : string) : option string :=
  let n := String.length s in
  let k := String.length suf in
  if (k <=? n)%nat && String.eqb (String.substring (n - k) k s) suf
  then Some (String.substring 0 (n - k) s) else None.

(** The raw values of an object with exactly the keys [keys], in order. *)
Fixpoint values_from (keys : list string) (s : string) : option (list string) :=
  match keys with
  | [] => if String.eqb s EmptyString then Some [] else None
  | [k] =>
      v ← strip_prefix (GoString.q k +:+ ":") s; Some [v]
  | k :: ((k2 :: _) as more) =>
      rest ← strip_prefix (GoString.q k +:+ ":") s;
      '(v, after) ← cut ("," +:+ GoString.q k2 +:+ ":") rest;
      vs ← values_from more (GoString.q k2 +:+ ":" +:+ after);
      Some (v :: vs)
  end.

Definition values (keys : list string) (s : string) : option (list string) :=
  inner ← strip_prefix "{" s;
  body ← strip_suffix "}" inner;
  values_from keys body.

Definition plain (s : string) : bool :=
  List.forallb (fun c => negb (Ascii.eqb c (ascii_of_nat 34))
                         && negb (Ascii.eqb c (ascii_of_nat 92)))
               (list_ascii_of_string s).

Definition unquote (v : string) : option string :=
  a ← strip_prefix dq v;
  b ← strip_suffix dq a;
  if plain b then Some b else None.

Definition unbool (v : string) : option bool :=
  if String.eqb v "true" then Some true
  else if String.eqb v "false" then Some false else None.

(** An array of strings, none of which holds a comma. *)
Definition unarray (v : string) : option (list string) :=
  a ← strip_prefix "[" v;
  b ← strip_suffix "]" a;
  if String.eqb b EmptyString then Some []
  else mapM unquote (GoString.Split "," b).

Definition syntaxError : string := "invalid character in request body".

Definition decode {A : Type} (o : option A) : string + A :=
  match o with
  | Some a => inr a
  | None => inl syntaxError
  end.

Definition one_field {A : Type} (key : string) (mk : string -> A) (s : string)
    : string + A :=
  if String.eqb s "{}" then inr (mk EmptyString)
  else decode (vs ← values [key] s;
               match vs with
               | [v] => mk <$> unquote v
               | _ => None
               end).

Definition decode_validate (s : string) : string + validatePackageHandlerBody.t :=
  decode (vs ← values ["package_id"; "signature"] s;
          match vs with
          | [p; g] =>
              p ← unquote p; g ← unquote g;
              Some {| validatePackageHandlerBody.Signature := g;
                      validatePackageHandlerBody.PackageID := p |}
          | _ => None
          end).

Definition decode_qc (s : string) : string + QualityCheckBody.t :=
  decode (vs ← values ["issues"; "passed"] s;
          match vs with
          | [i; p] =>
              i ← unarray i; p ← unbool p;
              Some {| QualityCheckBody.Passed := p; QualityCheckBody.Issues := i |}
          | _ => None
          end).

Definition decode_label (s : string) : string + labelPackageHandlerBody.t :=
  decode (vs ← values ["courier_id"; "destination"; "priority"] s;
          match vs with
          | [c; d; p] =>
              c ← unquote c; d ← unquote d; p ← unquote p;
              Some {| labelPackageHandlerBody.Label := EmptyString;
                      labelPackageHandlerBody.Destination := d;
                      labelPackageHandlerBody.Priority := p;
                      labelPackageHandlerBody.CourierID := c |}
          | _ => None
          end).

Definition payloadKeys : list string :=
  ["courier_id"; "destination"; "issues"; "operator_id"; "package_id";
   "priority"; "qc_passed"; "session_id"; "supplier_signature"; "timestamp"].

Definition decode_receive (s : string) : string + receiveCommitHandlerBody.t :=
  decode (vs ← values payloadKeys s;
          match vs with
          | [c; d; i; o; p; pr; qp; _; sg; _] =>
              c ← unquote c; d ← unquote d; i ← unarray i; o ← unquote o;
              p ← unquote p; pr ← unquote pr; qp ← unbool qp; sg ← unquote sg;
              Some {| receiveCommitHandlerBody.OperatorID := o;
                      receiveCommitHandlerBody.PackageID := p;
                      receiveCommitHandlerBody.SupplierSignature := sg;
                      receiveCommitHandlerBody.QcPassed := qp;
                      receiveCommitHandlerBody.Issues := i;
                      receiveCommitHandlerBody.Timestamp := 0;
                      receiveCommitHandlerBody.Label := EmptyString;
                      receiveCommitHandlerBody.Destination := d;
                      receiveCommitHandlerBody.Priority := pr;
                      receiveCommitHandlerBody.CourierID := c |}
          | _ => None
          end).

Definition print_item (i : Item.t) : string :=
  object [ field "item" (text (Item.Description i));
           field "item_id" (text (Item.ID i));
           field "qty" (pretty (Item.Quantity i)) ].

Definition print_items (l : list Item.t) : string :=
  match l with
  | [] => "null"
  | _ => array (List.map print_item l)
  end.

Definition zeroTime : string := "0001-01-01T00:00:00Z".

Definition print_Transaction (x : Transaction.t) : string :=
  object [ field "TxHash" (text (Transaction.TxHash x));
           field "SessionID" (text (Transaction.SessionID x));
           field "Session" "null";
           field "BlockHeight" (pretty (Transaction.BlockHeight x));
           field "Timestamp" (text zeroTime);
           field "Status" (text (Transaction.Status x)) ].

#[export] Instance bodyCodec : BodyCodec := {|
  Unmarshal_startSession :=
    one_field "operator_id" (fun v => {| startSessionHandlerBody.OperatorID := v |});
  Unmarshal_scanPackage :=
    one_field "package_id" (fun v => {| scanPackageHandlerBody.PackageID := v |});
  Unmarshal_validatePackage := decode_validate;
  Unmarshal_QualityCheck := decode_qc;
  Unmarshal_labelPackage := decode_label;
  Unmarshal_commitSession :=
    one_field "operator_id" (fun v => {| commitSessionHandlerBody.OperatorID := v |});
  Unmarshal_receiveCommit := decode_receive;
  Marshal_expectedContents := fun l => inr (print_items l);
  Marshal_Transaction := print_Transaction
|}.

Definition print_payload (p : CommitPayload) : string :=
  object [ field "courier_id" (text (courier_id p));
           field "destination" (text (destination p));
           field "issues" (array (List.map text (issues p)));
           field "operator_id" (text (operator_id p));
           field "package_id" (text (package_id p));
           field "priority" (text (priority p));
           field "qc_passed" (boolean (qc_passed p));
           field "session_id" (text (session_id p));
           field "supplier_signature" (text (supplier_signature p));
           field "timestamp" (text zeroTime) ].

(** The reply of the layer-1 node to a commit: its transaction is
    [l1TxID], in the block at height 7; the reply carries no block hash. *)
Definition l1TxID : string := "9F86D081884C7D659A2FEAA0C55AD015".

Definition l1Reply : string :=
  object [ field "body" "null";
           field "meta" (object [ field "tx_id" (text l1TxID);
                                  field "request_id" (text "l1-request");
                                  field "status" (text "confirmed");
                                  field "block_height" "7" ]);
           field "blockchain_ref" (text EmptyString);
           field "node_id" (text "l1-node0") ].

Definition l1Meta : L1Meta :=
  {| tx_id := l1TxID; request_id := "l1-request"; status := "confirmed";
     block_height := 7; block_hash := EmptyString |}.

#[export] Instance outside : Outside := {|
  time_Now := 0;
  Marshal_issues := fun l => inr (array (List.map text l));
  Marshal_payload := fun p => inr (print_payload p);
  http_POST := fun _ _ => Replied 202 l1Reply;
  Unmarshal_ClientResponse :=
    fun s => if String.eqb s l1Reply then inr l1Meta else inl syntaxError;
  rows_order := fun rows => rows
|}.

(** The scenario labels with the operation of the repository under src/,
    which takes no label text. *)
#[export] Instance labelOperation : LabelOperation := {|
  LabelPackage_with_label :=
    fun sessionID _ destination priority courierID =>
      LabelPackage sessionID destination priority courierID
|}.

(** A decoder for the bodies the handlers print for an error: an object
    with one field whose value is a string without escapes. *)
Definition one_string_field (s : string) : option (gmap string JSON) :=
  inner ← strip_prefix "{" s;
  body ← strip_suffix "}" inner;
  '(k, v) ← cut ":" body;
  k ← unquote k;
  v ← unquote v;
  Some {[ k := JString v ]}.

#[export] Instance bodyParser : BodyParser := {|
  Unmarshal_map := one_string_field;
  Unmarshal_slice := fun s => if String.eqb s "[]" then Some [] else None
|}.

(** The seed of the store that the scenario uses, and one package. *)
Definition tables0 : Tables :=
  {| operators := [ {| Operator.ID := "OPR-001"; Operator.Name := "John Smith";
                       Operator.Role := "Warehouse Manager";
                       Operator.AccessLevel := "Admin" |} ];
     suppliers := [ {| Supplier.ID := "SUP-001";
                       Supplier.Name := "Global Distribution Co.";
                       Supplier.Location := "Singapore" |} ];
     couriers := [ {| Courier.ID := "COU-001"; Courier.Name := "Speedy Express";
                      Courier.ServiceLevel := "Premium";
                      Courier.ContactInfo := "support@speedyexpress.com" |} ];
     sessions := [];
     packages := [ {| Package.ID := "PKG-001"; Package.SessionID := None;
                      Package.SupplierID := "SUP-001";
                      Package.DeliveryNoteID := "DN-001";
                      Package.Signature := "digital_sig_001";
                      Package.IsTrusted := false; Package.Status := "pending";
                      Package.Items := []; Package.Supplier := None;
                      Package.QCRecords := [] |} ];
     items := [ {| Item.ID := "ITEM-001"; Item.PackageID := "PKG-001";
                   Item.Quantity := 5; Item.Description := "Smartphones";
                   Item.CatalogID := Some "CAT-001" |} ];
     qc_records := []; labels := []; transactions := [] |}.

Definition repo0 : Repository :=
  {| db := tables0; openTx := 0; l1Addresses := ["l1-node0:5000"] |}.

Definition request (method path body requestID : string) : Request :=
  {| Method := method; Path := path; Headers := ∅; Body := body;
     RemoteAddr := "10.0.0.9:40000"; RequestID := requestID; Timestamp := 0 |}.

Definition operatorBody (operatorID : string) : string :=
  object [field "operator_id" (text operatorID)].

(** The requests of the workflow, for the session of request [r1]. *)
Definition startRequest : Request :=
  request "POST" "/session/start" (operatorBody "OPR-001") "r1".

Definition sid : string := "SESSION-r1".

Definition validateRequest : Request :=
  request "POST" "/session/SESSION-r1/validate"
    (object [field "package_id" (text "PKG-001"); field "signature" (text "any")])
    "r2".

Definition qcRequest : Request :=
  request "POST" "/session/SESSION-r1/qc"
    (object [field "issues" (array [text "all good"]); field "passed" "true"])
    "r3".

Definition labelRequest : Request :=
  request "POST" "/session/SESSION-r1/label"
    (object [field "courier_id" (text "COU-001");
             field "destination" (text "CUSTOMER A");
             field "priority" (text "standard")])
    "r4".

(** The state a handler leaves, whatever it returned. *)
Definition after (h : ServiceHandler Repository) (req : Request)
    (r : Repository) : Repository := snd (h req r).

Definition started : Repository := after CreateSessionHandler startRequest repo0.
Definition validated : Repository := after ValidatePackageHandler validateRequest started.
Definition checked : Repository := after QualityCheckHandler qcRequest validated.
Definition labelled : Repository := after LabelPackageHandler labelRequest checked.

(** The handlers of the handler file, registered as the default services
    register them (the handler of the test-package route is not under
    src/ and is left out). *)
Definition services : ServiceRegistry (ServiceHandler Repository) :=
  RegisterHandler "POST" "/commit/:id" false CommitSessionHandler
    (RegisterHandler "POST" "/session/:id/label" false LabelPackageHandler
      (RegisterHandler "POST" "/session/:id/qc" false QualityCheckHandler
        (RegisterHandler "POST" "/session/:id/validate" false ValidatePackageHandler
          (RegisterHandler "GET" "/session/:id/scan/:packageID" false ScanPackageHandler
            (RegisterHandler "POST" "/session/start" true CreateSessionHandler
              (NewServiceRegistry false)))))).

(** The text of an envelope: a JSON string escapes the quote and the
    backslash. *)
Fixpoint escape (s : string) : string :=
  match s with
  | EmptyString => EmptyString
  | String c r =>
      if Ascii.eqb c (ascii_of_nat 34) || Ascii.eqb c (ascii_of_nat 92)
      then String (ascii_of_nat 92) (String c (escape r))
      else String c (escape r)
  end.

Definition jstring (s : string) : string := GoString.q (escape s).

Definition print_envelope (t : Transaction) : string :=
  object
    [ field "request"
        (object [ field "method" (jstring (Method (TRequest t)));
                  field "path" (jstring (Path (TRequest t)));
                  field "headers" "{}";
                  field "body" (jstring (Body (TRequest t)));
                  field "remote_addr" (jstring (RemoteAddr (TRequest t)));
                  field "request_id" (jstring (RequestID (TRequest t)));
                  field "timestamp" (text zeroTime) ]);
      field "response"
        (object [ field "status_code" (pretty (StatusCode (TResponse t)));
                  field "headers" "{}";
                  field "body" (jstring (RBody (TResponse t)));
                  field "body_interface" "null" ]);
      field "origin_node_id" (jstring (OriginNodeID t)) ].

(** The response a handler computes for a request in a state. *)
Definition localResponse (h : ServiceHandler Repository) (req : Request)
    (r : Repository) : Response :=
  match fst (h req r) with
  | Ret (Some response, _) => response
  | _ => app.zeroResponse
  end.

Definition envelope (origin : string) (req : Request) (resp : Response)
    : Transaction :=
  {| TRequest := req; TResponse := resp; OriginNodeID := origin; BlockHeight := 0 |}.

(** A session start, as node N1 computed and proposed it. *)
Definition honestStart : Transaction :=
  envelope "N1" startRequest (localResponse CreateSessionHandler startRequest repo0).

(** A session start for an operator that does not exist, proposed with the
    very response every replica computes for it. *)
Definition unknownOperatorRequest : Request :=
  request "POST" "/session/start" (operatorBody "OPR-ZZZ") "r9".

Definition failedStart : Transaction :=
  envelope "N1" unknownOperatorRequest
    (localResponse CreateSessionHandler unknownOperatorRequest repo0).

(** A session start proposed with a response that was tampered with. *)
Definition forgedStart : Transaction :=
  envelope "N1" startRequest
    {| StatusCode := 500; RHeaders := ∅; RBody := "corrupted";
       srvreg.Error := EmptyString |}.

(** A request for which nothing is registered. *)
Definition strayRequest : Transaction :=
  envelope "N1" (request "DELETE" "/nothing" EmptyString "r7") app.zeroResponse.

(** A transaction that node N2 originated itself. *)
Definition ownStart : Transaction :=
  envelope "N2" (request "POST" "/session/start" (operatorBody "OPR-001") "r0")
    forgedStart.(TResponse).

Definition knownEnvelopes : list Transaction :=
  [honestStart; failedStart; forgedStart; strayRequest; ownStart].

(** The codec of the examples decodes the envelopes above from their
    texts, reads the text null as a nil pointer, and takes any other text
    for a syntax error. *)
#[export] Instance envelopeCodec : app.EnvelopeCodec := {|
  app.Unmarshal_ptr := fun data =>
    if String.eqb data "null" then (None, None)
    else match List.find (fun t => String.eqb (print_envelope t) data)
                         knownEnvelopes with
         | Some t => (Some t, None)
         | None => (None, Some syntaxError)
         end;
  app.Marshal := print_envelope
|}.

(** Node N2, with the handlers of the handler file. *)
Definition node2 : app.Application Repository :=
  {| app.badgerDB := ∅; app.onGoingBlock := None;
     app.serviceRegistry := services; app.nodeID := "N2" |}.

(** One order of iteration, used for every lookup. *)
Definition inMapOrder : app.RangeSchedule Repository :=
  fun _ => map_to_list (handlers services).

(** The status code of what a handler returned, if it returned a response. *)
Definition statusOf {St : Type} (o : Outcome HandlerResult * St) : option Z :=
  match fst o with
  | Ret (Some response, _) => Some (StatusCode response)
  | _ => None
  end.

(** The error of what a handler returned. *)
Definition errorOf {St : Type} (o : Outcome HandlerResult * St) : option string :=
  match fst o with
  | Ret (_, err) => err
  | Panic _ => None
  end.

(** The store of the scenario after the commit of its session by its
    operator. *)
Definition committed : Repository :=
  snd (CommitSession "SESSION-r1" "OPR-001" labelled).


(** An engine that finalizes every envelope in block 12, and whose blocks
    hold that one envelope. *)
#[export] Instance engine : server.Engine := {|
  server.BroadcastTxCommit := fun _ => server.BroadcastDone [171; 205] 12 0;
  server.Block := fun _ => inr (Some [print_envelope honestStart])
|}.

(** The web server of node N1. *)
Definition webServer : server.WebServer Repository :=
  {| server.serviceRegistry := services; server.nodeID := "N1" |}.

End demo.

(* ===================================================================== *)
(** ** The status table of the specification *)
(* ===================================================================== *)

Module status_spec.
Import repository handlers.

(** The fixed table of the specification: foreign-key violation 400,
    unique violation 409, entity not found 404, invalid state 409, any
    other error 500. *)
Definition specStatus (code : string) : Z :=
  if String.eqb code PgErrForeignKeyViolation then StatusBadRequest
  else if String.eqb code PgErrUniqueViolation then StatusConflict
  else if String.eqb code "ENTITY_NOT_FOUND" then StatusNotFound
  else if String.eqb code "INVALID_STATE" then StatusConflict
  else StatusInternalServerError.

(** The status code a handler's error switch gives an error. *)
Definition failureStatus (switch : RepositoryError.t -> srvreg.HandlerResult)
    (code : string) : option Z :=
  srvreg.StatusCode <$> fst (switch (mkErr code EmptyString EmptyString)).

(** The six error switches, by handler. *)
Definition switches : list (RepositoryError.t -> srvreg.HandlerResult) :=
  [ CreateSession_failed; ScanPackage_failed; ValidatePackage_failed;
    QualityCheck_failed; LabelPackage_failed; CommitSession_failed ].

End status_spec.

(* ===================================================================== *)
(** ** The layer-1 repository, from the specification *)
(* ===================================================================== *)

Module l1_spec.
Import repository handlers.

(** The committed session that layer 1 holds under a session id. *)
Record Committed := {
  operatorID : string;
  packageID : string;
  supplierSignature : string;
  label : string;
  destination : string;
  priority : string;
  courierID : string;
  qcPassed : bool;
  issues : list string
}.

#[export] Instance Committed_eq_dec : EqDecision Committed.
Proof. solve_decision. Defined.

(** Modelled from the spec: the operation [ReplicateCommitFromL2] of the
    layer-1 repository, whose source is not under src/. It materializes
    the committed session under its session id; when a row with that id
    exists already, it succeeds if the contents are identical and fails
    with a conflict if they differ. *)
Definition ReplicateCommitFromL2
    (sessionID operatorID packageID supplierSignature label destination
     priority courierID : string) (qcPassed : bool) (issues : list string)
    (st : gmap string Committed) : option RepositoryError.t * gmap string Committed :=
  let row :=
    {| operatorID := operatorID; packageID := packageID;
       supplierSignature := supplierSignature; label := label;
       destination := destination; priority := priority; courierID := courierID;
       qcPassed := qcPassed; issues := issues |} in
  match st !! sessionID with
  | None => (None, <[sessionID := row]> st)
  | Some old =>
      if decide (old = row) then (None, st)
      else (Some (mkErr "CONFLICT" "Session already committed"
                    "the committed session differs"), st)
  end.

(** The row that a payload asks for. *)
Definition rowOf (body : receiveCommitHandlerBody.t) : Committed :=
  {| operatorID := receiveCommitHandlerBody.OperatorID body;
     packageID := receiveCommitHandlerBody.PackageID body;
     supplierSignature := receiveCommitHandlerBody.SupplierSignature body;
     label := receiveCommitHandlerBody.Label body;
     destination := receiveCommitHandlerBody.Destination body;
     priority := receiveCommitHandlerBody.Priority body;
     courierID := receiveCommitHandlerBody.CourierID body;
     qcPassed := receiveCommitHandlerBody.QcPassed body;
     issues := receiveCommitHandlerBody.Issues body |}.

#[export] Instance l1Repository : L1Repository (gmap string Committed) := {|
  handlers.ReplicateCommitFromL2 := ReplicateCommitFromL2
|}.

(** The payload layer 2 sends for the session of the scenario, and the
    same payload with another destination. *)
Definition payload (destination : string) : CommitPayload :=
  {| session_id := "SESSION-r1"; operator_id := "OPR-001"; package_id := "PKG-001";
     supplier_signature := "signature123"; repository.destination := destination;
     repository.priority := "standard"; courier_id := "COU-001";
     qc_passed := true; repository.issues := ["all good"]; timestamp := 0 |}.

Definition commitL1 (destination : string) : srvreg.Request :=
  demo.request "POST" "/session/SESSION-r1/commit-l1"
    (demo.print_payload (payload destination)) "l1-r1".

(** The store of layer 1 after the first submission of the payload. *)
Definition l1_after_first : gmap string Committed :=
  snd (ReceiveCommitHandler (H := demo.bodyCodec)
         (commitL1 "CUSTOMER A") ∅).

End l1_spec.
(* ===================================================================== *)
(** ** Paths, and the routes of the default services as a table *)
(* ===================================================================== *)

Module routing.
Import srvreg.

(** [no_sep sep s]: the byte [sep] does not occur in [s]. *)
Fixpoint no_sep (sep : ascii) (s : string) : bool :=
  match s with
  | EmptyString => true
  | String c r => negb (Ascii.eqb c sep) && no_sep sep r
  end.

(** [strings.Join l sep] for a one-byte separator. *)
Fixpoint Join (sep : ascii) (l : list string) : string :=
  match l with
  | [] => EmptyString
  | [x] => x
  | x :: r => x +:+ String sep (Join sep r)
  end.

(** A pattern without parameters: no segment begins with a colon. *)
Definition literal (pattern : string) : bool :=
  List.forallb (fun seg => negb (GoString.HasPrefixColon seg))
               (GoString.Split "/" pattern).

(** What [RegisterDefaultServices] sets up, read as a table from the
    method and the path to the name of the handler: the two exact routes
    by the whole path, the five patterns by the segments of the path. *)
Definition defaultRoute (method path : string) : option string :=
  let m := GoString.ToUpper method in
  if String.eqb m "POST" && String.eqb path "/session/test-package" then
    Some "CreateTestPackage"
  else if String.eqb m "POST" && String.eqb path "/session/start" then
    Some "CreateSessionHandler"
  else
    match GoString.Split "/" path with
    | [p0; p1; _; p3; _] =>
        if String.eqb m "GET" && String.eqb p0 EmptyString
           && String.eqb p1 "session" && String.eqb p3 "scan"
        then Some "ScanPackageHandler" else None
    | [p0; p1; _; p3] =>
        if String.eqb m "POST" && String.eqb p0 EmptyString
           && String.eqb p1 "session"
        then
          if String.eqb p3 "validate" then Some "ValidatePackageHandler"
          else if String.eqb p3 "qc" then Some "QualityCheckHandler"
          else if String.eqb p3 "label" then Some "LabelPackageHandler"
          else None
        else None
    | [p0; p1; _] =>
        if String.eqb m "POST" && String.eqb p0 EmptyString
           && String.eqb p1 "commit"
        then Some "CommitSessionHandler" else None
    | _ => None
    end.

End routing.

(* ===================================================================== *)
(** ** The transactions a block records *)
(* ===================================================================== *)

Module ledger.
Import srvreg app.

(** The id under which [FinalizeBlock] files a transaction. *)
Definition idOf (tx : Transaction) : string :=
  generateTxID (RequestID (TRequest tx)) (OriginNodeID tx).

(** The ids of the transactions of a block that decode, in their order. *)
Definition acceptedIDs `{EnvelopeCodec} (txs : list string) : list string :=
  List.flat_map
    (fun txBytes =>
       match Unmarshal_val txBytes with
       | (tx, None) => [idOf tx]
       | (_, Some _) => []
       end) txs.

(** [later] holds no decodable transaction with the id [txID]. *)
Definition not_filed_again `{EnvelopeCodec} (txID : string) (later : list string)
    : Prop :=
  Forall (fun txBytes =>
            forall tx, Unmarshal_val txBytes = (tx, None) -> idOf tx <> txID)
         later.

End ledger.

(* ===================================================================== *)
(** ** More of the outside world for the examples *)
(* ===================================================================== *)

Module demo_more.
Import srvreg repository handlers server demo.

(** The envelope the web server of a node assembles. *)
Definition envelopeOf {St : Type} (ws : WebServer St) (request : Request)
    (response : Response) : Transaction :=
  {| TRequest := request; TResponse := response;
     OriginNodeID := server.nodeID ws; BlockHeight := 0 |}.

(** A request for a route that nothing is registered for, and the
    envelope node N1 assembles for it. *)
Definition strayDelete : Request := request "DELETE" "/nothing" EmptyString "r7".

Definition strayEnvelope : Transaction :=
  envelopeOf webServer strayDelete (notFoundResponse strayDelete).

(** A codec that also decodes the text of that envelope. *)
#[export] Instance strayCodec : app.EnvelopeCodec := {|
  app.Unmarshal_ptr := fun data =>
    if String.eqb data (print_envelope strayEnvelope)
    then (Some strayEnvelope, None)
    else app.Unmarshal_ptr (EnvelopeCodec := envelopeCodec) data;
  app.Marshal := print_envelope
|}.

(** The services of the examples on a node in Byzantine mode. *)
Definition byzantineServices : ServiceRegistry (ServiceHandler Repository) :=
  {| handlers := handlers services; exactRoutes := exactRoutes services;
     isByzantine := true |}.

(** The store of the scenario after a second validation of its package,
    made once the package was checked. *)
Definition revalidated : Repository :=
  after ValidatePackageHandler validateRequest checked.

(** The validation request of the scenario with another signature. *)
Definition forgedValidateRequest : Request :=
  request "POST" "/session/SESSION-r1/validate"
    (object [field "package_id" (text "PKG-001"); field "signature" (text "forged")])
    "r2".

(** The session of the scenario, as the store holds it before the commit. *)
Definition openSession : models.Session.t :=
  {| models.Session.ID := "SESSION-r1"; models.Session.Status := "active";
     models.Session.OperatorID := "OPR-001"; models.Session.IsCommitted := false;
     models.Session.TxHash := None |}.

(** The ledger record of the commit of the scenario. *)
Definition ledgerRecord : models.Transaction.t :=
  {| models.Transaction.TxHash := EmptyString;
     models.Transaction.SessionID := "SESSION-r1";
     models.Transaction.BlockHeight := 7;
     models.Transaction.Status := "committed" |}.



(** The quality check of the scenario with an empty list of issues, and
    the store after it and after the label. *)
Definition qcRequestNoIssues : Request :=
  request "POST" "/session/SESSION-r1/qc"
    (object [field "issues" (array []); field "passed" "true"]) "r3".

Definition checkedNoIssues : Repository :=
  after QualityCheckHandler qcRequestNoIssues validated.

Definition labelledNoIssues : Repository :=
  after LabelPackageHandler labelRequest checkedNoIssues.

(** An engine whose broadcast times out. *)
Definition failingEngine : server.Engine := {|
  server.BroadcastTxCommit := fun _ => server.BroadcastFailed "timed out";
  server.Block := fun _ => inl "no block"
|}.

End demo_more.

(* ===================================================================== *)
(** ** Variations of the outside world *)
(* ===================================================================== *)

Module variations.
Import repository.

(** The outside world [out] with the status code of every reply of layer
    1 replaced by [f] of it. *)
Definition restatus (f : Z -> Z) (out : Outside) : Outside := {|
  time_Now := time_Now (Outside := out);
  Marshal_issues := Marshal_issues (Outside := out);
  Marshal_payload := Marshal_payload (Outside := out);
  http_POST := fun url body =>
    match http_POST (Outside := out) url body with
    | Replied statusCode bodyBytes => Replied (f statusCode) bodyBytes
    | other => other
    end;
  Unmarshal_ClientResponse := Unmarshal_ClientResponse (Outside := out);
  rows_order := rows_order (Outside := out)
|}.

(** The outside world [out] in which every payload is marshalled with
    the supplier signature [signature]. *)
Definition resign (signature : string) (out : Outside) : Outside := {|
  time_Now := time_Now (Outside := out);
  Marshal_issues := Marshal_issues (Outside := out);
  Marshal_payload := fun p =>
    Marshal_payload (Outside := out)
      {| session_id := session_id p; operator_id := operator_id p;
         package_id := package_id p; supplier_signature := signature;
         destination := destination p; priority := priority p;
         courier_id := courier_id p; qc_passed := qc_passed p;
         issues := issues p; timestamp := timestamp p |};
  http_POST := http_POST (Outside := out);
  Unmarshal_ClientResponse := Unmarshal_ClientResponse (Outside := out);
  rows_order := rows_order (Outside := out)
|}.

(** The repository [r] with only the first of its layer-1 addresses. *)
Definition firstAddressOnly (r : Repository) : Repository :=
  {| db := db r; openTx := openTx r; l1Addresses := List.firstn 1 (l1Addresses r) |}.

(** Attempts to open the database of which the first [k] fail; the handle
    of an attempt is its number. *)
Definition failsFirst (k : nat) (i : nat) : nat * option string :=
  (i, if (i <? k)%nat then Some "connection refused" else None).

End variations.

(* ===================================================================== *)
(** * Properties *)
(* ===================================================================== *)

(** ** Block-height encoding *)

Section Int64Bytes.

Local Open Scope Z_scope.

(** Bits of a value that fits in 64 bits, from bit 63 up, are its sign. *)
Lemma int64_high_bits (z n : Z) :
  Int64.in_range z -> 63 <= n -> Z.testbit z n = (z <? 0).
Proof.
  unfold Int64.in_range. intros Hz Hn.
  destruct (Z.ltb_spec z 0) as [Hneg | Hpos].
  - apply Z.bits_above_log2_neg; [lia|].
    destruct (Z.eq_dec z (-1)) as [-> | Hne]; [simpl; lia|].
    assert (Z.log2 (Z.pred (- z)) < 63); [|lia].
    apply Z.log2_lt_pow2; lia.
  - destruct (Z.eq_dec z 0) as [-> | Hne]; [apply Z.bits_0|].
    apply Z.bits_above_log2; [lia|].
    assert (Z.log2 z < 63); [|lia].
    apply Z.log2_lt_pow2; lia.
Qed.

Lemma wrap_in_range (z : Z) : Int64.in_range (Int64.wrap z).
Proof.
  unfold Int64.in_range, Int64.wrap.
  pose proof (Z.mod_pos_bound (z + 2 ^ 63) (2 ^ 64)). lia.
Qed.

(** Wrapping keeps the low 64 bits. *)
Lemma wrap_low_bits (z n : Z) :
  0 <= n < 64 -> Z.testbit (Int64.wrap z) n = Z.testbit z n.
Proof.
  intros Hn. unfold Int64.wrap.
  rewrite <- (Z.mod_pow2_bits_low _ 64 n) by lia.
  rewrite <- (Z.mod_pow2_bits_low z 64 n) by lia.
  f_equal.
  replace ((z + 2 ^ 63) mod 2 ^ 64 - 2 ^ 63)
    with ((z + 2 ^ 63) mod 2 ^ 64 + (- 2 ^ 63)) by lia.
  rewrite Zplus_mod_idemp_l.
  f_equal. lia.
Qed.

(** Bit [n] of [int64(byte(h >> s)) << s], for a shift [s] that leaves the
    byte inside the 64 bits. *)
Lemma shl_byte_bits (h s n : Z) :
  0 <= s -> s + 8 <= 64 -> 0 <= n < 64 ->
  Z.testbit (Int64.shl (Int64.of_byte (Int64.to_byte (Int64.shr h s))) s) n
  = (s <=? n) && (n <? s + 8) && Z.testbit h n.
Proof.
  intros Hs Hs8 Hn.
  unfold Int64.shl, Int64.of_byte, Int64.to_byte, Int64.shr.
  rewrite wrap_low_bits by lia.
  rewrite Z.shiftl_spec by lia.
  destruct (Z.leb_spec s n) as [Hle | Hgt]; simpl.
  - change 256 with (2 ^ 8).
    destruct (Z.ltb_spec n (s + 8)) as [Hlt | Hge]; simpl.
    + rewrite Z.mod_pow2_bits_low by lia.
      rewrite Z.shiftr_spec by lia. f_equal. lia.
    + apply Z.mod_pow2_bits_high. lia.
  - apply Z.testbit_neg_r. lia.
Qed.

Lemma to_byte_bits (h n : Z) :
  0 <= n ->
  Z.testbit (Int64.of_byte (Int64.to_byte h)) n = (n <? 8) && Z.testbit h n.
Proof.
  intros Hn. unfold Int64.of_byte, Int64.to_byte. change 256 with (2 ^ 8).
  destruct (Z.ltb_spec n 8); simpl.
  - apply Z.mod_pow2_bits_low. lia.
  - apply Z.mod_pow2_bits_high. lia.
Qed.

Lemma to_byte_range (h : Z) : 0 <= Int64.to_byte h < 256.
Proof. unfold Int64.to_byte. apply Z.mod_pos_bound. lia. Qed.

(** The seven low bytes, shifted into place, are not negative and stay
    below bit 63; so are their disjunctions. *)
Lemma shl_byte_small (h s : Z) :
  0 <= s -> s + 8 <= 56 ->
  0 <= Int64.shl (Int64.of_byte (Int64.to_byte (Int64.shr h s))) s < 2 ^ 56.
Proof.
  intros Hs Hs8.
  unfold Int64.shl, Int64.of_byte, Int64.wrap.
  pose proof (to_byte_range (Int64.shr h s)) as Hb.
  rewrite Z.shiftl_mul_pow2 by lia.
  assert (Hp : 0 < 2 ^ s) by (apply Z.pow_pos_nonneg; lia).
  assert (Hq : 2 ^ s * 2 ^ 8 <= 2 ^ 56).
  { rewrite <- Z.pow_add_r by lia. apply Z.pow_le_mono_r; lia. }
  assert (Hr : 0 <= Int64.to_byte (Int64.shr h s) * 2 ^ s < 2 ^ 56) by nia.
  rewrite Z.mod_small by lia. lia.
Qed.

Lemma small_high_bits (x k n : Z) :
  0 <= k -> 0 <= x < 2 ^ k -> k <= n -> Z.testbit x n = false.
Proof.
  intros Hk Hx Hn.
  destruct (Z.eq_dec x 0) as [-> | Hne]; [apply Z.bits_0|].
  apply Z.bits_above_log2; [lia|].
  assert (Z.log2 x < k); [|lia].
  apply Z.log2_lt_pow2; lia.
Qed.

(** Case analysis on one comparison [cmp a b] of the goal, by its
    reflection lemma. *)
Ltac case_window cmp spec :=
  match goal with
  | |- context [cmp ?lo ?hi] => destruct (spec lo hi)
  end.

Lemma bytesToInt64_bits_low (h n : Z) :
  0 <= n < 64 -> Z.testbit (bytesToInt64 (int64ToBytes h)) n = Z.testbit h n.
Proof.
  intros Hn. unfold bytesToInt64, int64ToBytes.
  rewrite !Z.lor_spec.
  rewrite !shl_byte_bits by lia.
  rewrite to_byte_bits by lia.
  generalize (Z.testbit h n). intros t.
  destruct t; rewrite ?andb_true_r, ?andb_false_r; [|reflexivity].
  repeat (first [ case_window Z.leb Z.leb_spec
                 | case_window Z.ltb Z.ltb_spec ]; try lia; simpl).
Qed.

Lemma bytesToInt64_bits_high (h n : Z) :
  Int64.in_range h -> 64 <= n ->
  Z.testbit (bytesToInt64 (int64ToBytes h)) n = Z.testbit h n.
Proof.
  intros Hh Hn. unfold bytesToInt64, int64ToBytes.
  rewrite !Z.lor_spec.
  rewrite (small_high_bits (Int64.of_byte (Int64.to_byte h)) 8 n);
    [| lia | apply to_byte_range | lia].
  assert (Hlow : forall s, 0 <= s -> s + 8 <= 56 ->
            Z.testbit
              (Int64.shl (Int64.of_byte (Int64.to_byte (Int64.shr h s))) s) n
            = false).
  { intros s Hs Hs8. apply (small_high_bits _ 56); [lia | | lia].
    apply shl_byte_small; lia. }
  rewrite (Hlow 48), (Hlow 40), (Hlow 32), (Hlow 24), (Hlow 16), (Hlow 8) by lia.
  rewrite !orb_false_r.
  rewrite (int64_high_bits _ n) by (try apply wrap_in_range; lia).
  rewrite <- (int64_high_bits _ 63) by (try apply wrap_in_range; lia).
  rewrite shl_byte_bits by lia.
  rewrite (int64_high_bits h n), <- (int64_high_bits h 63) by (assumption || lia).
  reflexivity.
Qed.

End Int64Bytes.

Section HeightLog.

Local Open Scope Z_scope.

Lemma bytes_of_string_of_bytes (bs : list Z) :
  List.Forall (fun b => 0 <= b < 256) bs ->
  SHA256.bytes_of_string (app.string_of_bytes bs) = bs.
Proof.
  intros Hbs. unfold SHA256.bytes_of_string, app.string_of_bytes.
  rewrite list_ascii_of_string_of_list_ascii.
  induction Hbs as [| b r Hb _ IH]; [reflexivity|].
  simpl. rewrite IH. f_equal.
  rewrite nat_ascii_embedding by lia. lia.
Qed.

Lemma int64ToBytes_bytes (h : Z) :
  List.Forall (fun b => 0 <= b < 256) (int64ToBytes h).
Proof.
  unfold int64ToBytes. repeat constructor; apply to_byte_range.
Qed.

Lemma bytesToInt64_int64ToBytes (h : Z) :
  Int64.in_range h -> bytesToInt64 (int64ToBytes h) = h.
Proof.
  intros Hh. apply Z.bits_inj'. intros n Hn.
  destruct (Z.lt_ge_cases n 64).
  - apply bytesToInt64_bits_low. lia.
  - apply bytesToInt64_bits_high; assumption.
Qed.

Lemma bytesToInt64_short (buf : list Z) :
  (List.length buf < 8)%nat -> bytesToInt64 buf = 0.
Proof.
  intros Hlen.
  do 8 (destruct buf as [| ? buf]; [reflexivity|]).
  simpl in Hlen. lia.
Qed.

(** What [Info] reads after [FinalizeBlock] and [Commit]. *)
Lemma Info_after_FinalizeBlock `{app.EnvelopeCodec} {St : Type}
    (a : app.Application St) (height : Z) (txs : list string) :
  Int64.in_range height ->
  exists a1 a2 results appHash,
    app.FinalizeBlock a height txs = (a1, results, appHash)
    /\ app.Commit a1 = Ret a2
    /\ app.Info a2 = (height, appHash).
Proof.
  intros Hh. unfold app.FinalizeBlock.
  destruct (app.finalizeTxs txs ∅) as [batch txResults].
  eexists _, _, _, _. split; [reflexivity|]. split; [reflexivity|].
  unfold app.Info. simpl.
  rewrite (lookup_union_Some_l _ _ _
             (app.string_of_bytes (int64ToBytes height))).
  2:{ rewrite lookup_insert_ne by discriminate. apply lookup_insert_eq. }
  rewrite (lookup_union_Some_l _ _ _ (app.calculateAppHash txResults)).
  2:{ apply lookup_insert_eq. }
  rewrite bytes_of_string_of_bytes by apply int64ToBytes_bytes.
  rewrite bytesToInt64_int64ToBytes by assumption.
  reflexivity.
Qed.

(** C10. The block-height encoding round-trips: for every 64-bit signed
    integer [h], [bytesToInt64 (int64ToBytes h) = h]; a buffer shorter than
    eight bytes reads as 0; and after [FinalizeBlock] at height [h] and
    [Commit], [Info] reads back [h] from the log. *)
Theorem height_encoding_roundtrip :
  (forall h : Z, Int64.in_range h -> bytesToInt64 (int64ToBytes h) = h)
  /\ (forall buf : list Z, (List.length buf < 8)%nat -> bytesToInt64 buf = 0)
  /\ (forall (codec : app.EnvelopeCodec) (St : Type) (a : app.Application St)
             (h : Z) (txs : list string),
        Int64.in_range h ->
        exists a1 a2 results appHash,
          app.FinalizeBlock a h txs = (a1, results, appHash)
          /\ app.Commit a1 = Ret a2
          /\ fst (app.Info a2) = h).
Proof.
  split; [exact bytesToInt64_int64ToBytes|].
  split; [exact bytesToInt64_short|].
  intros codec St a h txs Hh.
  destruct (Info_after_FinalizeBlock a h txs Hh)
    as (a1 & a2 & results & appHash & Hf & Hc & Hi).
  exists a1, a2, results, appHash. rewrite Hi. auto.
Qed.

(** The round trip at a negative height and at the largest one. *)
Lemma height_encoding_roundtrip_witness :
  bytesToInt64 (int64ToBytes (-2)) = -2
  /\ bytesToInt64 (int64ToBytes (2 ^ 63 - 1)) = 2 ^ 63 - 1
  /\ bytesToInt64 [1; 2; 3] = 0.
Proof.
  split; [|split].
  - apply (proj1 height_encoding_roundtrip). unfold Int64.in_range. lia.
  - apply (proj1 height_encoding_roundtrip). unfold Int64.in_range. lia.
  - apply (proj1 (proj2 height_encoding_roundtrip)). simpl. lia.
Defined.

End HeightLog.

(* ===================================================================== *)
(** ** Service registry *)
(* ===================================================================== *)

Section Registry.
Import srvreg registry_spec.

Context {H : Type}.
Implicit Types (sr : ServiceRegistry H) (visit : list (RouteKey * H)).

Lemma find_head_filter {A : Type} (f : A -> bool) (l : list A) :
  List.find f l = List.head (List.filter f l).
Proof.
  induction l as [| x l IH]; [reflexivity|].
  simpl. destruct (f x); [reflexivity | exact IH].
Qed.

Lemma filter_Permutation {A : Type} (f : A -> bool) (l l' : list A) :
  l ≡ₚ l' -> List.filter f l ≡ₚ List.filter f l'.
Proof.
  induction 1 as [| x l l' _ IH | x y l | l l' l'' _ IH1 _ IH2]; simpl.
  - reflexivity.
  - destruct (f x); [constructor|]; exact IH.
  - destruct (f x), (f y); try reflexivity. apply perm_swap.
  - etransitivity; eassumption.
Qed.

(** A list with at most one element is determined by its permutations. *)
Lemma short_Permutation_eq {A : Type} (l l' : list A) :
  (List.length l <= 1)%nat -> l ≡ₚ l' -> l = l'.
Proof.
  intros Hlen Hp.
  destruct l as [| x [| y l]]; simpl in Hlen; [| | lia].
  - apply Permutation_nil in Hp. congruence.
  - apply Permutation_length_1_inv in Hp. congruence.
Qed.

(** An exact registration of the queried path wins, whatever the order of
    the iteration. *)
Lemma exact_first sr visit method path handler :
  handlers sr !! (GoString.ToUpper method, path) = Some handler ->
  isExact sr (GoString.ToUpper method, path) = true ->
  GetHandlerForPath visit sr method path = Some handler.
Proof.
  intros Hh He. unfold GetHandlerForPath. cbv zeta. rewrite Hh, He. reflexivity.
Qed.

(** Without an exact registration of the path, the lookup is the pattern
    loop. *)
Lemma pattern_loop sr visit method path :
  (forall handler, handlers sr !! (GoString.ToUpper method, path) = Some handler ->
                   isExact sr (GoString.ToUpper method, path) = false) ->
  GetHandlerForPath visit sr method path
  = snd <$> List.find (fun e => patternHit sr method path (fst e)) visit.
Proof.
  intros Hne. unfold GetHandlerForPath. cbv zeta.
  destruct (handlers sr !! (GoString.ToUpper method, path)) as [h|] eqn:Hh;
    [|reflexivity].
  rewrite (Hne h eq_refl). reflexivity.
Qed.

(** What the pattern loop returns is registered under a non-exact pattern
    of the method that matches the path. *)
Lemma pattern_sound sr visit method path handler :
  visits sr visit ->
  snd <$> List.find (fun e => patternHit sr method path (fst e)) visit
    = Some handler ->
  exists routeKey,
    handlers sr !! routeKey = Some handler
    /\ patternHit sr method path routeKey = true.
Proof.
  unfold visits. intros Hv Hf.
  destruct (List.find _ visit) as [[k h]|] eqn:Hfind; [|discriminate].
  simpl in Hf. injection Hf as ->.
  apply List.find_some in Hfind as [Hin Hhit]. simpl in Hhit.
  exists k. split; [|exact Hhit].
  apply elem_of_map_to_list. rewrite <- Hv. apply list_elem_of_In. exact Hin.
Qed.

(** The pattern loop finds nothing exactly when no entry is accepted. *)
Lemma pattern_none sr visit method path :
  visits sr visit ->
  (List.find (fun e => patternHit sr method path (fst e)) visit = None
   <-> patternHits sr method path = []).
Proof.
  unfold visits, patternHits. intros Hv.
  rewrite find_head_filter.
  pose proof (filter_Permutation
                (fun e => patternHit sr method path (fst e)) _ _ Hv) as Hp.
  split; intros Hn.
  - destruct (List.filter _ visit); [|discriminate].
    apply Permutation_nil in Hp. exact Hp.
  - rewrite Hn in Hp. apply Permutation_sym, Permutation_nil in Hp.
    rewrite Hp. reflexivity.
Qed.

(** With at most one accepted entry, the order of the iteration does not
    matter. *)
Lemma pattern_unambiguous sr visit visit' method path :
  visits sr visit -> visits sr visit' ->
  (List.length (patternHits sr method path) <= 1)%nat ->
  GetHandlerForPath visit sr method path
  = GetHandlerForPath visit' sr method path.
Proof.
  unfold visits, patternHits. intros Hv Hv' Hlen.
  unfold GetHandlerForPath. cbv zeta. rewrite !find_head_filter.
  set (f := fun e : RouteKey * H => patternHit sr method path (fst e)) in *.
  assert (List.filter f visit = List.filter f visit') as ->; [|reflexivity].
  transitivity (List.filter f (map_to_list (handlers sr))).
  - symmetry. apply short_Permutation_eq; [exact Hlen|].
    apply filter_Permutation. symmetry. exact Hv.
  - apply short_Permutation_eq; [exact Hlen|].
    apply filter_Permutation. symmetry. exact Hv'.
Qed.

(** Registrations under different keys commute: the registry does not
    record the order in which they were made. *)
Lemma RegisterHandler_comm sr m1 p1 e1 (h1 : H) m2 p2 e2 (h2 : H) :
  (GoString.ToUpper m1, p1) <> (GoString.ToUpper m2, p2) ->
  RegisterHandler m1 p1 e1 h1 (RegisterHandler m2 p2 e2 h2 sr)
  = RegisterHandler m2 p2 e2 h2 (RegisterHandler m1 p1 e1 h1 sr).
Proof.
  intros Hne. unfold RegisterHandler. simpl. f_equal.
  - apply insert_insert_ne. congruence.
  - apply insert_insert_ne. congruence.
Qed.

End Registry.

Section RegistryClaims.
Import srvreg registry_spec.

(** C7 (amended). For every registry and every (method, path) query:
    an exact registration of the path is returned in preference to any
    pattern; failing that, the handler returned is registered under a
    non-exact pattern of the method that matches the path, and none is
    returned exactly when no such pattern exists; and when at most one
    registered pattern matches, the result is the same for every order in
    which the map of handlers is iterated. *)
Theorem lookup_exact_then_matching_pattern
    (H : Type) (sr : ServiceRegistry H) (visit visit' : list (RouteKey * H))
    (method path : string) :
  visits sr visit -> visits sr visit' ->
  (forall handler,
      handlers sr !! (GoString.ToUpper method, path) = Some handler ->
      isExact sr (GoString.ToUpper method, path) = true ->
      GetHandlerForPath visit sr method path = Some handler)
  /\ ((forall handler,
         handlers sr !! (GoString.ToUpper method, path) = Some handler ->
         isExact sr (GoString.ToUpper method, path) = false) ->
      (forall handler,
         GetHandlerForPath visit sr method path = Some handler ->
         exists routeKey,
           handlers sr !! routeKey = Some handler
           /\ patternHit sr method path routeKey = true)
      /\ (GetHandlerForPath visit sr method path = None
          <-> patternHits sr method path = []))
  /\ ((List.length (patternHits sr method path) <= 1)%nat ->
      GetHandlerForPath visit sr method path
      = GetHandlerForPath visit' sr method path).
Proof.
  intros Hv Hv'. split; [|split].
  - intros handler Hh He. apply exact_first; assumption.
  - intros Hne. rewrite (pattern_loop sr visit method path Hne). split.
    + intros handler. apply pattern_sound. exact Hv.
    + rewrite <- (pattern_none sr visit method path Hv).
      destruct (List.find _ visit); simpl; split; congruence.
  - intros Hlen. apply pattern_unambiguous; assumption.
Qed.

(** The default services answer a quality-check request with the same
    handler whichever way the map is iterated. *)
Lemma lookup_exact_then_matching_pattern_witness :
  GetHandlerForPath (map_to_list (handlers defaultServices)) defaultServices
    "post" "/session/S1/qc"
  = GetHandlerForPath (List.rev (map_to_list (handlers defaultServices)))
      defaultServices "post" "/session/S1/qc".
Proof.
  apply (fun v v' =>
           proj2 (proj2 (lookup_exact_then_matching_pattern string defaultServices
                           (map_to_list (handlers defaultServices))
                           (List.rev (map_to_list (handlers defaultServices)))
                           "post" "/session/S1/qc" v v'))).
  - unfold visits. reflexivity.
  - unfold visits. symmetry. apply Permutation_rev.
  - vm_compute. lia.
Defined.

(** C7 (as stated) fails: after registering the pattern /a/:x and then the
    pattern /:y/b, the map may be iterated with the second entry first,
    and the query POST /a/b is then answered by the handler registered
    second, where the lookup of the specification returns the first. *)
Lemma first_registered_does_not_win :
  visits (register_all overlapping (NewServiceRegistry false)) second_then_first
  /\ GetHandlerForPath second_then_first
       (register_all overlapping (NewServiceRegistry false)) "POST" "/a/b"
     = Some "second"
  /\ lookup_first_registered overlapping "POST" "/a/b" = Some "first".
Proof.
  split; [|split].
  - unfold visits. vm_compute. first [reflexivity | apply perm_swap].
  - vm_compute. reflexivity.
  - vm_compute. reflexivity.
Qed.

(** The registry holds no trace of the order of the registrations: the two
    orders of registering the overlapping patterns give the same registry,
    hence the same answers. *)
Lemma registration_order_is_forgotten :
  register_all overlapping (NewServiceRegistry false)
  = register_all (List.rev overlapping) (NewServiceRegistry false).
Proof.
  unfold register_all, overlapping. simpl.
  apply RegisterHandler_comm. vm_compute. discriminate.
Qed.

Lemma length_filter_count {A : Type} (f : A -> bool) (l : list A) :
  List.length (List.filter f l)
  = List.list_sum (List.map (fun x => if f x then 1%nat else 0%nat) l).
Proof.
  induction l as [| x l IH]; [reflexivity|].
  simpl. destruct (f x); simpl; rewrite IH; reflexivity.
Qed.

(** No path is matched by two patterns of the default services. *)
Lemma default_services_unambiguous (method path : string) :
  (List.length (patternHits defaultServices method path) <= 1)%nat.
Proof.
  unfold patternHits. rewrite length_filter_count.
  set (l := map_to_list (handlers defaultServices)).
  vm_compute in l. subst l.
  unfold patternHit, matchPath.
  generalize (GoString.ToUpper method) as m.
  generalize (GoString.Split "/" path) as parts.
  intros parts m.
  cbn [List.map List.list_sum fst snd].
  repeat match goal with
         | |- context [isExact ?s ?k] =>
             let v := eval vm_compute in (isExact s k) in
             change (isExact s k) with v
         | |- context [GoString.Split ?c ?p] =>
             let v := eval vm_compute in (GoString.Split c p) in
             change (GoString.Split c p) with v
         end.
  cbn [negb andb].
  rewrite ?andb_false_r.
  destruct (String.eqb_spec "GET" m) as [<- | _];
    [change ("POST" =? "GET")%string with false | destruct ("POST" =? m)%string];
    cbn [andb]; try lia.
  all: destruct parts as [|p0 [|p1 [|p2 [|p3 [|p4 [|p5 ?]]]]]];
    cbn [List.length Nat.eqb negb matchParts GoString.HasPrefixColon Ascii.eqb
         Bool.eqb andb];
    try (simpl; lia).
  all: repeat match goal with
         | |- context [String.eqb ?a ?b] =>
             destruct (String.eqb_spec a b); try congruence; subst;
             cbn [andb]
         end; simpl; lia.
Qed.

(** So the lookup in the default services does not depend on the order of
    the iteration. *)
Lemma default_services_deterministic
    (visit visit' : list (RouteKey * string)) (method path : string) :
  visits defaultServices visit -> visits defaultServices visit' ->
  GetHandlerForPath visit defaultServices method path
  = GetHandlerForPath visit' defaultServices method path.
Proof.
  intros Hv Hv'. apply pattern_unambiguous; try assumption.
  apply default_services_unambiguous.
Qed.

End RegistryClaims.

(* ===================================================================== *)
(** ** ProcessProposal *)
(* ===================================================================== *)

Section Proposal.
Import srvreg app replay.

Context `{EnvelopeCodec} {St : Type}.
Implicit Types (a : Application St) (sched : RangeSchedule St) (st : St).

(** Equality of responses is equality of status code and body; headers
    and the error text play no part. *)
Lemma compareResponses_spec (r1 r2 : Response) :
  compareResponses r1 r2 = true
  <-> StatusCode r1 = StatusCode r2 /\ RBody r1 = RBody r2.
Proof.
  unfold compareResponses.
  destruct (Z.eqb_spec (StatusCode r1) (StatusCode r2)) as [Hs | Hs];
    destruct (String.eqb_spec (RBody r1) (RBody r2)) as [Hb | Hb];
    simpl; split; intros; try discriminate; intuition.
Qed.

Lemma compareResponses_headers (r : Response) (h : gmap string string) (e : string) :
  compareResponses r {| StatusCode := StatusCode r; RHeaders := h;
                        RBody := RBody r; srvreg.Error := e |} = true.
Proof. apply compareResponses_spec. simpl. auto. Qed.

Lemma nodeID_eqb a (tx : Transaction) :
  String.eqb (nodeID a) (OriginNodeID tx) = true <-> OriginNodeID tx = nodeID a.
Proof. rewrite String.eqb_eq. split; congruence. Qed.

(** A proposal is accepted with the state [st'] exactly when all of its
    transactions pass. *)
Lemma accept_iff_Passes a sched (txs : list string) :
  forall i st st',
    ProcessProposal_from a sched i txs st = (Ret (ACCEPT, None), st')
    <-> Passes a sched i txs st st'.
Proof.
  induction txs as [| txBytes rest IH]; intros i st st'.
  - simpl. split.
    + intros Heq. injection Heq as <-. constructor.
    + intros Hp. inversion Hp; subst. reflexivity.
  - split.
    + simpl.
      destruct (fst (Unmarshal_ptr txBytes)) as [tx|] eqn:Hparse; [|discriminate].
      destruct (String.eqb (nodeID a) (OriginNodeID tx)) eqn:Hown; simpl.
      * intros Hrun. apply nodeID_eqb in Hown.
        eapply Passes_own; eauto. apply IH. exact Hrun.
      * assert (OriginNodeID tx <> nodeID a) as Hforeign.
        { intros Heq. apply nodeID_eqb in Heq. congruence. }
        destruct (GetHandlerForPath _ _ _ _) as [handler|] eqn:Hlookup;
          [|discriminate].
        destruct (handler (TRequest tx) st) as [out st1] eqn:Hrun.
        destruct out as [[response err] | why];
          [|cbv beta iota; discriminate].
        destruct err as [err|];
          [destruct response; cbv beta iota; discriminate|].
        destruct response as [response|]; [|cbv beta iota; discriminate].
        cbv beta iota.
        destruct (compareResponses response (TResponse tx)) eqn:Hcmp; simpl;
          [|discriminate].
        intros Hrest. apply compareResponses_spec in Hcmp as [Hs Hb].
        eapply Passes_foreign; eauto. apply IH. exact Hrest.
    + intros Hp. inversion Hp as
        [ | ? ? ? ? ? tx Hparse Hown Hrest
          | ? ? ? ? st1 ? tx handler response Hparse Hforeign Hlookup Hrun Hs Hb Hrest ];
        subst; simpl; rewrite Hparse.
      * apply nodeID_eqb in Hown. rewrite Hown. simpl. apply IH. exact Hrest.
      * destruct (String.eqb (nodeID a) (OriginNodeID tx)) eqn:Hown.
        { apply nodeID_eqb in Hown. contradiction. }
        simpl. rewrite Hlookup, Hrun.
        assert (compareResponses response (TResponse tx) = true) as ->
          by (apply compareResponses_spec; auto).
        simpl. apply IH. exact Hrest.
Qed.

(** After a prefix that passes, the loop goes on with the rest. *)
Lemma Passes_app a sched (pre rest : list string) :
  forall i st st1,
    Passes a sched i pre st st1 ->
    ProcessProposal_from a sched i (pre ++ rest) st
    = ProcessProposal_from a sched (i + List.length pre) rest st1.
Proof.
  induction pre as [| txBytes pre IH]; intros i st st1 Hp.
  - inversion Hp; subst. simpl. rewrite Nat.add_0_r. reflexivity.
  - inversion Hp as
      [ | ? ? ? ? ? tx Hparse Hown Hrest
        | ? ? ? ? st2 ? tx handler response Hparse Hforeign Hlookup Hrun Hs Hb Hrest ];
      subst; simpl; rewrite Hparse.
    + apply nodeID_eqb in Hown. rewrite Hown. simpl.
      rewrite (IH _ _ _ Hrest). f_equal. lia.
    + destruct (String.eqb (nodeID a) (OriginNodeID tx)) eqn:Hown.
      { apply nodeID_eqb in Hown. contradiction. }
      simpl. rewrite Hlookup, Hrun.
      assert (compareResponses response (TResponse tx) = true) as ->
        by (apply compareResponses_spec; auto).
      simpl. rewrite (IH _ _ _ Hrest). f_equal. lia.
Qed.

(** A foreign transaction whose replay fails ends the loop with REJECT. *)
Lemma Fails_rejects a sched i (txBytes : string) (rest : list string) st st1
    (tx : Transaction) (why : Failure) :
  fst (Unmarshal_ptr txBytes) = Some tx ->
  OriginNodeID tx <> nodeID a ->
  Fails a (sched i) tx st st1 why ->
  ProcessProposal_from a sched i (txBytes :: rest) st
  = (Ret (REJECT, Some (rejection why)), st1).
Proof.
  intros Hparse Hforeign Hf. simpl. rewrite Hparse.
  destruct (String.eqb (nodeID a) (OriginNodeID tx)) eqn:Hown.
  { apply nodeID_eqb in Hown. contradiction. }
  simpl.
  destruct Hf as [Hlookup | handler response err st1 Hlookup Hrun
                  | handler response st1 Hlookup Hrun Hdiff];
    rewrite Hlookup;
    [reflexivity | rewrite Hrun; destruct response; reflexivity |].
  rewrite Hrun.
  destruct (compareResponses response (TResponse tx)) eqn:Hcmp; [|reflexivity].
  apply compareResponses_spec in Hcmp. intuition.
Qed.

(** A transaction of the node itself is skipped: no lookup, no handler
    call, the state as it was. *)
Lemma own_transaction_skipped a sched i (txBytes : string) (rest : list string) st
    (tx : Transaction) :
  fst (Unmarshal_ptr txBytes) = Some tx ->
  OriginNodeID tx = nodeID a ->
  ProcessProposal_from a sched i (txBytes :: rest) st
  = ProcessProposal_from a sched (S i) rest st.
Proof.
  intros Hparse Hown. simpl. rewrite Hparse.
  apply nodeID_eqb in Hown. rewrite Hown. reflexivity.
Qed.

(** A transaction that does not decode to an envelope makes the loop
    dereference a nil pointer. *)
Lemma undecodable_panics a sched i (txBytes : string) (rest : list string) st :
  fst (Unmarshal_ptr txBytes) = None ->
  exists why, ProcessProposal_from a sched i (txBytes :: rest) st = (Panic why, st).
Proof.
  intros Hparse. simpl. rewrite Hparse. eexists. reflexivity.
Qed.

End Proposal.

Section ProposalClaims.
Import srvreg app replay.

(** C1 (amended). For every proposal: it is accepted exactly when every
    transaction decodes and each transaction that another node originated
    has a handler for its (method, path) which, re-executed on the
    transaction's request, returns no error and a response with the status
    code and the body string of the proposed one; after a prefix of
    transactions that pass, a foreign transaction is rejected with the
    whole proposal when no handler is found, when the handler returns an
    error, or when the local response differs in status code or body;
    headers take no part in the comparison; and a transaction that the
    replica originated itself is skipped without being replayed. *)
Theorem ProcessProposal_verdict
    (codec : EnvelopeCodec) (St : Type) (a : Application St)
    (sched : RangeSchedule St) (txs : list string) (st : St) :
  (forall st',
      ProcessProposal a sched txs st = (Ret (ACCEPT, None), st')
      <-> Passes a sched 0 txs st st')
  /\ (forall (pre : list string) txBytes rest st1 st2 tx why,
        txs = (pre ++ txBytes :: rest)%list ->
        Passes a sched 0 pre st st1 ->
        fst (Unmarshal_ptr txBytes) = Some tx ->
        OriginNodeID tx <> nodeID a ->
        Fails a (sched (List.length pre)) tx st1 st2 why ->
        ProcessProposal a sched txs st
        = (Ret (REJECT, Some (rejection why)), st2))
  /\ (forall (r : Response) (headers : gmap string string) (e : string),
        compareResponses r {| StatusCode := StatusCode r; RHeaders := headers;
                              RBody := RBody r; srvreg.Error := e |} = true)
  /\ (forall i txBytes rest st1 tx,
        fst (Unmarshal_ptr txBytes) = Some tx ->
        OriginNodeID tx = nodeID a ->
        ProcessProposal_from a sched i (txBytes :: rest) st1
        = ProcessProposal_from a sched (S i) rest st1).
Proof.
  split; [|split; [|split]].
  - intros st'. apply accept_iff_Passes.
  - intros pre txBytes rest st1 st2 tx why -> Hpre Hparse Hforeign Hfail.
    unfold ProcessProposal. rewrite (Passes_app a sched pre _ _ _ _ Hpre).
    apply Fails_rejects with (tx := tx); assumption.
  - intros r headers e. apply compareResponses_headers.
  - intros i txBytes rest st1 tx. apply own_transaction_skipped.
Qed.

End ProposalClaims.

Section ProposalExamples.
Import srvreg app replay demo.

(** Node N2 accepts a block with a transaction of its own and an honest
    session start of node N1, and rejects a block whose session start
    carries a forged response. *)
Lemma ProcessProposal_verdict_witness :
  (exists st',
      ProcessProposal demo.node2 demo.inMapOrder
        [demo.print_envelope demo.ownStart; demo.print_envelope demo.honestStart]
        demo.repo0 = (Ret (ACCEPT, None), st'))
  /\ (exists st2,
        ProcessProposal demo.node2 demo.inMapOrder
          [demo.print_envelope demo.ownStart; demo.print_envelope demo.forgedStart]
          demo.repo0
        = (Ret (REJECT, Some (rejection ResponseDiffers)), st2)).
Proof.
  split.
  - eexists.
    apply (proj1 (ProcessProposal_verdict demo.envelopeCodec _ demo.node2
                    demo.inMapOrder _ demo.repo0)).
    eapply Passes_own with (tx := demo.ownStart);
      [vm_compute; reflexivity | reflexivity |].
    eapply Passes_foreign with (tx := demo.honestStart)
                               (handler := handlers.CreateSessionHandler);
      [ vm_compute; reflexivity | vm_compute; discriminate
      | reflexivity | reflexivity | reflexivity | reflexivity | constructor ].
  - eexists.
    apply (proj1 (proj2 (ProcessProposal_verdict demo.envelopeCodec _ demo.node2
                           demo.inMapOrder _ demo.repo0))
             [demo.print_envelope demo.ownStart]
             (demo.print_envelope demo.forgedStart) [] demo.repo0 _
             demo.forgedStart ResponseDiffers).
    + reflexivity.
    + eapply Passes_own with (tx := demo.ownStart);
        [vm_compute; reflexivity | reflexivity | constructor].
    + vm_compute. reflexivity.
    + vm_compute. discriminate.
    + eapply Fails_differs with (handler := handlers.CreateSessionHandler);
        [reflexivity | reflexivity | left; vm_compute; discriminate].
Defined.

(** C1 (as stated) fails: node N1 proposes a session start for an operator
    that does not exist, with the very response node N2 computes for it;
    the handler is found and the two responses agree in status code and
    body, yet node N2 rejects the proposal, because the handler returns an
    error next to its response. *)
Lemma equal_response_rejected :
  exists handler response err st1,
    fst (Unmarshal_ptr (demo.print_envelope demo.failedStart))
      = Some demo.failedStart
    /\ String.eqb (OriginNodeID demo.failedStart) (nodeID demo.node2) = false
    /\ GetHandlerForPath (demo.inMapOrder 0%nat) (serviceRegistry demo.node2)
         "POST" "/session/start" = Some handler
    /\ handler (TRequest demo.failedStart) demo.repo0
       = (Ret (Some response, Some err), st1)
    /\ compareResponses response (TResponse demo.failedStart) = true
    /\ StatusCode response = 400
    /\ ProcessProposal demo.node2 demo.inMapOrder
         [demo.print_envelope demo.failedStart] demo.repo0
       = (Ret (REJECT, Some err), st1).
Proof.
  exists handlers.CreateSessionHandler. eexists _, _, _.
  split; [vm_compute; reflexivity|].
  split; [reflexivity|].
  split; [reflexivity|].
  split; [vm_compute; reflexivity|].
  split; [vm_compute; reflexivity|].
  split; [reflexivity|].
  vm_compute. reflexivity.
Qed.

End ProposalExamples.

Section ProposalTotality.
Import srvreg app replay.

(** C9 (the code at the failing input). A transaction whose bytes do not
    decode leaves the envelope pointer nil, and the loop dereferences it:
    ProcessProposal panics instead of returning a verdict. *)
Theorem ProcessProposal_undecodable_panics
    (codec : EnvelopeCodec) (St : Type) (a : Application St)
    (sched : RangeSchedule St) (txBytes : string) (rest : list string) (st : St) :
  fst (Unmarshal_ptr txBytes) = None ->
  exists why, ProcessProposal a sched (txBytes :: rest) st = (Panic why, st).
Proof.
  intros Hparse. unfold ProcessProposal. apply undecodable_panics. exact Hparse.
Qed.

End ProposalTotality.

Section ProposalTotalityExamples.
Import srvreg app replay demo.

(** A proposal whose only transaction is not JSON, at node N2. *)
Lemma ProcessProposal_undecodable_panics_witness :
  fst (Unmarshal_ptr "not json") = None
  /\ exists why,
       ProcessProposal demo.node2 demo.inMapOrder ["not json"] demo.repo0
       = (Panic why, demo.repo0).
Proof.
  split; [vm_compute; reflexivity|].
  apply (ProcessProposal_undecodable_panics demo.envelopeCodec _ demo.node2
           demo.inMapOrder "not json" [] demo.repo0).
  vm_compute. reflexivity.
Defined.

(** The sibling paths test the error of the decoder: CheckTx refuses such
    bytes, and FinalizeBlock records them as invalid and goes on. *)
Lemma siblings_check_the_error :
  fst (CheckTx "not json") = 1
  /\ List.map Code (snd (fst (FinalizeBlock demo.node2 1 ["not json"]))) = [1].
Proof. split; vm_compute; reflexivity. Qed.

End ProposalTotalityExamples.

(* ===================================================================== *)
(** ** Entity ids *)
(* ===================================================================== *)

Section Digest.

Lemma block_length (h blk : list Z) :
  List.length h = 8%nat -> List.length (SHA256.block h blk) = 8%nat.
Proof.
  intros Hh. unfold SHA256.block.
  rewrite List.length_map, List.length_combine, Hh. reflexivity.
Qed.

Lemma blocks_length (fuel : nat) :
  forall h bs, List.length h = 8%nat ->
               List.length (SHA256.blocks fuel h bs) = 8%nat.
Proof.
  induction fuel as [| fuel IH]; intros h bs Hh; simpl; [exact Hh|].
  destruct bs; [exact Hh|].
  apply IH. apply block_length. exact Hh.
Qed.

Lemma be_bytes_length (k : nat) (x : Z) : List.length (SHA256.be_bytes k x) = k.
Proof. induction k as [| k IH]; simpl; [reflexivity | f_equal; exact IH]. Qed.

Lemma words_bytes_length (ws : list Z) :
  List.length (List.concat (List.map (SHA256.be_bytes 4) ws))
  = (4 * List.length ws)%nat.
Proof.
  induction ws as [| w ws IH]; [reflexivity|].
  cbn [List.map List.concat]. rewrite List.length_app, be_bytes_length, IH.
  simpl. lia.
Qed.

(** A digest has 32 bytes. *)
Lemma Sum256_length (data : string) : List.length (SHA256.Sum256 data) = 32%nat.
Proof.
  unfold SHA256.Sum256.
  pose proof (blocks_length
                (List.length (SHA256.pad (SHA256.bytes_of_string data)))
                SHA256.H0 (SHA256.pad (SHA256.bytes_of_string data)) eq_refl) as Hl.
  cbv zeta. rewrite words_bytes_length, Hl. reflexivity.
Qed.

Lemma EncodeToString_length (bs : list Z) :
  String.length (Hex.EncodeToString bs) = (2 * List.length bs)%nat.
Proof. induction bs as [| b r IH]; simpl; [reflexivity | rewrite IH; lia]. Qed.

Lemma substring_0_length (n : nat) :
  forall s, (n <= String.length s)%nat ->
            String.length (String.substring 0 n s) = n.
Proof.
  induction n as [| n IH]; intros s Hn.
  - destruct s; reflexivity.
  - destruct s as [| c s]; simpl in *; [lia|].
    f_equal. apply IH. lia.
Qed.

(** The first 16 hexadecimal characters of a digest are there to take. *)
Lemma digest_prefix_length (data : string) :
  String.length
    (String.substring 0 16 (Hex.EncodeToString (SHA256.Sum256 data))) = 16%nat.
Proof.
  apply substring_0_length.
  rewrite EncodeToString_length, Sum256_length. lia.
Qed.

(** The digest of the standard test vector. *)
Example Sum256_abc :
  Hex.EncodeToString (SHA256.Sum256 "abc")
  = "ba7816bf8f01cfea414140de5dae2223b00361a396177a9cb410ff61f20015ad".
Proof. vm_compute. reflexivity. Qed.

End Digest.

Section StoreLemmas.
Import models store.

Lemma First_inr {R : Type} (cond : R -> bool) (rows : list R) (r : R) :
  First cond rows = inr r -> In r rows /\ cond r = true.
Proof.
  unfold First. destruct (List.find cond rows) as [x|] eqn:Hf; [|discriminate].
  intros Heq. injection Heq as <-. apply List.find_some. exact Hf.
Qed.

Lemma has_pk_false {R : Type} (pk : R -> string) (k : string) (rows : list R) :
  has_pk pk k rows = false ->
  forall x, In x rows -> String.eqb (pk x) k = false.
Proof.
  unfold has_pk. intros Hn x Hin.
  destruct (String.eqb (pk x) k) eqn:He; [|reflexivity].
  assert (List.existsb (fun r => String.eqb (pk r) k) rows = true); [|congruence].
  apply List.existsb_exists. exists x. auto.
Qed.

(** A row inserted under a new key is the row found under that key. *)
Lemma First_insert_row {R : Type} (pk : R -> string) (r : R) (rows : list R) :
  has_pk pk (pk r) rows = false ->
  First (fun x => String.eqb (pk x) (pk r)) (insert_row pk r rows) = inr r.
Proof.
  unfold First. induction rows as [| x rows IH]; intros Hn; simpl.
  - rewrite String.eqb_refl. reflexivity.
  - unfold has_pk in Hn. simpl in Hn. apply orb_false_elim in Hn as [Hx Hrest].
    destruct (String.ltb (pk r) (pk x)); simpl.
    + rewrite String.eqb_refl. reflexivity.
    + rewrite Hx. apply IH. exact Hrest.
Qed.

End StoreLemmas.

Section EntityIds.
Import srvreg models store repository handlers.

Lemma CreateSession_ok (sessionID operatorID : string) (r r' : Repository)
    (session : Session.t) :
  CreateSession sessionID operatorID r = (inr session, r') ->
  Session.ID session = sessionID
  /\ Session.OperatorID session = operatorID
  /\ Session.Status session = "active"
  /\ First (fun s => String.eqb (Session.ID s) sessionID) (sessions (db r'))
     = inr session.
Proof.
  unfold CreateSession, Begin. intros Hrun.
  destruct (Create_Session _ (db r)) as [e | dbTx1] eqn:Hcreate;
    [destruct e; discriminate|].
  injection Hrun as <- <-. simpl.
  repeat split; try reflexivity.
  unfold Create_Session in Hcreate. simpl in Hcreate.
  destruct (has_pk Session.ID sessionID _) eqn:Hpk; [discriminate|].
  destruct (negb _); [discriminate|].
  injection Hcreate as <-. simpl.
  apply (First_insert_row Session.ID
           {| Session.ID := sessionID; Session.Status := "active";
              Session.OperatorID := operatorID; Session.IsCommitted := false;
              Session.TxHash := None |} _ Hpk).
Qed.

Lemma QualityCheck_ok `{Outside} (sessionID : string) (qcPassed : bool)
    (issues : list string) (r r' : Repository) (pkg : Package.t)
    (qcRecord : QCRecord.t) :
  QualityCheck sessionID qcPassed issues r = (inr (pkg, qcRecord), r') ->
  QCRecord.ID qcRecord = qcID (Package.ID pkg) sessionID
  /\ QCRecord.PackageID qcRecord = Package.ID pkg
  /\ QCRecord.SessionID qcRecord = sessionID
  /\ First (fun c => String.eqb (QCRecord.ID c) (QCRecord.ID qcRecord))
           (qc_records (db r')) = inr qcRecord.
Proof.
  unfold QualityCheck, Begin. intros Hrun.
  destruct (First _ (sessions (db r))) as [e | session];
    [destruct e; discriminate|].
  destruct (First _ (packages (db r))) as [e | row];
    [destruct e; discriminate|].
  destruct (negb _); [discriminate|].
  destruct (if (0 <? _)%Z then _ else _) as [e | issuesStr]; [discriminate|].
  destruct (Create_QCRecord _ (db r)) as [e | dbTx1] eqn:Hcreate; [discriminate|].
  destruct (Save_Package _ dbTx1) as [e | dbTx2] eqn:Hsave; [discriminate|].
  injection Hrun as <- <- <-. simpl.
  repeat split; try reflexivity.
  assert (qc_records dbTx2 = qc_records dbTx1) as ->.
  { unfold Save_Package in Hsave.
    repeat match type of Hsave with
           | context [match ?x with _ => _ end] => destruct x
           end; try discriminate Hsave; injection Hsave as <-; reflexivity. }
  unfold Create_QCRecord in Hcreate.
  destruct (has_pk QCRecord.ID _ _) eqn:Hpk; [discriminate|].
  injection Hcreate as <-. simpl.
  apply (First_insert_row QCRecord.ID _ _ Hpk).
Qed.

Lemma LabelPackage_ok (sessionID destination priority courierID : string)
    (r r' : Repository) (newLabel : Label.t) :
  LabelPackage sessionID destination priority courierID r = (inr newLabel, r') ->
  exists pkg,
    First (same_session sessionID) (packages (db r)) = inr pkg
    /\ Label.ID newLabel = labelID courierID (Package.ID pkg) sessionID
    /\ Label.PackageID newLabel = Package.ID pkg
    /\ Label.CourierID newLabel = courierID
    /\ First (fun l => String.eqb (Label.ID l) (Label.ID newLabel))
             (labels (db r')) = inr newLabel.
Proof.
  unfold LabelPackage, Begin. intros Hrun.
  destruct (First _ (sessions (db r))) as [e | session] eqn:Hs;
    [destruct e; discriminate|].
  destruct (First _ (packages (db r))) as [e | pkg] eqn:Hp;
    [destruct e; discriminate|].
  destruct (First _ (couriers (db r))) as [e | courier] eqn:Hc;
    [destruct e; discriminate|].
  apply First_inr in Hc as [_ Hc]. apply String.eqb_eq in Hc.
  destruct (Create_Label _ _) as [e | dbTx1] eqn:Hcreate; [discriminate|].
  destruct (First _ (labels dbTx1)) as [e | found] eqn:Hfound; [discriminate|].
  injection Hrun as <- <-. simpl.
  exists pkg. rewrite Hc in *. repeat split; try reflexivity.
  unfold Create_Label in Hcreate.
  destruct (has_pk Label.ID _ _) eqn:Hpk; [discriminate|].
  injection Hcreate as <-. simpl.
  apply (First_insert_row Label.ID _ _ Hpk).
Qed.

(** C8. Entity ids are functions of their inputs: the session that
    /session/start creates has the id "SESSION-" followed by the request
    id; a QC record has the id "QC-" followed by the first 16 hexadecimal
    characters of SHA256(package id, session id); a label has the id
    "LBL-" followed by the first 16 hexadecimal characters of
    SHA256(courier id, package id, session id). *)
Theorem entity_ids_deterministic (codec : BodyCodec) (out : Outside) :
  (forall (req : Request) (r r' : Repository) (response : Response),
      CreateSessionHandler req r = (Ret (Some response, None), r') ->
      StatusCode response = StatusCreated ->
      exists session,
        First (fun s => String.eqb (Session.ID s) ("SESSION-" +:+ RequestID req))
              (sessions (db r')) = inr session
        /\ Session.ID session = "SESSION-" +:+ RequestID req)
  /\ (forall (sessionID : string) (qcPassed : bool) (issues : list string)
             (r r' : Repository) (pkg : Package.t) (qcRecord : QCRecord.t),
        QualityCheck sessionID qcPassed issues r = (inr (pkg, qcRecord), r') ->
        QCRecord.ID qcRecord
        = "QC-" +:+ String.substring 0 16
                      (Hex.EncodeToString
                         (SHA256.Sum256 (Package.ID pkg +:+ sessionID)))
        /\ QCRecord.PackageID qcRecord = Package.ID pkg
        /\ QCRecord.SessionID qcRecord = sessionID
        /\ First (fun c => String.eqb (QCRecord.ID c) (QCRecord.ID qcRecord))
                 (qc_records (db r')) = inr qcRecord)
  /\ (forall (sessionID destination priority courierID : string)
             (r r' : Repository) (newLabel : Label.t),
        LabelPackage sessionID destination priority courierID r
        = (inr newLabel, r') ->
        exists pkg,
          First (same_session sessionID) (packages (db r)) = inr pkg
          /\ Label.ID newLabel
             = "LBL-" +:+ String.substring 0 16
                            (Hex.EncodeToString
                               (SHA256.Sum256
                                  (courierID +:+ Package.ID pkg +:+ sessionID)))
          /\ Label.PackageID newLabel = Package.ID pkg
          /\ Label.CourierID newLabel = courierID
          /\ First (fun l => String.eqb (Label.ID l) (Label.ID newLabel))
                   (labels (db r')) = inr newLabel)
  /\ (forall data : string,
        String.length
          (String.substring 0 16 (Hex.EncodeToString (SHA256.Sum256 data)))
        = 16%nat).
Proof.
  split; [|split; [|split]].
  - intros req r r' response Hrun Hstatus.
    unfold CreateSessionHandler in Hrun.
    destruct (Unmarshal_startSession (Body req)) as [err | body];
      [discriminate|].
    destruct (String.eqb _ EmptyString).
    { injection Hrun as <- <-. discriminate Hstatus. }
    destruct (CreateSession _ _ r) as [[dbErr | session] r1] eqn:Hcreate.
    { injection Hrun as Hres <-. unfold CreateSession_failed in Hres.
      repeat match type of Hres with
             | context [if ?b then _ else _] => destruct b
             end; try discriminate Hres.
      injection Hres as <-. discriminate Hstatus. }
    injection Hrun as _ <-.
    apply CreateSession_ok in Hcreate as (Hid & _ & _ & Hfound).
    exists session. split; [exact Hfound | exact Hid].
  - intros sessionID qcPassed issues r r' pkg qcRecord Hrun.
    apply QualityCheck_ok in Hrun. exact Hrun.
  - intros sessionID destination priority courierID r r' newLabel Hrun.
    apply LabelPackage_ok in Hrun. exact Hrun.
  - apply digest_prefix_length.
Qed.

End EntityIds.

Section EntityIdsExamples.
Import srvreg models store repository handlers demo.

(** The ids of the scenario: the session of request r1, its QC record and
    its label. *)
Lemma entity_ids_deterministic_witness :
  (exists session,
      First (fun s => String.eqb (Session.ID s) "SESSION-r1")
            (sessions (db started)) = inr session
      /\ Session.ID session = "SESSION-r1")
  /\ List.map QCRecord.ID (qc_records (db checked)) = ["QC-dc2b504c5760ec11"]
  /\ List.map Label.ID (labels (db labelled)) = ["LBL-388317a708c6e743"].
Proof.
  split; [|split].
  - apply (proj1 (entity_ids_deterministic bodyCodec outside)
             startRequest repo0 started
             (localResponse CreateSessionHandler startRequest repo0));
      vm_compute; reflexivity.
  - vm_compute. reflexivity.
  - vm_compute. reflexivity.
Defined.

End EntityIdsExamples.

(* ===================================================================== *)
(** ** The commit of a session *)
(* ===================================================================== *)

Section Commit.
Import srvreg models store repository handlers.

Context `{BodyCodec} `{Outside}.


(** The gate on the status of the package. *)
Lemma CommitSession_package_not_ready (sessionID operatorID : string)
    (r : Repository) (session : Session.t) (row : Package.t) :
  First (fun s => String.eqb (Session.ID s) sessionID) (sessions (db r))
    = inr session ->
  Session.Status session <> "committed" ->
  operatorID = Session.OperatorID session ->
  First (same_session (Session.ID session)) (packages (db r)) = inr row ->
  Package.Status row <> "qc_passed" ->
  CommitSession sessionID operatorID r
  = (Ret (inl (mkErr "INVALID_STATE" "Package not ready for commit"
                 (GoString.concat ["Package status is "; Package.Status row;
                                   ", must be 'qc_passed'"]))),
     r).
Proof.
  intros Hs Hstatus Hop Hp Hpkg. unfold CommitSession, Begin, Rollback.
  rewrite Hs.
  apply String.eqb_neq in Hstatus. rewrite Hstatus.
  rewrite Hop, String.eqb_refl. simpl.
  rewrite Hp. simpl.
  apply String.eqb_neq in Hpkg. rewrite Hpkg. reflexivity.
Qed.



Lemma First_update_row {R : Type} (pk : R -> string) (r : R) (rows : list R) :
  has_pk pk (pk r) rows = true ->
  First (fun x => String.eqb (pk x) (pk r)) (update_row pk r rows) = inr r.
Proof.
  unfold First, has_pk, update_row.
  induction rows as [| x rows IH]; simpl; [discriminate|].
  destruct (String.eqb (pk x) (pk r)) eqn:Hx; simpl.
  - rewrite String.eqb_refl. reflexivity.
  - rewrite Hx. exact IH.
Qed.

Lemma First_has_pk {R : Type} (pk : R -> string) (k : string) (rows : list R) (r : R) :
  First (fun x => String.eqb (pk x) k) rows = inr r ->
  pk r = k /\ has_pk pk k rows = true.
Proof.
  intros Hf. apply First_inr in Hf as [Hin Hk]. split.
  - apply String.eqb_eq. exact Hk.
  - unfold has_pk. apply List.existsb_exists. exists r. auto.
Qed.

Lemma Save_Package_keeps (p : Package.t) (t t' : Tables) :
  Save_Package p t = inr t' ->
  sessions t' = sessions t /\ transactions t' = transactions t.
Proof.
  unfold Save_Package. intros Hsave.
  repeat match type of Hsave with
         | context [match ?x with _ => _ end] => destruct x
         end; try discriminate Hsave; injection Hsave as <-; auto.
Qed.

(** What a commit that returns the ledger record has written. *)
Lemma CommitSession_success (sessionID operatorID : string) (r r' : Repository)
    (tx : Transaction.t) :
  CommitSession sessionID operatorID r = (Ret (inr tx), r') ->
  exists session l1Resp,
    First (fun s => String.eqb (Session.ID s) sessionID) (sessions (db r'))
      = inr session
    /\ Session.ID session = sessionID
    /\ Session.Status session = "committed"
    /\ Session.IsCommitted session = true
    /\ Session.TxHash session = Some EmptyString
    /\ tx = {| Transaction.TxHash := EmptyString;
               Transaction.SessionID := sessionID;
               Transaction.BlockHeight := ConsensusResult.BlockHeight l1Resp;
               Transaction.Status := "committed" |}
    /\ First (fun x => String.eqb (Transaction.SessionID x) sessionID)
             (transactions (db r')) = inr tx.
Proof.
  unfold CommitSession, Begin, Rollback, abandon. intros Hrun.
  destruct (First _ (sessions (db r))) as [e | session] eqn:Hs;
    [destruct e; discriminate|].
  apply First_has_pk in Hs as [Hid Hpk].
  destruct (String.eqb (Session.Status session) "committed"); [discriminate|].
  destruct (negb _); [discriminate|].
  destruct (First _ (packages (db r))) as [e | row]; [destruct e; discriminate|].
  destruct (negb _); [discriminate|].
  destruct (First _ (labels (db r))) as [e | label]; [destruct e; discriminate|].
  destruct (Package.QCRecords _) as [| qc0 qcs]; [discriminate|].
  destruct (GoString.slice _ _ _) as [rawIssues1|]; [|discriminate].
  destruct (CommitToL1 _ _ _ _ _ _ _ _ _ _) as [repoErr | l1Resp]; [discriminate|].
  destruct (Save_Session _ (db r)) as [e | dbTx1] eqn:Hsave1; [discriminate|].
  destruct (Save_Package _ dbTx1) as [e | dbTx2] eqn:Hsave2; [discriminate|].
  destruct (Create_Transaction _ dbTx2) as [e | dbTx3] eqn:Hcreate; [discriminate|].
  injection Hrun as <- <-. simpl.
  apply Save_Package_keeps in Hsave2 as [Hsess Htx].
  unfold Create_Transaction in Hcreate. simpl in Hcreate.
  destruct (has_pk Transaction.SessionID _ _) eqn:Hnew; [discriminate|].
  injection Hcreate as <-. simpl.
  unfold Save_Session in Hsave1. simpl in Hsave1.
  rewrite Hid, Hpk in Hsave1. injection Hsave1 as <-.
  rewrite Hid in *.
  exists {| Session.ID := sessionID; Session.Status := "committed";
            Session.OperatorID := Session.OperatorID session;
            Session.IsCommitted := true;
            Session.TxHash := Some EmptyString |}, l1Resp.
  split; [|split; [|split; [|split; [|split; [|split]]]]]; try reflexivity.
  - rewrite Hsess. simpl.
    apply (First_update_row Session.ID
             {| Session.ID := sessionID; Session.Status := "committed";
                Session.OperatorID := Session.OperatorID session;
                Session.IsCommitted := true;
                Session.TxHash := Some EmptyString |} _ Hpk).
  - apply (First_insert_row Transaction.SessionID
             {| Transaction.TxHash := EmptyString;
                Transaction.SessionID := sessionID;
                Transaction.BlockHeight := ConsensusResult.BlockHeight l1Resp;
                Transaction.Status := "committed" |} _ Hnew).
Qed.

End Commit.

Section CommitClaims.
Import srvreg models store repository handlers.


(** C4 (the code on a successful commit). After a commit that returns
    the ledger record, the session row has status committed and
    is_committed true, and the ledger holds the record with the block
    height of the layer-1 reply and status committed; but the tx_hash of
    the session, and that of the record, is the empty string, whatever
    hash layer 1 replied. *)
Theorem commit_records_an_empty_tx_hash (out : Outside)
    (sessionID operatorID : string) (r r' : Repository) (tx : Transaction.t) :
  CommitSession sessionID operatorID r = (Ret (inr tx), r') ->
  exists session l1Resp,
    First (fun s => String.eqb (Session.ID s) sessionID) (sessions (db r'))
      = inr session
    /\ Session.ID session = sessionID
    /\ Session.Status session = "committed"
    /\ Session.IsCommitted session = true
    /\ Session.TxHash session = Some EmptyString
    /\ tx = {| Transaction.TxHash := EmptyString;
               Transaction.SessionID := sessionID;
               Transaction.BlockHeight := ConsensusResult.BlockHeight l1Resp;
               Transaction.Status := "committed" |}
    /\ First (fun x => String.eqb (Transaction.SessionID x) sessionID)
             (transactions (db r')) = inr tx.
Proof. apply CommitSession_success. Qed.

End CommitClaims.

Section CommitExamples.
Import srvreg models store repository handlers demo.



(** The two checks that come first also leave the database transaction
    open: they return without a rollback. *)
Lemma commit_leaves_transaction_open :
  openTx validated = 0%nat
  /\ openTx (snd (CommitSession "SESSION-r1" "OPR-002" validated)) = 1%nat
  /\ openTx (snd (CommitSession "SESSION-r1" "OPR-001" committed)) = 1%nat.
Proof. repeat split; vm_compute; reflexivity. Qed.

(** The commit of the scenario: layer 1 replies with the transaction id
    [l1TxID] in block 7, and the session is stored with an empty tx_hash. *)
Lemma commit_records_an_empty_tx_hash_witness :
  tx_id l1Meta = l1TxID
  /\ exists session l1Resp,
       First (fun s => String.eqb (Session.ID s) "SESSION-r1")
             (sessions (db committed)) = inr session
       /\ Session.ID session = "SESSION-r1"
       /\ Session.Status session = "committed"
       /\ Session.IsCommitted session = true
       /\ Session.TxHash session = Some EmptyString
       /\ {| Transaction.TxHash := EmptyString;
             Transaction.SessionID := "SESSION-r1";
             Transaction.BlockHeight := 7;
             Transaction.Status := "committed" |}
          = {| Transaction.TxHash := EmptyString;
               Transaction.SessionID := "SESSION-r1";
               Transaction.BlockHeight := ConsensusResult.BlockHeight l1Resp;
               Transaction.Status := "committed" |}
       /\ First (fun x => String.eqb (Transaction.SessionID x) "SESSION-r1")
                (transactions (db committed))
          = inr {| Transaction.TxHash := EmptyString;
                   Transaction.SessionID := "SESSION-r1";
                   Transaction.BlockHeight := 7;
                   Transaction.Status := "committed" |}.
Proof.
  split; [reflexivity|].
  apply (commit_records_an_empty_tx_hash outside "SESSION-r1" "OPR-001"
           labelled committed).
  vm_compute. reflexivity.
Defined.

End CommitExamples.

(* ===================================================================== *)
(** ** Status codes of store errors *)
(* ===================================================================== *)

Section StatusTable.
Import srvreg models store repository handlers status_spec.

Lemma mkErr_Code (code message detail : string) :
  RepositoryError.Code (mkErr code message detail) = code.
Proof. reflexivity. Qed.

(** What each error switch maps a code to. *)
Lemma CreateSession_statuses (code : string) :
  failureStatus CreateSession_failed code
  = Some (if String.eqb code PgErrForeignKeyViolation then 400
          else if String.eqb code PgErrUniqueViolation then 409
          else 500).
Proof.
  unfold failureStatus, CreateSession_failed. rewrite mkErr_Code.
  destruct (String.eqb code PgErrForeignKeyViolation); [reflexivity|].
  destruct (String.eqb code PgErrUniqueViolation); reflexivity.
Qed.

Lemma notFound_or_500_statuses (code : string) :
  failureStatus notFound_or_500 code
  = Some (if String.eqb code "ENTITY_NOT_FOUND" then 404 else 500).
Proof.
  unfold failureStatus, notFound_or_500. rewrite mkErr_Code.
  destruct (String.eqb code "ENTITY_NOT_FOUND"); reflexivity.
Qed.

Lemma LabelPackage_statuses (code : string) :
  failureStatus LabelPackage_failed code
  = Some (if String.eqb code "ENTITY_NOT_FOUND" then 404
          else if String.eqb code PgErrForeignKeyViolation then 400
          else 500).
Proof.
  unfold failureStatus, LabelPackage_failed. rewrite mkErr_Code.
  destruct (String.eqb code "ENTITY_NOT_FOUND"); [reflexivity|].
  destruct (String.eqb code PgErrForeignKeyViolation); reflexivity.
Qed.

Lemma CommitSession_statuses (code : string) :
  failureStatus CommitSession_failed code
  = Some (if String.eqb code "INVALID_STATE" then 409
          else if String.eqb code "ENTITY_NOT_FOUND" then 404
          else if String.eqb code PgErrForeignKeyViolation then 400
          else 500).
Proof.
  unfold failureStatus, CommitSession_failed. rewrite mkErr_Code.
  destruct (String.eqb code "INVALID_STATE"); [reflexivity|].
  destruct (String.eqb code "ENTITY_NOT_FOUND"); [reflexivity|].
  destruct (String.eqb code PgErrForeignKeyViolation); reflexivity.
Qed.

(** Every switch gives a code either the status of the table of the
    specification or 500. *)
Lemma switch_is_table_or_500 (switch : RepositoryError.t -> HandlerResult)
    (code : string) :
  In switch switches ->
  failureStatus switch code = Some (specStatus code)
  \/ failureStatus switch code = Some 500.
Proof.
  unfold switches, ScanPackage_failed, ValidatePackage_failed, QualityCheck_failed.
  intros Hin. simpl in Hin.
  destruct Hin as [<- | [<- | [<- | [<- | [<- | [<- | []]]]]]].
  - rewrite CreateSession_statuses. unfold specStatus.
    destruct (String.eqb code PgErrForeignKeyViolation); [left; reflexivity|].
    destruct (String.eqb code PgErrUniqueViolation); [left|right]; reflexivity.
  - rewrite notFound_or_500_statuses. unfold specStatus.
    destruct (String.eqb_spec code "ENTITY_NOT_FOUND") as [-> | _];
      [left|right]; reflexivity.
  - rewrite notFound_or_500_statuses. unfold specStatus.
    destruct (String.eqb_spec code "ENTITY_NOT_FOUND") as [-> | _];
      [left|right]; reflexivity.
  - rewrite notFound_or_500_statuses. unfold specStatus.
    destruct (String.eqb_spec code "ENTITY_NOT_FOUND") as [-> | _];
      [left|right]; reflexivity.
  - rewrite LabelPackage_statuses. unfold specStatus.
    destruct (String.eqb_spec code "ENTITY_NOT_FOUND") as [-> | _];
      [left; reflexivity|].
    destruct (String.eqb code PgErrForeignKeyViolation); [left|right]; reflexivity.
  - rewrite CommitSession_statuses. unfold specStatus.
    destruct (String.eqb_spec code "INVALID_STATE") as [-> | _];
      [left; reflexivity|].
    destruct (String.eqb_spec code "ENTITY_NOT_FOUND") as [-> | _];
      [left; reflexivity|].
    destruct (String.eqb code PgErrForeignKeyViolation); [left|right]; reflexivity.
Qed.

(** The quality check refuses a package that is not validated with the
    code INVALID_STATE. *)
Lemma QualityCheck_not_validated `{Outside} (sessionID : string) (qcPassed : bool)
    (issues : list string) (r : Repository) (session : Session.t) (row : Package.t) :
  First (fun s => String.eqb (Session.ID s) sessionID) (sessions (db r))
    = inr session ->
  First (same_session sessionID) (packages (db r)) = inr row ->
  Package.Status row <> "validated" ->
  exists dbErr,
    QualityCheck sessionID qcPassed issues r = (inl dbErr, r)
    /\ RepositoryError.Code dbErr = "INVALID_STATE".
Proof.
  intros Hs Hp Hstatus. unfold QualityCheck, Begin, Rollback.
  rewrite Hs, Hp. simpl.
  apply String.eqb_neq in Hstatus. rewrite Hstatus. simpl.
  eexists. split; reflexivity.
Qed.

(** A quality check on a session whose package is not in the state
    validated propagates the store error INVALID_STATE; the handler
    answers 500 with the body of an internal error, where the table of the
    specification, and the commit handler for the same code, give 409. *)
Lemma QualityCheck_invalid_state_is_500 (codec : BodyCodec) (out : Outside)
    (req : Request) (r : Repository) (sessionID : string)
    (body : QualityCheckBody.t) (session : Session.t) (row : Package.t) :
  sessionOfPath (Path req) = Some sessionID ->
  Unmarshal_QualityCheck (Body req) = inr body ->
  First (fun s => String.eqb (Session.ID s) sessionID) (sessions (db r))
    = inr session ->
  First (same_session sessionID) (packages (db r)) = inr row ->
  Package.Status row <> "validated" ->
  QualityCheckHandler req r
  = (Ret (Some (mkResponse StatusInternalServerError
                  (errorBody "Internal server error")), None), r)
  /\ specStatus "INVALID_STATE" = StatusConflict
  /\ failureStatus CommitSession_failed "INVALID_STATE" = Some StatusConflict.
Proof.
  intros Hpath Hbody Hs Hp Hstatus.
  split; [|split; reflexivity].
  unfold QualityCheckHandler. rewrite Hpath, Hbody.
  destruct (QualityCheck_not_validated sessionID (QualityCheckBody.Passed body)
              (QualityCheckBody.Issues body) r session row Hs Hp Hstatus)
    as (dbErr & -> & Hcode).
  unfold QualityCheck_failed, notFound_or_500. rewrite Hcode. reflexivity.
Qed.

(** Each handler answers a store error with what its switch gives. *)
Lemma handlers_use_their_switches (codec : BodyCodec) (out : Outside)
    (labelOp : LabelOperation) (req : Request) (r r1 : Repository) (dbErr : RepositoryError.t) :
  (forall body,
      Unmarshal_startSession (Body req) = inr body ->
      startSessionHandlerBody.OperatorID body <> EmptyString ->
      CreateSession ("SESSION-" +:+ RequestID req)
        (startSessionHandlerBody.OperatorID body) r = (inl dbErr, r1) ->
      CreateSessionHandler req r = (Ret (CreateSession_failed dbErr), r1))
  /\ (forall sessionID body,
        sessionOfPath (Path req) = Some sessionID ->
        Unmarshal_QualityCheck (Body req) = inr body ->
        QualityCheck sessionID (QualityCheckBody.Passed body)
          (QualityCheckBody.Issues body) r = (inl dbErr, r1) ->
        QualityCheckHandler req r = (Ret (QualityCheck_failed dbErr), r1))
  /\ (forall sessionID body,
        sessionOfPath (Path req) = Some sessionID ->
        Unmarshal_labelPackage (Body req) = inr body ->
        LabelPackage_with_label sessionID (labelPackageHandlerBody.Label body)
          (labelPackageHandlerBody.Destination body)
          (labelPackageHandlerBody.Priority body)
          (labelPackageHandlerBody.CourierID body) r = (inl dbErr, r1) ->
        LabelPackageHandler req r = (Ret (LabelPackage_failed dbErr), r1))
  /\ (forall sessionID body,
        sessionOfPath (Path req) = Some sessionID ->
        Unmarshal_commitSession (Body req) = inr body ->
        CommitSession sessionID (commitSessionHandlerBody.OperatorID body) r
        = (Ret (inl dbErr), r1) ->
        CommitSessionHandler req r = (Ret (CommitSession_failed dbErr), r1))
  /\ (forall sessionID body,
        Unmarshal_scanPackage (Body req) = inr body ->
        sessionOfPath (Path req) = Some sessionID ->
        scanPackageHandlerBody.PackageID body <> EmptyString ->
        ScanPackage sessionID (scanPackageHandlerBody.PackageID body) r
        = (inl dbErr, r1) ->
        ScanPackageHandler req r = (Ret (ScanPackage_failed dbErr), r1))
  /\ (forall sessionID body,
        Unmarshal_validatePackage (Body req) = inr body ->
        validatePackageHandlerBody.Signature body <> EmptyString ->
        validatePackageHandlerBody.PackageID body <> EmptyString ->
        sessionOfPath (Path req) = Some sessionID ->
        ValidatePackage (validatePackageHandlerBody.Signature body)
          (validatePackageHandlerBody.PackageID body) sessionID r
        = (inl dbErr, r1) ->
        ValidatePackageHandler req r = (Ret (ValidatePackage_failed dbErr), r1)).
Proof.
  repeat split.
  - intros body Hbody Hop Hrun. unfold CreateSessionHandler.
    rewrite Hbody. apply String.eqb_neq in Hop. rewrite Hop, Hrun. reflexivity.
  - intros sessionID body Hpath Hbody Hrun. unfold QualityCheckHandler.
    rewrite Hpath, Hbody, Hrun. reflexivity.
  - intros sessionID body Hpath Hbody Hrun. unfold LabelPackageHandler.
    rewrite Hpath, Hbody, Hrun. reflexivity.
  - intros sessionID body Hpath Hbody Hrun. unfold CommitSessionHandler.
    rewrite Hpath, Hbody, Hrun. reflexivity.
  - intros sessionID body Hbody Hpath Hpkg Hrun. unfold ScanPackageHandler.
    rewrite Hbody, Hpath. apply String.eqb_neq in Hpkg. rewrite Hpkg, Hrun.
    reflexivity.
  - intros sessionID body Hbody Hsig Hpkg Hpath Hrun. unfold ValidatePackageHandler.
    rewrite Hbody. apply String.eqb_neq in Hsig. apply String.eqb_neq in Hpkg.
    rewrite Hsig, Hpkg, Hpath, Hrun. reflexivity.
Qed.

(** C6 (amended). Each handler answers the code of a store error by its
    own switch. On the codes a switch lists it agrees with the table of
    the specification: session start, foreign-key violation 400 and unique
    violation 409; scan, validate and quality check, entity not found 404;
    label, entity not found 404 and foreign-key violation 400; commit,
    invalid state 409, entity not found 404 and foreign-key violation 400.
    Every handler answers 500 to a code outside the four classes of the
    table, and for every handler and code the status is the one of the
    table or 500. *)
Theorem status_by_handler_switch (code : string) :
  (failureStatus CreateSession_failed PgErrForeignKeyViolation = Some 400
   /\ failureStatus CreateSession_failed PgErrUniqueViolation = Some 409
   /\ failureStatus ScanPackage_failed "ENTITY_NOT_FOUND" = Some 404
   /\ failureStatus ValidatePackage_failed "ENTITY_NOT_FOUND" = Some 404
   /\ failureStatus QualityCheck_failed "ENTITY_NOT_FOUND" = Some 404
   /\ failureStatus LabelPackage_failed "ENTITY_NOT_FOUND" = Some 404
   /\ failureStatus LabelPackage_failed PgErrForeignKeyViolation = Some 400
   /\ failureStatus CommitSession_failed "INVALID_STATE" = Some 409
   /\ failureStatus CommitSession_failed "ENTITY_NOT_FOUND" = Some 404
   /\ failureStatus CommitSession_failed PgErrForeignKeyViolation = Some 400)
  /\ (forall switch,
        In switch switches ->
        specStatus code = StatusInternalServerError ->
        failureStatus switch code = Some 500)
  /\ (forall switch,
        In switch switches ->
        failureStatus switch code = Some (specStatus code)
        \/ failureStatus switch code = Some 500).
Proof.
  split; [repeat split; reflexivity|]. split.
  - intros switch Hin Hother.
    destruct (switch_is_table_or_500 switch code Hin) as [Ht | Ht];
      rewrite Ht; [rewrite Hother|]; reflexivity.
  - intros switch. apply switch_is_table_or_500.
Qed.

End StatusTable.

Section StatusTableExamples.
Import srvreg models store repository handlers status_spec demo.

(** A store error of no class of the table, in the label handler. *)
Lemma status_by_handler_switch_witness :
  failureStatus LabelPackage_failed "COMMIT_FAILED" = Some 500.
Proof.
  apply (proj1 (proj2 (status_by_handler_switch "COMMIT_FAILED"))
           LabelPackage_failed).
  - simpl. tauto.
  - reflexivity.
Defined.

(** A second quality check on the package of the scenario, which the
    first one left in the state qc_passed. *)
Lemma second_quality_check_is_500 :
  List.map Package.Status (packages (db checked)) = ["qc_passed"]
  /\ QualityCheckHandler qcRequest checked
     = (Ret (Some (mkResponse 500 (errorBody "Internal server error")), None),
        checked).
Proof.
  split; [vm_compute; reflexivity|].
  apply (proj1 (QualityCheck_invalid_state_is_500 bodyCodec outside qcRequest
                  checked "SESSION-r1"
                  {| QualityCheckBody.Passed := true;
                     QualityCheckBody.Issues := ["all good"] |}
                  {| Session.ID := "SESSION-r1"; Session.Status := "active";
                     Session.OperatorID := "OPR-001"; Session.IsCommitted := false;
                     Session.TxHash := None |}
                  {| Package.ID := "PKG-001"; Package.SessionID := Some "SESSION-r1";
                     Package.SupplierID := "SUP-001";
                     Package.DeliveryNoteID := "DN-001";
                     Package.Signature := "digital_sig_001";
                     Package.IsTrusted := true; Package.Status := "qc_passed";
                     Package.Items := []; Package.Supplier := None;
                     Package.QCRecords := [] |}
                  ltac:(vm_compute; reflexivity) ltac:(vm_compute; reflexivity)
                  ltac:(vm_compute; reflexivity) ltac:(vm_compute; reflexivity)
                  ltac:(vm_compute; discriminate))).
Qed.

(** C6 (as stated) fails. The same code has different statuses in
    different handlers: a foreign-key violation is 400 in the session
    start and 500 in the scan, and a unique violation, 409 in the table,
    is 500 in the commit. A validation for a session that does not exist
    violates the foreign key of the package, which the store operation
    reports as UPDATE_FAILED and the handler answers 500. And a second
    quality check on the same package propagates INVALID_STATE, which the
    handler answers 500 where the table has 409. *)
Lemma status_differs_between_handlers :
  failureStatus CreateSession_failed "23503" = Some 400
  /\ failureStatus ScanPackage_failed "23503" = Some 500
  /\ specStatus "23505" = 409
  /\ failureStatus CommitSession_failed "23505" = Some 500
  /\ (exists message detail,
        Save_Package
          {| Package.ID := "PKG-001"; Package.SessionID := Some "SESSION-none";
             Package.SupplierID := "SUP-001"; Package.DeliveryNoteID := "DN-001";
             Package.Signature := "digital_sig_001"; Package.IsTrusted := true;
             Package.Status := "validated"; Package.Items := [];
             Package.Supplier := None; Package.QCRecords := [] |} tables0
        = inl (PgError "23503" message detail))
  /\ statusOf (ValidatePackageHandler
                 (request "POST" "/session/SESSION-none/validate"
                    (Body validateRequest) "r6") repo0) = Some 500
  /\ (exists dbErr,
        fst (QualityCheck "SESSION-r1" true ["all good"] checked) = inl dbErr
        /\ RepositoryError.Code dbErr = "INVALID_STATE")
  /\ statusOf (QualityCheckHandler qcRequest checked) = Some 500
  /\ specStatus "INVALID_STATE" = 409.
Proof.
  repeat split; try (vm_compute; reflexivity).
  - eexists _, _. vm_compute. reflexivity.
  - eexists. split; vm_compute; reflexivity.
Qed.

(** The codes that the store operations of part_004 propagate and the
    statuses their handlers give them: all agree with the table of the
    specification but INVALID_STATE in the quality check. *)
Lemma propagated_codes :
  List.map (failureStatus CreateSession_failed)
    ["23503"; "23505"; "DATABASE_ERROR"]
  = List.map (fun c => Some (specStatus c)) ["23503"; "23505"; "DATABASE_ERROR"]
  /\ List.map (failureStatus ScanPackage_failed)
       ["ENTITY_NOT_FOUND"; "DATABASE_ERROR"; "UPDATE_FAILED"; "COMMIT_FAILED"]
     = List.map (fun c => Some (specStatus c))
         ["ENTITY_NOT_FOUND"; "DATABASE_ERROR"; "UPDATE_FAILED"; "COMMIT_FAILED"]
  /\ List.map (failureStatus QualityCheck_failed)
       ["ENTITY_NOT_FOUND"; "DATABASE_ERROR"; "MARSHALING_ERROR"; "INSERT_FAILED";
        "UPDATE_FAILED"; "COMMIT_FAILED"]
     = List.map (fun c => Some (specStatus c))
         ["ENTITY_NOT_FOUND"; "DATABASE_ERROR"; "MARSHALING_ERROR"; "INSERT_FAILED";
          "UPDATE_FAILED"; "COMMIT_FAILED"]
  /\ List.map (failureStatus LabelPackage_failed)
       ["ENTITY_NOT_FOUND"; "DATABASE_ERROR"; "COMMIT_FAILED"]
     = List.map (fun c => Some (specStatus c))
         ["ENTITY_NOT_FOUND"; "DATABASE_ERROR"; "COMMIT_FAILED"]
  /\ List.map (failureStatus CommitSession_failed)
       ["ENTITY_NOT_FOUND"; "CONFLICT"; "UNAUTHORIZED"; "INVALID_STATE";
        "DATABASE_ERROR"; "CONSENSUS_ERROR"; "CONFIG_ERROR"; "NETWORK_ERROR"]
     = List.map (fun c => Some (specStatus c))
         ["ENTITY_NOT_FOUND"; "CONFLICT"; "UNAUTHORIZED"; "INVALID_STATE";
          "DATABASE_ERROR"; "CONSENSUS_ERROR"; "CONFIG_ERROR"; "NETWORK_ERROR"]
  /\ failureStatus QualityCheck_failed "INVALID_STATE" = Some 500
  /\ specStatus "INVALID_STATE" = 409.
Proof. repeat split; vm_compute; reflexivity. Qed.

End StatusTableExamples.

(* ===================================================================== *)
(** ** The web server and handler errors *)
(* ===================================================================== *)

Section Server.
Import srvreg repository server.

(** C2 (amended). When the handler of a request returns an error, with or
    without a response that encodes the failure, the web server assembles
    no envelope and hands nothing to consensus, and the client receives
    the locally generated 422 error that quotes the handler's error. A
    response that the handler returns without an error, a failure response
    included, is assembled with the request and the node id into the
    envelope that is handed to consensus, and once its block is read back
    the client receives the handler's status code and, as the body, what
    [ParseBody] makes of the handler's body: the JSON object or array it
    holds, and nil for any other text. Requests under /commit/ are
    answered in the same way, except that nothing is handed to consensus
    at all. *)
Theorem handler_error_is_not_broadcast
    (codec : app.EnvelopeCodec) (parser : BodyParser) (eng : Engine) (St : Type)
    (ws : WebServer St) (visit : list (RouteKey * ServiceHandler St))
    (requestID : string) (request : Request) (st : St) :
  (forall (response : option Response) (err : string) (st1 : St),
      GenerateResponse visit (serviceRegistry ws) request st
      = (Ret (response, Some err), st1) ->
      handleSessionAPI ws visit (inr requestID) (inr request) st
      = (served [JSONError ("Failed to generate response: " +:+ err) 422] [], st1)
      /\ handleCommitAPI ws visit (inr requestID) (inr request) st
         = (served [JSONError ("Failed to generate response: " +:+ err) 422] [],
            st1))
  /\ (forall (response : Response) (st1 : St),
        GenerateResponse visit (serviceRegistry ws) request st
        = (Ret (Some response, None), st1) ->
        let transaction :=
          {| TRequest := request; TResponse := response;
             OriginNodeID := nodeID ws; BlockHeight := 0 |} in
        submitted (fst (handleSessionAPI ws visit (inr requestID) (inr request) st))
        = [transaction]
        /\ (forall (consensusResponse : ConsensusResult.t) (txs : list string),
              RunConsensus transaction = inr consensusResponse ->
              Block (ConsensusResult.BlockHeight consensusResponse)
              = inr (Some txs) ->
              exists reply,
                written (fst (handleSessionAPI ws visit (inr requestID)
                                (inr request) st)) = [Reply reply]
                /\ CStatusCode reply = StatusCode response
                /\ CBody reply = ParseBody response)
        /\ submitted (fst (handleCommitAPI ws visit (inr requestID)
                             (inr request) st)) = []
        /\ (exists reply,
              written (fst (handleCommitAPI ws visit (inr requestID)
                              (inr request) st)) = [Reply reply]
              /\ CStatusCode reply = StatusCode response
              /\ CBody reply = ParseBody response)).
Proof.
  split.
  - intros response err st1 Hgen.
    unfold handleSessionAPI, handleCommitAPI. rewrite Hgen.
    destruct response; split; reflexivity.
  - intros response st1 Hgen transaction.
    unfold handleSessionAPI, handleCommitAPI. rewrite Hgen.
    fold transaction. split; [|split; [|split]].
    + destruct (RunConsensus transaction) as [repoErr | consensusResponse].
      * destruct (String.eqb _ _); reflexivity.
      * destruct (Block _) as [err | [txs|]]; reflexivity.
    + intros consensusResponse txs -> ->. eexists. simpl.
      split; [reflexivity|]. split; reflexivity.
    + reflexivity.
    + eexists. split; [reflexivity|]. split; reflexivity.
Qed.

End Server.

Section ServerExamples.
Import srvreg repository handlers server demo.

(** A session start without an operator id: the handler answers 400 and
    returns no error, the envelope goes to consensus and the client is
    answered 400. *)
Lemma handler_error_is_not_broadcast_witness :
  exists reply,
    written (fst (handleSessionAPI webServer (map_to_list (srvreg.handlers services))
                    (inr "r8")
                    (inr (request "POST" "/session/start" "{}" "r8")) repo0))
    = [Reply reply]
    /\ CStatusCode reply = 400
    /\ CBody reply
       = Some (JObject {[ "error" := JString "operator ID is required" ]}).
Proof.
  apply (proj1 (proj2
           (proj2 (handler_error_is_not_broadcast envelopeCodec bodyParser engine _
                     webServer (map_to_list (srvreg.handlers services)) "r8"
                     (request "POST" "/session/start" "{}" "r8") repo0)
              (mkResponse 400 (errorBody "operator ID is required")) repo0
              ltac:(vm_compute; reflexivity)))
           {| ConsensusResult.TxHash := "abcd"; ConsensusResult.BlockHeight := 12;
              ConsensusResult.Code := 0 |}
           [print_envelope honestStart]);
    vm_compute; reflexivity.
Defined.

(** C2 (as stated) fails: a session start for an operator that does not
    exist makes the handler return a response with status 400 that
    encodes the foreign-key violation, together with an error; the web
    server hands nothing to consensus and answers the client with its own
    422 error. *)
Lemma failed_start_is_not_broadcast :
  statusOf (CreateSessionHandler unknownOperatorRequest repo0) = Some 400
  /\ (exists err,
        errorOf (CreateSessionHandler unknownOperatorRequest repo0) = Some err
        /\ written (fst (handleSessionAPI webServer
                           (map_to_list (srvreg.handlers services))
                           (inr "r9") (inr unknownOperatorRequest) repo0))
           = [JSONError ("Failed to generate response: " +:+ err) 422])
  /\ submitted (fst (handleSessionAPI webServer
                       (map_to_list (srvreg.handlers services))
                       (inr "r9") (inr unknownOperatorRequest) repo0)) = [].
Proof.
  split; [vm_compute; reflexivity|]. split.
  - eexists. split; vm_compute; reflexivity.
  - vm_compute. reflexivity.
Qed.

End ServerExamples.

(* ===================================================================== *)
(** ** The layer-1 commit-replication handler *)
(* ===================================================================== *)

Section ReceiveCommit.
Import srvreg repository handlers.

#[local] Existing Instance l1_spec.l1Repository.

(** On the repository modelled from the specification, what the handler
    does follows the row that the store holds for the session. *)
Lemma ReceiveCommitHandler_on_spec (codec : BodyCodec) (req : Request)
    (sessionID : string) (body : receiveCommitHandlerBody.t)
    (st : gmap string l1_spec.Committed) :
  sessionOfPath (Path req) = Some sessionID ->
  Unmarshal_receiveCommit (Body req) = inr body ->
  (st !! sessionID = None ->
   ReceiveCommitHandler req st
   = (Ret (Some (mkResponse StatusAccepted (Body req)), None),
      <[sessionID := l1_spec.rowOf body]> st))
  /\ (st !! sessionID = Some (l1_spec.rowOf body) ->
      ReceiveCommitHandler req st
      = (Ret (Some (mkResponse StatusAccepted (Body req)), None), st))
  /\ (forall old,
        st !! sessionID = Some old ->
        old <> l1_spec.rowOf body ->
        exists response,
          ReceiveCommitHandler req st = (Ret (Some response, None), st)
          /\ StatusCode response = StatusUnprocessableEntity).
Proof.
  intros Hpath Hbody.
  unfold ReceiveCommitHandler. rewrite Hpath, Hbody. simpl.
  unfold l1_spec.ReplicateCommitFromL2. fold (l1_spec.rowOf body).
  split; [|split].
  - intros ->. reflexivity.
  - intros ->. rewrite decide_True by reflexivity. reflexivity.
  - intros old -> Hold. rewrite decide_False by exact Hold.
    eexists. split; reflexivity.
Qed.

(** C5 (amended). The handler of /session/{id}/commit-l1 is idempotent by
    session id, and it answers a conflict with 422. For every layer-1
    repository it never answers 409; when the repository refuses the
    payload it answers 422 with the error of the repository in the body,
    and when the repository accepts it, 202 with the body of the request.
    On the repository modelled from the specification: a request that was
    answered 202 left the row of its payload under its session id, and
    submitted again it is answered with the same 202 response and leaves
    the same store; and a payload for a session whose row exists with
    other contents is answered 422, the store staying as it was. *)
Theorem ReceiveCommit_resubmission (codec : BodyCodec) (req : Request) :
  (forall (L1 : Type) (repo : L1Repository L1) (st : L1),
      (forall (response : Response) (err : option string) (st1 : L1),
          ReceiveCommitHandler req st = (Ret (Some response, err), st1) ->
          StatusCode response <> StatusConflict)
      /\ (forall (sessionID : string) (body : receiveCommitHandlerBody.t)
                 (res : option RepositoryError.t) (st1 : L1),
            sessionOfPath (Path req) = Some sessionID ->
            Unmarshal_receiveCommit (Body req) = inr body ->
            ReplicateCommitFromL2 sessionID
              (receiveCommitHandlerBody.OperatorID body)
              (receiveCommitHandlerBody.PackageID body)
              (receiveCommitHandlerBody.SupplierSignature body)
              (receiveCommitHandlerBody.Label body)
              (receiveCommitHandlerBody.Destination body)
              (receiveCommitHandlerBody.Priority body)
              (receiveCommitHandlerBody.CourierID body)
              (receiveCommitHandlerBody.QcPassed body)
              (receiveCommitHandlerBody.Issues body) st = (res, st1) ->
            (forall repoErr,
                res = Some repoErr ->
                ReceiveCommitHandler req st
                = (Ret (Some (mkResponse StatusUnprocessableEntity
                                (errorBody
                                   (GoString.concat
                                      [RepositoryError.Code repoErr; ", ";
                                       RepositoryError.Message repoErr; ", ";
                                       RepositoryError.Detail repoErr]))),
                        None), st1))
            /\ (res = None ->
                ReceiveCommitHandler req st
                = (Ret (Some (mkResponse StatusAccepted (Body req)), None), st1))))
  /\ (forall (st st1 : gmap string l1_spec.Committed)
             (response : Response) (err : option string),
        ReceiveCommitHandler req st = (Ret (Some response, err), st1) ->
        StatusCode response = StatusAccepted ->
        ReceiveCommitHandler req st1 = (Ret (Some response, err), st1)
        /\ response = mkResponse StatusAccepted (Body req)
        /\ exists sessionID body,
             sessionOfPath (Path req) = Some sessionID
             /\ Unmarshal_receiveCommit (Body req) = inr body
             /\ st1 !! sessionID = Some (l1_spec.rowOf body))
  /\ (forall (st : gmap string l1_spec.Committed) (sessionID : string)
             (body : receiveCommitHandlerBody.t) (old : l1_spec.Committed),
        sessionOfPath (Path req) = Some sessionID ->
        Unmarshal_receiveCommit (Body req) = inr body ->
        st !! sessionID = Some old ->
        old <> l1_spec.rowOf body ->
        exists response,
          ReceiveCommitHandler req st = (Ret (Some response, None), st)
          /\ StatusCode response = StatusUnprocessableEntity).
Proof.
  split; [|split].
  - intros L1 repo st. split.
    + intros response err st1. unfold ReceiveCommitHandler.
      destruct (sessionOfPath (Path req)) as [sessionID|].
      2:{ intros Heq. injection Heq as <- _ _. discriminate. }
      destruct (Unmarshal_receiveCommit (Body req)) as [e | body].
      { intros Heq. injection Heq as <- _ _. discriminate. }
      destruct (ReplicateCommitFromL2 _ _ _ _ _ _ _ _ _ _ _) as [[repoErr|] st2];
        intros Heq; injection Heq as <- _ _; discriminate.
    + intros sessionID body res st1 Hpath Hbody Hrepo.
      unfold ReceiveCommitHandler. rewrite Hpath, Hbody.
      split.
      * intros repoErr ->. rewrite Hrepo. reflexivity.
      * intros ->. rewrite Hrepo. reflexivity.
  - intros st st1 response err Hrun Hstatus.
    destruct (sessionOfPath (Path req)) as [sessionID|] eqn:Hpath.
    2:{ unfold ReceiveCommitHandler in Hrun. rewrite Hpath in Hrun.
        injection Hrun as <- _ _. discriminate Hstatus. }
    destruct (Unmarshal_receiveCommit (Body req)) as [e | body] eqn:Hbody.
    { unfold ReceiveCommitHandler in Hrun. rewrite Hpath, Hbody in Hrun.
      injection Hrun as <- _ _. discriminate Hstatus. }
    destruct (ReceiveCommitHandler_on_spec codec req sessionID body st Hpath Hbody)
      as (Hnew & Hsame & Hother).
    destruct (st !! sessionID) as [old|] eqn:Hrow.
    + destruct (l1_spec.Committed_eq_dec old (l1_spec.rowOf body)) as [-> | Hdiff].
      * rewrite (Hsame eq_refl) in Hrun. injection Hrun as <- <- <-.
        split; [apply Hsame; reflexivity|]. split; [reflexivity|].
        exists sessionID, body. auto.
      * destruct (Hother old eq_refl Hdiff) as (refused & Hrefused & Hcode).
        rewrite Hrefused in Hrun. injection Hrun as <- _ _.
        rewrite Hcode in Hstatus. discriminate Hstatus.
    + rewrite (Hnew eq_refl) in Hrun. injection Hrun as <- <- <-.
      assert (<[sessionID := l1_spec.rowOf body]> st !! sessionID
              = Some (l1_spec.rowOf body)) as Hheld by apply lookup_insert_eq.
      destruct (ReceiveCommitHandler_on_spec codec req sessionID body
                  (<[sessionID := l1_spec.rowOf body]> st) Hpath Hbody)
        as (_ & Hagain & _).
      split; [apply Hagain; exact Hheld|]. split; [reflexivity|].
      exists sessionID, body. auto.
  - intros st sessionID body old Hpath Hbody Hrow Hdiff.
    destruct (ReceiveCommitHandler_on_spec codec req sessionID body st Hpath Hbody)
      as (_ & _ & Hother).
    exact (Hother old Hrow Hdiff).
Qed.

End ReceiveCommit.

Section ReceiveCommitExamples.
Import srvreg repository handlers demo l1_spec.

(** The same payload twice, on the repository modelled from the
    specification: 202 each time, the body of the request, the same row. *)
Lemma ReceiveCommit_resubmission_witness :
  ReceiveCommitHandler (commitL1 "CUSTOMER A") ∅
  = (Ret (Some (mkResponse 202 (Body (commitL1 "CUSTOMER A"))), None),
     l1_after_first)
  /\ ReceiveCommitHandler (commitL1 "CUSTOMER A") l1_after_first
     = (Ret (Some (mkResponse 202 (Body (commitL1 "CUSTOMER A"))), None),
        l1_after_first).
Proof.
  split; [vm_compute; reflexivity|].
  apply (proj1 (proj2 (ReceiveCommit_resubmission bodyCodec
                         (commitL1 "CUSTOMER A")))
           ∅ l1_after_first
           (mkResponse 202 (Body (commitL1 "CUSTOMER A"))) None).
  - vm_compute. reflexivity.
  - reflexivity.
Defined.

(** C5 (as stated) fails: after the payload for the session was accepted,
    a payload for the same session with another destination is refused by
    the repository, and the handler answers 422, not 409. *)
Lemma conflicting_commit_is_422 :
  statusOf (ReceiveCommitHandler (commitL1 "CUSTOMER A") ∅) = Some 202
  /\ statusOf (ReceiveCommitHandler (commitL1 "CUSTOMER B") l1_after_first)
     = Some 422
  /\ snd (ReceiveCommitHandler (commitL1 "CUSTOMER B") l1_after_first)
     = l1_after_first.
Proof. repeat split; vm_compute; reflexivity. Qed.

End ReceiveCommitExamples.

(* ===================================================================== *)
(** * Further properties of the code *)
(* ===================================================================== *)

(** ** Paths and routes *)

Section Paths.
Import srvreg routing.

Lemma Split_nonempty (sep : ascii) (s : string) : GoString.Split sep s <> [].
Proof.
  induction s as [| c r IH]; simpl; [discriminate|].
  destruct (Ascii.eqb c sep); [discriminate|].
  destruct (GoString.Split sep r); [contradiction | discriminate].
Qed.

(** Joining the pieces of a string gives the string back. *)
Lemma Join_Split (sep : ascii) (s : string) : Join sep (GoString.Split sep s) = s.
Proof.
  induction s as [| c r IH]; [reflexivity|].
  simpl. destruct (Ascii.eqb_spec c sep) as [-> | Hne].
  - pose proof (Split_nonempty sep r) as Hn.
    destruct (GoString.Split sep r) as [| p ps]; [contradiction|].
    change (Join sep (EmptyString :: p :: ps))
      with (EmptyString +:+ String sep (Join sep (p :: ps))).
    rewrite IH. reflexivity.
  - pose proof (Split_nonempty sep r) as Hn.
    destruct (GoString.Split sep r) as [| p ps]; [contradiction|].
    destruct ps as [| p' ps]; simpl in *.
    + rewrite IH. reflexivity.
    + rewrite <- IH. reflexivity.
Qed.

Lemma Split_inj (sep : ascii) (s t : string) :
  GoString.Split sep s = GoString.Split sep t -> s = t.
Proof.
  intros Heq. rewrite <- (Join_Split sep s), <- (Join_Split sep t), Heq.
  reflexivity.
Qed.



(** Segment lists of equal length, the first without parameters, match
    only when they are equal. *)
Lemma matchParts_literal (ps xs : list string) :
  List.forallb (fun seg => negb (GoString.HasPrefixColon seg)) ps = true ->
  List.length ps = List.length xs ->
  (matchParts ps xs = true <-> xs = ps).
Proof.
  revert xs. induction ps as [| p ps IH]; intros [| x xs]; simpl;
    try discriminate.
  - intros _ _. split; reflexivity.
  - intros Hl Hlen. apply andb_prop in Hl as [Hp Hps].
    apply negb_true_iff in Hp. rewrite Hp.
    injection Hlen as Hlen.
    destruct (String.eqb_spec p x) as [-> | Hne].
    + rewrite (IH xs Hps Hlen). split; congruence.
    + split; [discriminate | congruence].
Qed.

End Paths.

Section Routes.
Import srvreg registry_spec routing.

(** A registration leaves the entries under other keys as they were. *)
Lemma RegisterHandler_other {H : Type} (sr : ServiceRegistry H)
    (m p : string) (e : bool) (h : H) (key : RouteKey) :
  (GoString.ToUpper m, p) <> key ->
  handlers (RegisterHandler m p e h sr) !! key = handlers sr !! key
  /\ isExact (RegisterHandler m p e h sr) key = isExact sr key.
Proof.
  intros Hne. unfold isExact, RegisterHandler. simpl.
  rewrite !lookup_insert_ne by exact Hne. split; reflexivity.
Qed.

Lemma register_all_other {H : Type} (regs : list (Registration H))
    (sr : ServiceRegistry H) (key : RouteKey) :
  Forall (fun r => (GoString.ToUpper (rMethod r), rPath r) <> key) regs ->
  handlers (register_all regs sr) !! key = handlers sr !! key
  /\ isExact (register_all regs sr) key = isExact sr key.
Proof.
  unfold register_all. revert sr.
  induction regs as [| r regs IH]; intros sr Hall; simpl; [split; reflexivity|].
  apply Forall_cons in Hall as [Hr Hrest].
  destruct (IH (RegisterHandler (rMethod r) (rPath r) (rExact r) (rHandler r) sr)
              Hrest) as [-> ->].
  apply RegisterHandler_other. exact Hr.
Qed.

(** X1. A route registered as exact, under a method of ASCII bytes, is
    found again under its path, for the method in any letter case, in
    whatever order the map is iterated and whatever is registered
    afterwards, under methods of ASCII bytes, for other routes; and a
    registration under a route that is registered already replaces the
    earlier handler and its exactness. *)
Theorem exact_registration_round_trip (H : Type) (sr : ServiceRegistry H)
    (later : list (Registration H)) (visit : list (RouteKey * H))
    (method query path : string) (handler : H) :
  GoString.isASCII method = true ->
  GoString.isASCII query = true ->
  GoString.ToUpper query = GoString.ToUpper method ->
  Forall (fun r => GoString.isASCII (rMethod r) = true
                   /\ (GoString.ToUpper (rMethod r), rPath r)
                      <> (GoString.ToUpper method, path)) later ->
  GetHandlerForPath visit
    (register_all later (RegisterHandler method path true handler sr)) query path
  = Some handler
  /\ (forall (earlier : H) (wasExact : bool),
        RegisterHandler method path true handler
          (RegisterHandler query path wasExact earlier sr)
        = RegisterHandler method path true handler sr).
Proof.
  intros _ _ Hm Hlater.
  assert (Forall (fun r => (GoString.ToUpper (rMethod r), rPath r)
                           <> (GoString.ToUpper method, path)) later) as Hother
    by (eapply Forall_impl; [exact Hlater | intros r [_ Hr]; exact Hr]).
  split.
  - apply exact_first; rewrite Hm.
    + rewrite (proj1 (register_all_other later _ _ Hother)).
      unfold RegisterHandler. simpl. apply lookup_insert_eq.
    + rewrite (proj2 (register_all_other later _ _ Hother)).
      unfold isExact, RegisterHandler. simpl. rewrite lookup_insert_eq. reflexivity.
  - intros earlier wasExact. unfold RegisterHandler. simpl. rewrite Hm.
    f_equal; apply insert_insert_eq.
Qed.

(** X2. A pattern without parameter segments matches exactly one path:
    itself. *)
Theorem literal_pattern_matches_only_itself (pattern path : string) :
  literal pattern = true ->
  (matchPath pattern path = true <-> path = pattern).
Proof.
  unfold literal, matchPath. intros Hl.
  destruct (Nat.eqb_spec (List.length (GoString.Split "/" pattern))
                         (List.length (GoString.Split "/" path))) as [Hlen | Hlen];
    simpl.
  - rewrite (matchParts_literal _ _ Hl Hlen). split.
    + intros Heq. apply (Split_inj "/"). exact Heq.
    + intros ->. reflexivity.
  - split; [discriminate|]. intros ->. contradiction.
Qed.

(** X3. In whatever order the map of handlers is iterated, the lookup in
    the default services for a method of ASCII bytes is the route table:
    the two exact routes by the whole path, the five patterns by the
    segments of the path with any text, the empty one included, in the
    place of a parameter, and no handler for any other such method and
    path. *)
Theorem default_services_route_table
    (visit : list (RouteKey * string)) (method path : string) :
  visits defaultServices visit ->
  GoString.isASCII method = true ->
  GetHandlerForPath visit defaultServices method path = defaultRoute method path.
Proof.
  intros Hv _.
  rewrite (pattern_unambiguous defaultServices visit
             (map_to_list (handlers defaultServices)) method path Hv
             ltac:(unfold visits; reflexivity)
             (default_services_unambiguous method path)).
  unfold GetHandlerForPath, defaultRoute, patternHit, matchPath. cbv zeta.
  generalize (GoString.ToUpper method) as m. intros m.
  destruct (handlers defaultServices !! (m, path)) as [h|] eqn:Hh.
  - apply elem_of_map_to_list in Hh.
    set (l := map_to_list (handlers defaultServices)) in Hh.
    vm_compute in l. subst l.
    repeat (apply elem_of_cons in Hh as [Hh | Hh];
            [injection Hh as -> -> ->; vm_compute; reflexivity|]).
    apply elem_of_nil in Hh. contradiction.
  - assert ((m =? "POST")%string && (path =? "/session/test-package")%string = false)
      as ->.
    { apply andb_false_iff.
      destruct (String.eqb_spec m "POST") as [-> |]; [|auto].
      destruct (String.eqb_spec path "/session/test-package") as [-> |]; [|auto].
      vm_compute in Hh. discriminate. }
    assert ((m =? "POST")%string && (path =? "/session/start")%string = false)
      as ->.
    { apply andb_false_iff.
      destruct (String.eqb_spec m "POST") as [-> |]; [|auto].
      destruct (String.eqb_spec path "/session/start") as [-> |]; [|auto].
      vm_compute in Hh. discriminate. }
    clear Hh.
    set (l := map_to_list (handlers defaultServices)).
    vm_compute in l. subst l.
    generalize (GoString.Split "/" path) as parts. intros parts.
    cbn [List.find fst snd].
    repeat match goal with
           | |- context [isExact ?s ?k] =>
               let v := eval vm_compute in (isExact s k) in
               change (isExact s k) with v
           | |- context [GoString.Split ?c ?p] =>
               let v := eval vm_compute in (GoString.Split c p) in
               change (GoString.Split c p) with v
           end.
    cbn [negb andb].
    rewrite ?andb_false_r.
    destruct (String.eqb_spec m "POST") as [-> | Hpost];
      [| destruct (String.eqb_spec m "GET") as [-> | Hget]].
    + change ("GET" =? "POST")%string with false.
      change ("POST" =? "POST")%string with true.
      change ("POST" =? "GET")%string with false.
      cbn [andb].
      destruct parts as [|p0 [|p1 [|p2 [|p3 [|p4 [|p5 ?]]]]]];
        cbn [List.length Nat.eqb negb matchParts GoString.HasPrefixColon Ascii.eqb
             Bool.eqb andb fmap option_fmap option_map];
        try reflexivity;
        repeat match goal with
               | |- context [String.eqb ?a ?b] =>
                   destruct (String.eqb_spec a b); try congruence; subst;
                   cbn [andb fmap option_fmap option_map]
               end; try reflexivity.
    + change ("GET" =? "GET")%string with true.
      change ("POST" =? "GET")%string with false.
      cbn [andb].
      destruct parts as [|p0 [|p1 [|p2 [|p3 [|p4 [|p5 ?]]]]]];
        cbn [List.length Nat.eqb negb matchParts GoString.HasPrefixColon Ascii.eqb
             Bool.eqb andb fmap option_fmap option_map];
        try reflexivity;
        repeat match goal with
               | |- context [String.eqb ?a ?b] =>
                   destruct (String.eqb_spec a b); try congruence; subst;
                   cbn [andb fmap option_fmap option_map]
               end; try reflexivity.
    + assert (("POST" =? m)%string = false) as ->
        by (apply String.eqb_neq; congruence).
      assert (("GET" =? m)%string = false) as ->
        by (apply String.eqb_neq; congruence).
      cbn [andb fmap option_fmap option_map].
      destruct parts as [|p0 [|p1 [|p2 [|p3 [|p4 [|p5 ?]]]]]]; reflexivity.
Qed.

End Routes.

Section RoutesExamples.
Import srvreg registry_spec routing.

(** A health route registered in lower case, then the two overlapping
    patterns: the query in mixed case finds the health handler. *)
Lemma exact_registration_round_trip_witness :
  GetHandlerForPath []
    (register_all overlapping
       (RegisterHandler "post" "/healthz" true "health" (NewServiceRegistry false)))
    "Post" "/healthz"
  = Some "health".
Proof.
  apply (proj1 (exact_registration_round_trip string (NewServiceRegistry false)
                  overlapping [] "post" "Post" "/healthz" "health"
                  ltac:(reflexivity) ltac:(reflexivity) ltac:(reflexivity)
                  ltac:(repeat constructor; vm_compute; discriminate))).
Defined.

(** The pattern /session/start matches that path and not /session/stop. *)
Lemma literal_pattern_matches_only_itself_witness :
  matchPath "/session/start" "/session/start" = true
  /\ matchPath "/session/start" "/session/stop" <> true.
Proof.
  split.
  - apply (proj2 (literal_pattern_matches_only_itself "/session/start"
                    "/session/start" ltac:(reflexivity))).
    reflexivity.
  - intros Hm.
    apply (proj1 (literal_pattern_matches_only_itself "/session/start"
                    "/session/stop" ltac:(reflexivity))) in Hm.
    discriminate Hm.
Defined.

(** A quality check with an empty session id is routed to the handler of
    quality checks; a path with one segment more is routed nowhere. *)
Lemma default_services_route_table_witness :
  GetHandlerForPath (List.rev (map_to_list (handlers defaultServices)))
    defaultServices "post" "/session//qc" = Some "QualityCheckHandler"
  /\ GetHandlerForPath (List.rev (map_to_list (handlers defaultServices)))
       defaultServices "POST" "/session/S1/qc/again" = None.
Proof.
  rewrite (default_services_route_table
             (List.rev (map_to_list (handlers defaultServices)))
             "post" "/session//qc"
             ltac:(unfold visits; symmetry; apply Permutation_rev)
             ltac:(reflexivity)).
  rewrite (default_services_route_table
             (List.rev (map_to_list (handlers defaultServices)))
             "POST" "/session/S1/qc/again"
             ltac:(unfold visits; symmetry; apply Permutation_rev)
             ltac:(reflexivity)).
  split; reflexivity.
Defined.

End RoutesExamples.

(* ===================================================================== *)
(** ** The transaction log of the application *)
(* ===================================================================== *)

Section Ledger.
Import srvreg app ledger.

Context `{EnvelopeCodec}.

Lemma substring_all (s : string) : String.substring 0 (String.length s) s = s.
Proof. induction s as [| c s IH]; simpl; [reflexivity | rewrite IH; reflexivity]. Qed.

Lemma append_inj_l (p a b : string) : p +:+ a = p +:+ b -> a = b.
Proof.
  induction p as [| c p IH]; simpl; [auto|]. intros [= Heq]. auto.
Qed.

Lemma append_assoc (a b c : string) : (a +:+ b) +:+ c = a +:+ (b +:+ c).
Proof.
  induction a as [| x a IH]; [reflexivity|].
  change (String x ((a +:+ b) +:+ c) = String x (a +:+ (b +:+ c))).
  f_equal. exact IH.
Qed.

Lemma concat_app (l l' : list string) :
  GoString.concat (l ++ l') = GoString.concat l +:+ GoString.concat l'.
Proof.
  induction l as [| x l IH]; [reflexivity|].
  change (x +:+ GoString.concat (l ++ l')
          = (x +:+ GoString.concat l) +:+ GoString.concat l').
  rewrite IH. symmetry. apply append_assoc.
Qed.

(** The loop of [FinalizeBlock] over a block in two parts. *)
Lemma finalizeTxs_app (pre rest : list string) (batch : gmap string string) :
  finalizeTxs (pre ++ rest) batch
  = let '(batch1, results1) := finalizeTxs pre batch in
    let '(batch2, results2) := finalizeTxs rest batch1 in
    (batch2, (results1 ++ results2)%list).
Proof.
  revert batch. induction pre as [| txBytes pre IH]; intros batch; simpl.
  - destruct (finalizeTxs rest batch). reflexivity.
  - destruct (Unmarshal_val txBytes) as [tx [err|]].
    + rewrite IH. destruct (finalizeTxs pre batch) as [batch1 results1].
      destruct (finalizeTxs rest batch1). reflexivity.
    + simpl. rewrite IH.
      destruct (finalizeTxs pre _) as [batch1 results1].
      destruct (finalizeTxs rest batch1). reflexivity.
Qed.

(** Transactions with other ids leave the entries of an id as they are. *)
Lemma finalizeTxs_keeps (txID : string) (later : list string)
    (batch : gmap string string) :
  not_filed_again txID later ->
  fst (finalizeTxs later batch) !! ("tx:" +:+ txID) = batch !! ("tx:" +:+ txID)
  /\ fst (finalizeTxs later batch) !! ("status:" +:+ txID)
     = batch !! ("status:" +:+ txID).
Proof.
  unfold not_filed_again. revert batch.
  induction later as [| txBytes later IH]; intros batch Hall; simpl;
    [split; reflexivity|].
  apply Forall_cons in Hall as [Hhead Hrest].
  destruct (Unmarshal_val txBytes) as [tx [err|]] eqn:Hdec.
  - destruct (finalizeTxs later batch) as [b rs] eqn:Hf.
    specialize (IH batch Hrest). rewrite Hf in IH. exact IH.
  - simpl. fold (idOf tx).
    destruct (finalizeTxs later _) as [b rs] eqn:Hf.
    match type of Hf with finalizeTxs later ?b0 = _ =>
      specialize (IH b0 Hrest) end.
    rewrite Hf in IH. simpl in *. destruct IH as [-> ->].
    specialize (Hhead tx eq_refl).
    split.
    + rewrite lookup_insert_ne by discriminate.
      rewrite lookup_insert_ne; [reflexivity|].
      intros Heq. apply (append_inj_l "tx:") in Heq. contradiction.
    + rewrite lookup_insert_ne;
        [|intros Heq; apply (append_inj_l "status:") in Heq; contradiction].
      rewrite lookup_insert_ne by discriminate. reflexivity.
Qed.

(** The results of the loop do not depend on the batch, and there is one
    for each transaction. *)
Lemma finalizeTxs_results (txs : list string) (batch : gmap string string) :
  List.length (snd (finalizeTxs txs batch)) = List.length txs
  /\ GoString.concat (List.map Data (snd (finalizeTxs txs batch)))
     = GoString.concat (acceptedIDs txs).
Proof.
  revert batch. induction txs as [| txBytes txs IH]; intros batch; simpl;
    [split; reflexivity|].
  unfold acceptedIDs. simpl. fold (acceptedIDs txs).
  destruct (Unmarshal_val txBytes) as [tx [err|]].
  - destruct (finalizeTxs txs batch) as [b rs] eqn:Hf.
    specialize (IH batch). rewrite Hf in IH. simpl in *.
    destruct IH as [-> ->]. split; reflexivity.
  - simpl. destruct (finalizeTxs txs _) as [b rs] eqn:Hf.
    match type of Hf with finalizeTxs txs ?b0 = _ => specialize (IH b0) end.
    rewrite Hf in IH. simpl in *. destruct IH as [-> ->].
    split; reflexivity.
Qed.

Lemma append_nil_r (s : string) : s +:+ EmptyString = s.
Proof.
  induction s as [| c s IH]; [reflexivity|].
  change (String c (s +:+ EmptyString) = String c s). f_equal. exact IH.
Qed.

Lemma fold_left_append (rs : list ExecTxResult) (acc : string) :
  List.fold_left (fun acc r => acc +:+ Data r) rs acc
  = acc +:+ GoString.concat (List.map Data rs).
Proof.
  revert acc. induction rs as [| r rs IH]; intros acc.
  - symmetry. apply append_nil_r.
  - change (List.fold_left (fun acc r => acc +:+ Data r) rs (acc +:+ Data r)
            = acc +:+ (Data r +:+ GoString.concat (List.map Data rs))).
    rewrite IH. apply append_assoc.
Qed.

End Ledger.

Section LedgerClaims.
Import srvreg app ledger.

Lemma not_filed_again_of_ids `{EnvelopeCodec} (txID : string) (txs : list string) :
  ~ In txID (acceptedIDs txs) -> not_filed_again txID txs.
Proof.
  unfold not_filed_again, acceptedIDs.
  induction txs as [| txBytes txs IH]; intros Hnot; constructor.
  - intros tx Hdec Heq. apply Hnot. simpl. rewrite Hdec. left. exact Heq.
  - apply IH. intros Hin. apply Hnot. simpl. apply in_or_app. right. exact Hin.
Qed.

(** A query that begins with the verify prefix is a verification of the
    id that follows it. *)
Lemma Query_verify {St : Type} (a : Application St) (id : string) :
  Query a ("verify:" +:+ id) = verifyTransaction a id.
Proof.
  unfold Query.
  change (String.length ("verify:" +:+ id)) with (7 + String.length id)%nat.
  change (String.prefix "verify:" ("verify:" +:+ id))
    with (String.prefix EmptyString id).
  replace (7 + String.length id - 7)%nat with (String.length id) by lia.
  change (String.substring 7 (String.length id) ("verify:" +:+ id))
    with (String.substring 0 (String.length id) id).
  rewrite substring_all. simpl. destruct id; reflexivity.
Qed.

(** What the loop has filed for a transaction that decodes and whose id
    no later transaction of the block has. *)
Lemma finalizeTxs_files `{EnvelopeCodec} (pre later : list string)
    (txBytes : string) (tx : Transaction) (batch : gmap string string) :
  Unmarshal_val txBytes = (tx, None) ->
  not_filed_again (idOf tx) later ->
  fst (finalizeTxs (pre ++ txBytes :: later) batch) !! ("tx:" +:+ idOf tx)
  = Some txBytes
  /\ fst (finalizeTxs (pre ++ txBytes :: later) batch) !! ("status:" +:+ idOf tx)
     = Some "accepted".
Proof.
  intros Hdec Hlater. rewrite finalizeTxs_app.
  destruct (finalizeTxs pre batch) as [batch1 results1].
  simpl. rewrite Hdec.
  change (generateTxID (RequestID (TRequest tx)) (OriginNodeID tx)) with (idOf tx).
  unfold storeTransaction. cbv beta iota zeta.
  match goal with
  | |- context [finalizeTxs later ?b0] =>
      pose proof (finalizeTxs_keeps (idOf tx) later b0 Hlater) as [Htx Hst];
      destruct (finalizeTxs later b0) as [b3 rs3]
  end.
  simpl in *. rewrite Htx, Hst.
  rewrite lookup_insert_ne by discriminate.
  rewrite !lookup_insert_eq. split; reflexivity.
Qed.

(** The log after [FinalizeBlock] and [Commit], at the keys of a
    transaction. *)
Lemma committed_entries `{EnvelopeCodec} {St : Type} (a : Application St)
    (h : Z) (txs : list string) :
  exists a1 a2 results appHash,
    FinalizeBlock a h txs = (a1, results, appHash)
    /\ Commit a1 = Ret a2
    /\ badgerDB a2 !! "last_block_app_hash" = Some appHash
    /\ (forall id,
          badgerDB a2 !! ("tx:" +:+ id)
          = (fst (finalizeTxs txs ∅) ∪ badgerDB a) !! ("tx:" +:+ id)
          /\ badgerDB a2 !! ("status:" +:+ id)
             = (fst (finalizeTxs txs ∅) ∪ badgerDB a) !! ("status:" +:+ id)).
Proof.
  unfold FinalizeBlock.
  destruct (finalizeTxs txs ∅) as [batch txResults].
  eexists _, _, _, _. split; [reflexivity|]. split; [reflexivity|].
  simpl. split.
  - apply lookup_union_Some_l. apply lookup_insert_eq.
  - intros id. rewrite !lookup_union.
    rewrite !lookup_insert_ne by discriminate. split; reflexivity.
Qed.

(** X5. After [FinalizeBlock] on a block and [Commit], a verify query for
    the id of a transaction of the block that decodes returns code 0, the
    status accepted and the bytes of the transaction as they were proposed
    (those of the last one, when several transactions of the block have
    the id); the application hash of the block is stored under its key;
    and a verify query for an id that neither the block nor the log before
    it holds returns code 1. *)
Theorem finalized_transaction_is_verified (codec : EnvelopeCodec) (St : Type)
    (a : Application St) (h : Z) (pre later : list string)
    (txBytes : string) (tx : Transaction) :
  Unmarshal_val txBytes = (tx, None) ->
  not_filed_again (idOf tx) later ->
  exists a1 a2 results appHash,
    FinalizeBlock a h (pre ++ txBytes :: later) = (a1, results, appHash)
    /\ Commit a1 = Ret a2
    /\ Query a2 ("verify:" +:+ idOf tx)
       = {| QCode := 0; QLog := "accepted"; QKey := EmptyString;
            QValue := txBytes |}
    /\ Query a2 "last_block_app_hash"
       = {| QCode := 0; QLog := "exists"; QKey := "last_block_app_hash";
            QValue := appHash |}
    /\ (forall other,
          ~ In other (acceptedIDs (pre ++ txBytes :: later)) ->
          badgerDB a !! ("tx:" +:+ other) = None ->
          Query a2 ("verify:" +:+ other)
          = {| QCode := 1; QLog := "Transaction not found"; QKey := EmptyString;
               QValue := EmptyString |}).
Proof.
  intros Hdec Hlater.
  destruct (committed_entries a h (pre ++ txBytes :: later))
    as (a1 & a2 & results & appHash & Hfin & Hcommit & Hhash & Hkeys).
  exists a1, a2, results, appHash.
  split; [exact Hfin|]. split; [exact Hcommit|].
  destruct (finalizeTxs_files pre later txBytes tx ∅ Hdec Hlater) as [Htx Hst].
  split; [|split].
  - rewrite Query_verify. unfold verifyTransaction.
    destruct (Hkeys (idOf tx)) as [-> ->].
    rewrite (lookup_union_Some_l _ _ _ _ Htx), (lookup_union_Some_l _ _ _ _ Hst).
    reflexivity.
  - unfold Query. simpl. rewrite Hhash. reflexivity.
  - intros other Hnot Hold. rewrite Query_verify. unfold verifyTransaction.
    destruct (Hkeys other) as [-> _].
    apply not_filed_again_of_ids in Hnot.
    destruct (finalizeTxs_keeps other _ ∅ Hnot) as [Hk _].
    rewrite lookup_union, Hk, lookup_empty, Hold. reflexivity.
Qed.

(** X6. The application hash of a block is the SHA-256 digest of the
    concatenated transaction ids of its transactions that decode, the id
    of a transaction being the one [generateTxID] computes from its
    request id and its origin node id; and [FinalizeBlock] returns one
    result for each transaction. Blocks with the same transaction ids in
    the same order have the same application hash, whatever their height,
    the requests and responses that the transactions carry, the
    transactions that do not decode, and the log before the block. *)
Theorem app_hash_covers_the_ids_only (codec : EnvelopeCodec) (St : Type)
    (a : Application St) (h : Z) (txs : list string) :
  List.length (snd (fst (FinalizeBlock a h txs))) = List.length txs
  /\ snd (FinalizeBlock a h txs)
     = string_of_bytes (SHA256.Sum256 (GoString.concat (acceptedIDs txs)))
  /\ (forall (a' : Application St) (h' : Z) (txs' : list string),
        acceptedIDs txs' = acceptedIDs txs ->
        snd (FinalizeBlock a' h' txs') = snd (FinalizeBlock a h txs)).
Proof.
  assert (Hhash : forall (b : Application St) k l,
             snd (FinalizeBlock b k l)
             = string_of_bytes (SHA256.Sum256 (GoString.concat (acceptedIDs l)))).
  { intros b k l. unfold FinalizeBlock.
    pose proof (finalizeTxs_results l ∅) as [_ Hdata].
    destruct (finalizeTxs l ∅) as [batch txResults]. simpl in *.
    unfold calculateAppHash. rewrite fold_left_append, Hdata. reflexivity. }
  split; [|split].
  - unfold FinalizeBlock.
    pose proof (finalizeTxs_results txs ∅) as [Hlen _].
    destruct (finalizeTxs txs ∅) as [batch txResults]. exact Hlen.
  - apply Hhash.
  - intros a' h' txs' Hids. rewrite !Hhash, Hids. reflexivity.
Qed.

(** X7. [CheckTx] accepts bytes that decode without an error but leave the
    envelope pointer nil, such as the JSON text null: it answers code 0;
    [FinalizeBlock] files them as an accepted transaction; and
    [ProcessProposal] panics on every proposal that begins with them. *)
Theorem CheckTx_accepts_a_nil_envelope (codec : EnvelopeCodec) (St : Type)
    (a : Application St) (sched : RangeSchedule St) (data : string)
    (rest : list string) (st : St) (h : Z) :
  Unmarshal_ptr data = (None, None) ->
  CheckTx data = (0, None)
  /\ List.map (fun r => (Code r, Log r)) (snd (fst (FinalizeBlock a h [data])))
     = [(0, "accepted")]
  /\ exists why, ProcessProposal a sched (data :: rest) st = (Panic why, st).
Proof.
  intros Hnil. split; [|split].
  - unfold CheckTx, Unmarshal_val. rewrite Hnil. reflexivity.
  - unfold FinalizeBlock. simpl. unfold Unmarshal_val. rewrite Hnil. reflexivity.
  - apply undecodable_panics. rewrite Hnil. reflexivity.
Qed.

(** X8. [ProcessProposal] takes the origin field of a transaction at its
    word: a proposal in which every transaction names this replica as its
    origin is accepted without a handler being looked up or run, whatever
    requests and responses the transactions carry, and the state of the
    handlers is as before. *)
Theorem own_origin_is_trusted (codec : EnvelopeCodec) (St : Type)
    (a : Application St) (sched : RangeSchedule St) (txs : list string) (st : St) :
  Forall (fun txBytes =>
            exists tx, fst (Unmarshal_ptr txBytes) = Some tx
                       /\ OriginNodeID tx = nodeID a) txs ->
  ProcessProposal a sched txs st = (Ret (ACCEPT, None), st).
Proof.
  unfold ProcessProposal. generalize 0%nat as i.
  induction txs as [| txBytes txs IH]; intros i Hall; [reflexivity|].
  apply Forall_cons in Hall as [(tx & Hdec & Hown) Hrest].
  rewrite (own_transaction_skipped a sched i txBytes txs st tx Hdec Hown).
  apply IH. exact Hrest.
Qed.

End LedgerClaims.

Section LedgerExamples.
Import srvreg app ledger demo.

(** A block with the honest session start of node N1, then verified. *)
Lemma finalized_transaction_is_verified_witness :
  exists a1 a2 results appHash,
    FinalizeBlock node2 3 [print_envelope honestStart] = (a1, results, appHash)
    /\ Commit a1 = Ret a2
    /\ Query a2 ("verify:" +:+ idOf honestStart)
       = {| QCode := 0; QLog := "accepted"; QKey := EmptyString;
            QValue := print_envelope honestStart |}.
Proof.
  destruct (finalized_transaction_is_verified envelopeCodec _ node2 3 [] []
              (print_envelope honestStart) honestStart
              ltac:(vm_compute; reflexivity) ltac:(constructor))
    as (a1 & a2 & results & appHash & Hf & Hc & Hq & _).
  exists a1, a2, results, appHash. auto.
Defined.

(** A block with the honest session start and bytes that do not decode,
    at height 4, and the block with the session start alone, at height 9:
    the same application hash. *)
Lemma app_hash_covers_the_ids_only_witness :
  snd (FinalizeBlock node2 4 ["not json"; print_envelope honestStart])
  = snd (FinalizeBlock node2 9 [print_envelope honestStart]).
Proof.
  apply (proj2 (proj2 (app_hash_covers_the_ids_only envelopeCodec _ node2 9
                         [print_envelope honestStart]))).
  vm_compute. reflexivity.
Defined.

(** The JSON text null. *)
Lemma CheckTx_accepts_a_nil_envelope_witness :
  CheckTx "null" = (0, None)
  /\ exists why,
       ProcessProposal node2 inMapOrder ["null"; print_envelope honestStart] repo0
       = (Panic why, repo0).
Proof.
  destruct (CheckTx_accepts_a_nil_envelope envelopeCodec _ node2 inMapOrder "null"
              [print_envelope honestStart] repo0 1 ltac:(reflexivity))
    as (Hc & _ & Hp).
  split; assumption.
Defined.

(** A transaction that names node N2 as its origin and carries a forged
    response. *)
Lemma own_origin_is_trusted_witness :
  ProcessProposal node2 inMapOrder [print_envelope ownStart] repo0
  = (Ret (ACCEPT, None), repo0).
Proof.
  apply (own_origin_is_trusted envelopeCodec _ node2 inMapOrder).
  repeat constructor. exists ownStart. split; [vm_compute; reflexivity|reflexivity].
Defined.

End LedgerExamples.

(* ===================================================================== *)
(** ** The web server and the generation of responses *)
(* ===================================================================== *)

Section Responses.
Import srvreg repository server demo_more.

(** When no handler is found in one order of iteration, none is found in
    any. *)
Lemma lookup_none_any_order {H : Type} (sr : ServiceRegistry H)
    (visit visit' : list (RouteKey * H)) (method path : string) :
  visits sr visit -> visits sr visit' ->
  GetHandlerForPath visit sr method path = None ->
  GetHandlerForPath visit' sr method path = None.
Proof.
  intros Hv Hv'. unfold GetHandlerForPath. cbv zeta.
  assert (Hnone : snd <$> List.find
                    (fun e => patternHit sr method path (fst e)) visit = None ->
                  snd <$> List.find
                    (fun e => patternHit sr method path (fst e)) visit' = None).
  { intros Hn.
    destruct (List.find _ visit) eqn:Hf; [discriminate|].
    apply (pattern_none sr visit method path Hv) in Hf.
    apply (pattern_none sr visit' method path Hv') in Hf.
    rewrite Hf. reflexivity. }
  destruct (handlers sr !! (GoString.ToUpper method, path)); [|exact Hnone].
  destruct (isExact sr (GoString.ToUpper method, path)); [discriminate|exact Hnone].
Qed.

(** X9. A request for which no handler is registered is answered 404 by
    [GenerateResponse] without an error, so the web server hands its
    envelope to consensus; [CheckTx] accepts the envelope; and every other
    replica with the same registry rejects a proposal that begins with it,
    for want of a handler. *)
Theorem unknown_route_is_broadcast_then_rejected
    (codec : app.EnvelopeCodec) (parser : BodyParser) (eng : Engine)
    (St : Type) (ws : WebServer St)
    (replica : app.Application St)
    (visit : list (RouteKey * ServiceHandler St)) (sched : app.RangeSchedule St)
    (requestID : string) (request : Request) (st st' : St)
    (txBytes : string) (rest : list string) :
  visits (serviceRegistry ws) visit ->
  visits (serviceRegistry ws) (sched 0%nat) ->
  app.serviceRegistry replica = serviceRegistry ws ->
  app.nodeID replica <> nodeID ws ->
  GetHandlerForPath visit (serviceRegistry ws) (Method request) (Path request)
    = None ->
  app.Unmarshal_ptr txBytes
    = (Some (envelopeOf ws request (notFoundResponse request)), None) ->
  GenerateResponse visit (serviceRegistry ws) request st
    = (Ret (Some (notFoundResponse request), None), st)
  /\ submitted (fst (handleSessionAPI ws visit (inr requestID) (inr request) st))
     = [envelopeOf ws request (notFoundResponse request)]
  /\ app.CheckTx txBytes = (0, None)
  /\ app.ProcessProposal replica sched (txBytes :: rest) st'
     = (Ret (app.REJECT, Some "handler not found, byzantine behavior detected"),
        st').
Proof.
  intros Hv Hv' Hreg Hother Hnone Hdec.
  assert (Hgen : GenerateResponse visit (serviceRegistry ws) request st
                 = (Ret (Some (notFoundResponse request), None), st))
    by (unfold GenerateResponse; rewrite Hnone; reflexivity).
  split; [exact Hgen|]. split; [|split].
  - unfold handleSessionAPI. rewrite Hgen.
    fold (envelopeOf ws request (notFoundResponse request)).
    destruct (RunConsensus _) as [repoErr | consensusResponse].
    + destruct (String.eqb _ _); reflexivity.
    + destruct (Block _) as [err | [txs|]]; reflexivity.
  - unfold app.CheckTx, app.Unmarshal_val. rewrite Hdec. reflexivity.
  - unfold app.ProcessProposal. simpl. rewrite Hdec. simpl.
    assert (String.eqb (app.nodeID replica) (nodeID ws) = false) as ->
      by (apply String.eqb_neq; exact Hother).
    simpl. rewrite Hreg.
    rewrite (lookup_none_any_order _ visit (sched 0%nat) _ _ Hv Hv' Hnone).
    reflexivity.
Qed.

(** X10. A node in Byzantine mode rewrites the responses of its handlers
    that have status 200 or 201, and no others: such a response leaves
    with status 500 and does not compare equal to the one the handler
    computed; a response with any other status, 202 included, leaves as
    the handler computed it; the error of the handler is passed on; and
    the 404 for an unknown route is not rewritten. *)
Theorem byzantine_rewrites_only_200_and_201 (St : Type)
    (visit : list (RouteKey * ServiceHandler St))
    (sr : ServiceRegistry (ServiceHandler St)) (req : Request) (st : St) :
  isByzantine sr = true ->
  (GetHandlerForPath visit sr (Method req) (Path req) = None ->
   GenerateResponse visit sr req st = (Ret (Some (notFoundResponse req), None), st))
  /\ (forall handler response err st1,
        GetHandlerForPath visit sr (Method req) (Path req) = Some handler ->
        handler req st = (Ret (Some response, err), st1) ->
        exists sent,
          GenerateResponse visit sr req st = (Ret (Some sent, err), st1)
          /\ (StatusCode response = 200 \/ StatusCode response = 201 ->
              StatusCode sent = 500
              /\ app.compareResponses response sent = false)
          /\ (StatusCode response <> 200 -> StatusCode response <> 201 ->
              sent = response)).
Proof.
  intros Hbyz. split.
  - intros Hnone. unfold GenerateResponse. rewrite Hnone. reflexivity.
  - intros handler response err st1 Hfound Hrun.
    exists (corrupt response). split; [|split].
    + unfold GenerateResponse. rewrite Hfound, Hrun, Hbyz. reflexivity.
    + intros Hok. unfold corrupt, app.compareResponses.
      destruct Hok as [-> | ->]; simpl; split; reflexivity.
    + intros H200 H201. unfold corrupt.
      apply Z.eqb_neq in H200. apply Z.eqb_neq in H201.
      rewrite H200, H201. reflexivity.
Qed.

(** X11. The handler of a request runs before consensus, and nothing
    undoes it: when the broadcast of the envelope fails, or CheckTx
    refuses it, the client is answered 500 for a consensus error and the
    state is the one the handler left. *)
Theorem consensus_failure_keeps_handler_effects
    (codec : app.EnvelopeCodec) (parser : BodyParser) (eng : Engine)
    (St : Type) (ws : WebServer St)
    (visit : list (RouteKey * ServiceHandler St))
    (requestID : string) (request : Request) (st st1 : St) (response : Response) :
  GenerateResponse visit (serviceRegistry ws) request st
    = (Ret (Some response, None), st1) ->
  (forall hash height,
      BroadcastTxCommit (app.Marshal (envelopeOf ws request response))
      <> BroadcastDone hash height 0) ->
  exists detail,
    handleSessionAPI ws visit (inr requestID) (inr request) st
    = (served [JSONError ("Consensus error occurred: " +:+ detail) 500]
              [envelopeOf ws request response], st1).
Proof.
  intros Hgen Hfail. unfold handleSessionAPI. rewrite Hgen.
  fold (envelopeOf ws request response). unfold RunConsensus.
  destruct (BroadcastTxCommit _) as [err | hash height code] eqn:Hb.
  - eexists. reflexivity.
  - destruct (Z.eqb_spec code 0) as [-> | Hcode].
    + exfalso. eapply Hfail. reflexivity.
    + eexists. reflexivity.
Qed.

End Responses.

Section ResponsesExamples.
Import srvreg repository handlers server demo demo_more.

(** DELETE /nothing on node N1, and the proposal with its envelope on node
    N2. *)
Lemma unknown_route_is_broadcast_then_rejected_witness :
  submitted (fst (handleSessionAPI (H := strayCodec) webServer
                    (map_to_list (srvreg.handlers services))
                    (inr "r7") (inr strayDelete) repo0))
  = [strayEnvelope]
  /\ app.ProcessProposal (H := strayCodec) node2 inMapOrder
       [print_envelope strayEnvelope] repo0
     = (Ret (app.REJECT, Some "handler not found, byzantine behavior detected"),
        repo0).
Proof.
  destruct (unknown_route_is_broadcast_then_rejected strayCodec bodyParser engine _
              webServer node2 (map_to_list (srvreg.handlers services)) inMapOrder
              "r7" strayDelete repo0 repo0 (print_envelope strayEnvelope) []
              ltac:(unfold visits; reflexivity) ltac:(unfold visits; reflexivity)
              ltac:(reflexivity) ltac:(vm_compute; discriminate)
              ltac:(vm_compute; reflexivity) ltac:(vm_compute; reflexivity))
    as (_ & Hs & _ & Hp).
  split; assumption.
Defined.

(** The session start of the scenario on a node in Byzantine mode. *)
Lemma byzantine_rewrites_only_200_and_201_witness :
  statusOf (CreateSessionHandler startRequest repo0) = Some 201
  /\ statusOf (GenerateResponse (map_to_list (srvreg.handlers byzantineServices))
                 byzantineServices startRequest repo0) = Some 500.
Proof.
  split; [vm_compute; reflexivity|].
  destruct (proj2 (byzantine_rewrites_only_200_and_201 _
                     (map_to_list (srvreg.handlers byzantineServices))
                     byzantineServices startRequest repo0 ltac:(reflexivity))
              (@CreateSessionHandler bodyCodec)
              (localResponse (@CreateSessionHandler bodyCodec) startRequest repo0)
              None started
              ltac:(reflexivity) ltac:(vm_compute; reflexivity))
    as (sent & Hgen & Hrewritten & _).
  unfold statusOf. rewrite Hgen. simpl.
  rewrite (proj1 (Hrewritten ltac:(right; vm_compute; reflexivity))).
  reflexivity.
Defined.

(** The session start of the scenario when the broadcast times out: the
    client is answered 500 and the session is in the store. *)
Lemma consensus_failure_keeps_handler_effects_witness :
  exists detail,
    handleSessionAPI (H1 := failingEngine) webServer
      (map_to_list (srvreg.handlers services)) (inr "r1") (inr startRequest) repo0
    = (served [JSONError ("Consensus error occurred: " +:+ detail) 500]
              [envelopeOf webServer startRequest
                 (localResponse CreateSessionHandler startRequest repo0)],
       started)
    /\ List.map models.Session.ID (store.sessions (db started)) = ["SESSION-r1"]
    /\ store.sessions (db repo0) = [].
Proof.
  destruct (consensus_failure_keeps_handler_effects envelopeCodec bodyParser
              failingEngine _
              webServer (map_to_list (srvreg.handlers services)) "r1" startRequest
              repo0 started
              (localResponse (@CreateSessionHandler bodyCodec) startRequest repo0)
              ltac:(vm_compute; reflexivity) ltac:(intros; discriminate))
    as (detail & Hserved).
  exists detail. split; [exact Hserved|]. split; vm_compute; reflexivity.
Defined.

End ResponsesExamples.

(* ===================================================================== *)
(** ** The port of a listen address *)
(* ===================================================================== *)

Section Ports.
Import server routing.

Lemma get_no_sep (sep : ascii) (s : string) (i : nat) (c : ascii) :
  no_sep sep s = true -> String.get i s = Some c -> Ascii.eqb c sep = false.
Proof.
  revert i. induction s as [| x s IH]; intros i Hn Hg; [destruct i; discriminate|].
  simpl in Hn. apply andb_prop in Hn as [Hx Hs].
  destruct i as [| i]; simpl in Hg.
  - injection Hg as <-. apply negb_true_iff. exact Hx.
  - apply (IH i Hs Hg).
Qed.

Lemma get_append_r (a b : string) (i : nat) :
  String.get (String.length a + i) (a +:+ b) = String.get i b.
Proof. induction a as [| x a IH]; simpl; [reflexivity | exact IH]. Qed.

Lemma substring_append_r (a b : string) (n : nat) :
  String.substring (String.length a) n (a +:+ b) = String.substring 0 n b.
Proof. induction a as [| x a IH]; simpl; [reflexivity | exact IH]. Qed.

Lemma length_append (a b : string) :
  String.length (a +:+ b) = (String.length a + String.length b)%nat.
Proof.
  induction a as [| x a IH]; [reflexivity|].
  change (S (String.length (a +:+ b)) = S (String.length a + String.length b)).
  f_equal. exact IH.
Qed.

(** Without a colon in the bytes that the loop passes, it runs to the
    start. *)
Lemma extractPort_from_none (address : string) (n : nat) :
  no_sep ":" address = true -> extractPort_from address n = EmptyString.
Proof.
  intros Hn. induction n as [| i IH]; [reflexivity|].
  simpl. destruct (String.get i address) as [c|] eqn:Hg; [|exact IH].
  rewrite (get_no_sep ":" address i c Hn Hg). exact IH.
Qed.

(** The loop stops at the last colon. *)
Lemma extractPort_from_last (host port : string) (k : nat) :
  no_sep ":" port = true -> (k <= String.length port)%nat ->
  extractPort_from (host +:+ String ":" port) (String.length host + 1 + k) = port.
Proof.
  intros Hn. induction k as [| k IH]; intros Hk.
  - replace (String.length host + 1 + 0)%nat with (S (String.length host)) by lia.
    simpl.
    rewrite <- (Nat.add_0_r (String.length host)) at 1.
    rewrite get_append_r. simpl.
    rewrite length_append. simpl String.length.
    replace (String.length host + 1)%nat with (String.length (host +:+ ":"))
      by (rewrite length_append; reflexivity).
    replace (host +:+ String ":" port) with ((host +:+ ":") +:+ port).
    2:{ rewrite append_assoc. reflexivity. }
    rewrite substring_append_r.
    replace (String.length host + S (String.length port)
             - String.length (host +:+ ":"))%nat
      with (String.length port) by (rewrite length_append; simpl; lia).
    clear. induction port as [| c s IH]; simpl; [reflexivity | rewrite IH; reflexivity].
  - replace (String.length host + 1 + S k)%nat
      with (S (String.length host + 1 + k)) by lia.
    simpl.
    replace (String.length host + 1 + k)%nat
      with (String.length host + S k)%nat by lia.
    rewrite get_append_r. simpl.
    destruct (String.get k port) as [c|] eqn:Hg.
    + rewrite (get_no_sep ":" port k c Hn Hg).
      replace (String.length host + S k)%nat
        with (String.length host + 1 + k)%nat by lia.
      apply IH. lia.
    + replace (String.length host + S k)%nat
        with (String.length host + 1 + k)%nat by lia.
      apply IH. lia.
Qed.

(** X12. [extractPortFromAddress] returns what follows the last colon of
    the address: the port of host:port for any host, colons in it or not,
    when the port has no colon, and the empty string when the address has
    no colon at all. *)
Theorem extractPortFromAddress_takes_what_follows_the_last_colon
    (host port : string) :
  no_sep ":" port = true ->
  extractPortFromAddress (host +:+ String ":" port) = port
  /\ extractPortFromAddress port = EmptyString.
Proof.
  intros Hn. split.
  - unfold extractPortFromAddress.
    rewrite length_append. simpl String.length.
    replace (String.length host + S (String.length port))%nat
      with (String.length host + 1 + String.length port)%nat by lia.
    apply extractPort_from_last; [exact Hn | lia].
  - apply extractPort_from_none. exact Hn.
Qed.

(** The listen address of the RPC server, and an IPv6 one. *)
Lemma extractPortFromAddress_takes_what_follows_the_last_colon_witness :
  extractPortFromAddress "tcp://0.0.0.0:26657" = "26657"
  /\ extractPortFromAddress "[::1]:4000" = "4000"
  /\ extractPortFromAddress "26657" = EmptyString.
Proof.
  split; [|split].
  - apply (proj1 (extractPortFromAddress_takes_what_follows_the_last_colon
                    "tcp://0.0.0.0" "26657" ltac:(reflexivity))).
  - apply (proj1 (extractPortFromAddress_takes_what_follows_the_last_colon
                    "[::1]" "4000" ltac:(reflexivity))).
  - apply (proj2 (extractPortFromAddress_takes_what_follows_the_last_colon
                    EmptyString "26657" ltac:(reflexivity))).
Defined.

End Ports.

(* ===================================================================== *)
(** ** The repository *)
(* ===================================================================== *)

Section Connection.
Import repository variations.

(** What the loop stores is the handle of a failed attempt. *)
Lemma ConnectDB_from_handle {DB : Type} (Open : nat -> DB * option string)
    (i n : nat) (db : option DB) (handle : DB) :
  ConnectDB_from Open i n db = Some handle ->
  db = Some handle
  \/ exists j err, (i <= j < i + n)%nat /\ Open j = (handle, Some err).
Proof.
  revert i db. induction n as [| n IH]; intros i db Hrun; simpl in Hrun;
    [left; exact Hrun|].
  destruct (Open i) as [h [err|]] eqn:Hopen; [|left; exact Hrun].
  apply IH in Hrun as [[= ->] | (j & err' & Hj & Hopen')].
  - right. exists i, err. split; [lia | exact Hopen].
  - right. exists j, err'. split; [lia | exact Hopen'].
Qed.

(** X13. [ConnectDB] never keeps the handle of a successful attempt: the
    handle in the repository afterwards is the one it held before, or the
    handle that [gorm.Open] returned with an error on one of the ten
    attempts; when the first attempt succeeds the field is left as it
    was, nil if it was nil. *)
Theorem ConnectDB_keeps_no_successful_handle (DB : Type)
    (Open : nat -> DB * option string) (db : option DB) :
  (forall handle,
      ConnectDB Open db = Some handle ->
      db = Some handle
      \/ exists attempt err, (attempt < 10)%nat /\ Open attempt = (handle, Some err))
  /\ (snd (Open 0%nat) = None -> ConnectDB Open db = db).
Proof.
  split.
  - intros handle Hrun. unfold ConnectDB in Hrun.
    apply ConnectDB_from_handle in Hrun as [Hdb | (j & err & Hj & Hopen)];
      [left; exact Hdb|].
    right. exists j, err. split; [lia | exact Hopen].
  - intros Hok. unfold ConnectDB. simpl.
    destruct (Open 0%nat) as [h [err|]]; [discriminate | reflexivity].
Qed.

(** A database that refuses the first two attempts: the repository keeps
    the handle of the second; one that accepts the first: none. *)
Lemma ConnectDB_keeps_no_successful_handle_witness :
  ConnectDB (failsFirst 2) None = Some 1%nat
  /\ ConnectDB (failsFirst 0) None = None.
Proof.
  split; [reflexivity|].
  apply (proj2 (ConnectDB_keeps_no_successful_handle nat (failsFirst 0) None)).
  reflexivity.
Defined.

End Connection.

Section LayerOneReply.
Import srvreg models store repository handlers variations.

Lemma CommitToL1_restatus (f : Z -> Z) (out : Outside) (r : Repository)
    (sessionID operatorID packageID supplierSignature destination priority
     courierID : string) (qcPassed : bool) (issues : list string) :
  @CommitToL1 (restatus f out) r sessionID operatorID packageID supplierSignature
    destination priority courierID qcPassed issues
  = @CommitToL1 out r sessionID operatorID packageID supplierSignature
      destination priority courierID qcPassed issues.
Proof.
  unfold CommitToL1. destruct (l1Addresses r) as [| addr0 rest]; [reflexivity|].
  simpl. destruct (Marshal_payload _) as [err | payloadBytes]; [reflexivity|].
  destruct (http_POST _ _); reflexivity.
Qed.

(** X14. The HTTP status of the reply of layer 1 has no influence on a
    commit: with the status codes of the replies replaced in any way, a
    reply with an error status included, [CommitToL1] and [CommitSession]
    return the same result and leave the same store. *)
Theorem reply_status_of_layer_1_is_ignored (out : Outside) (f : Z -> Z)
    (sessionID operatorID : string) (r : Repository) :
  @CommitSession (restatus f out) sessionID operatorID r
  = @CommitSession out sessionID operatorID r
  /\ (forall packageID supplierSignature destination priority courierID
             qcPassed issues,
        @CommitToL1 (restatus f out) r sessionID operatorID packageID
          supplierSignature destination priority courierID qcPassed issues
        = @CommitToL1 out r sessionID operatorID packageID
            supplierSignature destination priority courierID qcPassed issues).
Proof.
  split; [|intros; apply CommitToL1_restatus].
  unfold CommitSession.
  destruct (First _ (sessions (Begin r))) as [e | session]; [reflexivity|].
  destruct (String.eqb (Session.Status session) "committed"); [reflexivity|].
  destruct (negb _); [reflexivity|].
  destruct (First _ (packages (Begin r))) as [e | row]; [reflexivity|].
  destruct (negb _); [reflexivity|].
  destruct (First _ (labels (Begin r))) as [e | label]; [reflexivity|].
  destruct (Package.QCRecords _) as [| qc0 qcs]; [reflexivity|].
  destruct (GoString.slice _ _ _) as [rawIssues1|]; [|reflexivity].
  rewrite CommitToL1_restatus. reflexivity.
Qed.

(** X15. What a commit sends to layer 1 does not come from the package or
    from the whole configuration: the supplier signature of the payload is
    the fixed text signature123, whatever signature the package carries,
    and the request goes to the first of the configured addresses, the
    others being never used. *)
Theorem commit_sends_a_fixed_signature_to_the_first_address (out : Outside)
    (sessionID operatorID : string) (r : Repository) :
  @CommitSession (resign "signature123" out) sessionID operatorID r
  = @CommitSession out sessionID operatorID r
  /\ fst (@CommitSession out sessionID operatorID (firstAddressOnly r))
     = fst (@CommitSession out sessionID operatorID r)
  /\ db (snd (@CommitSession out sessionID operatorID (firstAddressOnly r)))
     = db (snd (@CommitSession out sessionID operatorID r)).
Proof.
  assert (Haddr : forall a b c d e f g h i,
             @CommitToL1 out (firstAddressOnly r) a b c d e f g h i
             = @CommitToL1 out r a b c d e f g h i).
  { intros. unfold CommitToL1, firstAddressOnly. simpl.
    destruct (l1Addresses r); reflexivity. }
  split; [|split].
  - unfold CommitSession.
    destruct (First _ (sessions (Begin r))) as [e | session]; [reflexivity|].
    destruct (String.eqb (Session.Status session) "committed"); [reflexivity|].
    destruct (negb _); [reflexivity|].
    destruct (First _ (packages (Begin r))) as [e | row]; [reflexivity|].
    destruct (negb _); [reflexivity|].
    destruct (First _ (labels (Begin r))) as [e | label]; [reflexivity|].
    destruct (Package.QCRecords _) as [| qc0 qcs]; [reflexivity|].
    destruct (GoString.slice _ _ _) as [rawIssues1|]; [|reflexivity].
    unfold CommitToL1. destruct (l1Addresses r); reflexivity.
  - unfold CommitSession, Begin, Rollback, abandon, CommitTx.
    change (db (firstAddressOnly r)) with (db r).
    destruct (First _ (sessions (db r))) as [e | session];
      [destruct e; reflexivity|].
    destruct (String.eqb (Session.Status session) "committed"); [reflexivity|].
    destruct (negb _); [reflexivity|].
    destruct (First _ (packages (db r))) as [e | row]; [destruct e; reflexivity|].
    destruct (negb _); [reflexivity|].
    destruct (First _ (labels (db r))) as [e | label]; [destruct e; reflexivity|].
    destruct (Package.QCRecords _) as [| qc0 qcs]; [reflexivity|].
    destruct (GoString.slice _ _ _) as [rawIssues1|]; [|reflexivity].
    rewrite Haddr. destruct (CommitToL1 _ _ _ _ _ _ _ _ _ _); [reflexivity|].
    repeat match goal with
           | |- context [match ?x with _ => _ end] => destruct x
           end; reflexivity.
  - unfold CommitSession, Begin, Rollback, abandon, CommitTx.
    change (db (firstAddressOnly r)) with (db r).
    destruct (First _ (sessions (db r))) as [e | session];
      [destruct e; reflexivity|].
    destruct (String.eqb (Session.Status session) "committed"); [reflexivity|].
    destruct (negb _); [reflexivity|].
    destruct (First _ (packages (db r))) as [e | row]; [destruct e; reflexivity|].
    destruct (negb _); [reflexivity|].
    destruct (First _ (labels (db r))) as [e | label]; [destruct e; reflexivity|].
    destruct (Package.QCRecords _) as [| qc0 qcs]; [reflexivity|].
    destruct (GoString.slice _ _ _) as [rawIssues1|]; [|reflexivity].
    rewrite Haddr. destruct (CommitToL1 _ _ _ _ _ _ _ _ _ _); [reflexivity|].
    repeat match goal with
           | |- context [match ?x with _ => _ end] => destruct x
           end; reflexivity.
Qed.

End LayerOneReply.

Section LayerOneReplyExamples.
Import srvreg models store repository handlers variations demo demo_more.

(** Layer 1 answers the commit of the scenario with status 500: the
    session is committed on layer 2 all the same. *)
Lemma reply_status_of_layer_1_is_ignored_witness :
  @CommitSession (restatus (fun _ => 500) outside) "SESSION-r1" "OPR-001" labelled
  = (Ret (inr ledgerRecord), committed).
Proof.
  rewrite (proj1 (reply_status_of_layer_1_is_ignored outside (fun _ => 500)
                    "SESSION-r1" "OPR-001" labelled)).
  vm_compute. reflexivity.
Defined.

(** The commit of the scenario when the payload is marshalled with the
    fixed signature. *)
Lemma commit_sends_a_fixed_signature_to_the_first_address_witness :
  @CommitSession (resign "signature123" outside) "SESSION-r1" "OPR-001" labelled
  = (Ret (inr ledgerRecord), committed).
Proof.
  rewrite (proj1 (commit_sends_a_fixed_signature_to_the_first_address outside
                    "SESSION-r1" "OPR-001" labelled)).
  vm_compute. reflexivity.
Defined.

End LayerOneReplyExamples.

Section Workflow.
Import srvreg models store repository handlers.

(** After the save of a package that is bound to a session, the package
    is the one found under the session. *)
Lemma First_same_session_update (sid : string) (p : Package.t) (rows : list Package.t) :
  Package.SessionID p = Some sid ->
  has_pk Package.ID (Package.ID p) rows = true ->
  List.existsb
    (fun x => same_session sid x && negb (String.eqb (Package.ID x) (Package.ID p)))
    rows = false ->
  First (same_session sid) (update_row Package.ID p rows) = inr p.
Proof.
  intros Hsid. unfold First, has_pk, update_row.
  induction rows as [| x rows IH]; simpl; [discriminate|].
  intros Hpk Hother. apply orb_false_elim in Hother as [Hx Hrest].
  destruct (String.eqb (Package.ID x) (Package.ID p)) eqn:Hid; simpl.
  - unfold same_session at 1. rewrite Hsid, String.eqb_refl. reflexivity.
  - simpl in Hpk. rewrite andb_true_r in Hx. rewrite Hx. apply IH; assumption.
Qed.

(** What a successful scan has saved. *)
Lemma ScanPackage_saved (anySession packageID : string) (r r1 : Repository)
    (pkg : Package.t) :
  ScanPackage anySession packageID r = (inr pkg, r1) ->
  Package.Status pkg = "pending_validation"
  /\ sessions (db r1) = sessions (db r)
  /\ (forall sid,
        Package.SessionID pkg = Some sid ->
        First (same_session sid) (packages (db r1)) = inr (package_row pkg)).
Proof.
  unfold ScanPackage, Begin. intros Hrun.
  destruct (First _ (packages (db r))) as [e | row] eqn:Hrow;
    [destruct e; discriminate|].
  apply First_has_pk in Hrow as [Hid Hpk].
  destruct (Save_Package _ (db r)) as [e | dbTx1] eqn:Hsave; [discriminate|].
  injection Hrun as <- <-. simpl.
  split; [reflexivity|].
  split; [apply (Save_Package_keeps _ _ _ Hsave)|].
  intros sid Hsid. unfold Save_Package in Hsave. simpl in Hsave, Hsid.
  rewrite Hsid in Hsave.
  destruct (List.existsb _ (packages (db r))) eqn:Hother; [discriminate|].
  destruct (negb _); [discriminate|].
  injection Hsave as <-. simpl. rewrite <- Hid in Hpk.
  apply First_same_session_update; simpl; assumption.
Qed.

(** X16. A scan throws a package back, at whatever stage it is and
    whatever session the request names: a successful [ScanPackage] leaves
    the package with the status pending_validation and does not read the
    session id. In the store as the scan leaves it, if the package is
    bound to a session that exists, every quality check of that session is
    refused with INVALID_STATE and changes nothing, and, if that session is
    not committed, so is its commit by the operator of the session. *)
Theorem scan_throws_the_package_back (out : Outside)
    (anySession packageID : string) (r r1 : Repository) (pkg : Package.t) :
  ScanPackage anySession packageID r = (inr pkg, r1) ->
  Package.Status pkg = "pending_validation"
  /\ (forall otherSession, ScanPackage otherSession packageID r = (inr pkg, r1))
  /\ (forall sid session,
        Package.SessionID pkg = Some sid ->
        First (fun s => String.eqb (Session.ID s) sid) (sessions (db r))
          = inr session ->
        (forall passed issues,
            exists dbErr,
              QualityCheck sid passed issues r1 = (inl dbErr, r1)
              /\ RepositoryError.Code dbErr = "INVALID_STATE")
        /\ (Session.Status session <> "committed" ->
            exists dbErr,
              CommitSession sid (Session.OperatorID session) r1
              = (Ret (inl dbErr), r1)
              /\ RepositoryError.Code dbErr = "INVALID_STATE")).
Proof.
  intros Hrun.
  destruct (ScanPackage_saved _ _ _ _ _ Hrun) as (Hstatus & Hsessions & Hbound).
  split; [exact Hstatus|]. split; [intros otherSession; exact Hrun|].
  intros sid session Hsid Hs. rewrite <- Hsessions in Hs.
  specialize (Hbound sid Hsid). split.
  - intros passed issues.
    apply (QualityCheck_not_validated sid passed issues r1 session _ Hs Hbound).
    simpl. rewrite Hstatus. discriminate.
  - intros Hopen.
    pose proof (First_has_pk _ _ _ _ Hs) as [Hid _].
    rewrite <- Hid in Hbound.
    rewrite (CommitSession_package_not_ready sid _ r1 session _ Hs Hopen
               eq_refl Hbound).
    + eexists. split; reflexivity.
    + simpl. rewrite Hstatus. discriminate.
Qed.

(** X17. A quality check is not repeated: in a store that holds a QC
    record for the package of a session, under the id that is computed
    from the package and the session, every quality check of the session
    returns an error and leaves the repository as it was; and a successful
    quality check leaves such a record. *)
Theorem quality_check_is_not_repeated (out : Outside) (sessionID : string)
    (r : Repository) :
  (forall row,
      First (same_session sessionID) (packages (db r)) = inr row ->
      has_pk QCRecord.ID (qcID (Package.ID row) sessionID) (qc_records (db r))
        = true ->
      forall passed issues,
        exists dbErr, QualityCheck sessionID passed issues r = (inl dbErr, r))
  /\ (forall passed issues pkg qcRecord r1,
        QualityCheck sessionID passed issues r = (inr (pkg, qcRecord), r1) ->
        has_pk QCRecord.ID (qcID (Package.ID pkg) sessionID) (qc_records (db r1))
          = true
        /\ Package.Status pkg = (if passed then "qc_passed" else "qc_failed")).
Proof.
  split.
  - intros row Hrow Hrecord passed issues.
    unfold QualityCheck, Begin, Rollback.
    destruct (First _ (sessions (db r))) as [[| code message detail] | session];
      [eexists; reflexivity | eexists; reflexivity |].
    rewrite Hrow. simpl.
    destruct (negb _); [eexists; reflexivity|].
    destruct (if (0 <? _)%Z then _ else _) as [err | issuesStr];
      [eexists; reflexivity|].
    unfold Create_QCRecord. simpl. rewrite Hrecord. eexists. reflexivity.
  - intros passed issues pkg qcRecord r1 Hrun.
    pose proof (QualityCheck_ok _ _ _ _ _ _ _ Hrun) as (Hid & _ & _ & Hfound).
    split.
    + apply First_has_pk in Hfound as [_ Hpk]. rewrite <- Hid. exact Hpk.
    + revert Hrun. unfold QualityCheck, Begin.
      destruct (First _ (sessions (db r))) as [e | session];
        [destruct e; discriminate|].
      destruct (First _ (packages (db r))) as [e | row];
        [destruct e; discriminate|].
      destruct (negb _); [discriminate|].
      destruct (if (0 <? _)%Z then _ else _) as [e | issuesStr]; [discriminate|].
      destruct (Create_QCRecord _ (db r)) as [e | dbTx1]; [discriminate|].
      destruct (Save_Package _ dbTx1) as [e | dbTx2]; [discriminate|].
      intros [= <- <- <-]. reflexivity.
Qed.

(** X18. A session is committed once: after a commit that returned the
    ledger record, every further commit of the session, by whichever
    operator, returns CONFLICT, which the commit handler answers 500; the
    tables stay as the first commit left them, and the database
    transaction of the refused commit is left open. *)
Theorem committed_session_is_not_committed_again (out : Outside)
    (sessionID operatorID : string) (r r1 : Repository) (tx : Transaction.t) :
  CommitSession sessionID operatorID r = (Ret (inr tx), r1) ->
  forall again,
    exists dbErr response err,
      CommitSession sessionID again r1
      = (Ret (inl dbErr),
         {| db := db r1; openTx := S (openTx r1); l1Addresses := l1Addresses r1 |})
      /\ RepositoryError.Code dbErr = "CONFLICT"
      /\ CommitSession_failed dbErr = (Some response, Some err)
      /\ StatusCode response = StatusInternalServerError.
Proof.
  intros Hrun again.
  destruct (CommitSession_success _ _ _ _ _ Hrun)
    as (session & l1Resp & Hfound & _ & Hstatus & _).
  unfold CommitSession, Begin, abandon. rewrite Hfound, Hstatus. simpl.
  eexists _, _, _. repeat split; reflexivity.
Qed.

(** X19. Every signature validates: the outcome of a validation request
    depends on the package id and on the path only, not on the signature,
    as long as there is one. *)
Theorem any_signature_validates (codec : BodyCodec) (req req' : Request)
    (body body' : validatePackageHandlerBody.t) (r : Repository) :
  Unmarshal_validatePackage (Body req) = inr body ->
  Unmarshal_validatePackage (Body req') = inr body' ->
  Path req' = Path req ->
  validatePackageHandlerBody.PackageID body'
    = validatePackageHandlerBody.PackageID body ->
  validatePackageHandlerBody.Signature body <> EmptyString ->
  validatePackageHandlerBody.Signature body' <> EmptyString ->
  ValidatePackageHandler req' r = ValidatePackageHandler req r.
Proof.
  intros Hbody Hbody' Hpath Hpkg Hsig Hsig'.
  unfold ValidatePackageHandler. rewrite Hbody, Hbody', Hpath, Hpkg.
  apply String.eqb_neq in Hsig. apply String.eqb_neq in Hsig'.
  rewrite Hsig, Hsig'. reflexivity.
Qed.

(** X20. A quality check without issues makes the commit panic:
    [QualityCheck] stores the empty text for an empty list of issues, and
    [CommitSession], on a session that is ready to be committed, cuts the
    first and the last byte off the issues of the QC record of the package
    that the database returns first. When every QC record of the package
    holds an issues text of fewer than two bytes, the call panics in
    whatever order the database returns the records, out of range on the
    slice, or on the index when the package has no record, and its
    database transaction stays open. *)
Theorem commit_panics_after_a_check_without_issues (out : Outside) :
  (forall sessionID passed r pkg qcRecord r1,
      QualityCheck sessionID passed [] r = (inr (pkg, qcRecord), r1) ->
      QCRecord.Issues qcRecord = EmptyString)
  /\ (forall sessionID operatorID r session row label,
        rearranges ->
        First (fun s => String.eqb (Session.ID s) sessionID) (sessions (db r))
          = inr session ->
        Session.Status session <> "committed" ->
        operatorID = Session.OperatorID session ->
        First (same_session (Session.ID session)) (packages (db r)) = inr row ->
        Package.Status row = "qc_passed" ->
        First (fun l => String.eqb (Label.PackageID l) (Package.ID row))
              (labels (db r)) = inr label ->
        Forall (fun c => (String.length (QCRecord.Issues c) < 2)%nat)
               (List.filter
                  (fun c => String.eqb (QCRecord.PackageID c) (Package.ID row))
                  (qc_records (db r))) ->
        exists why,
          CommitSession sessionID operatorID r
          = (Panic why,
             {| db := db r; openTx := S (openTx r);
                l1Addresses := l1Addresses r |})).
Proof.
  split.
  - intros sessionID passed r pkg qcRecord r1. unfold QualityCheck, Begin.
    destruct (First _ (sessions (db r))) as [e | session];
      [destruct e; discriminate|].
    destruct (First _ (packages (db r))) as [e | row];
      [destruct e; discriminate|].
    destruct (negb _); [discriminate|].
    simpl.
    destruct (Create_QCRecord _ (db r)) as [e | dbTx1]; [discriminate|].
    destruct (Save_Package _ dbTx1) as [e | dbTx2]; [discriminate|].
    intros [= _ <- _]. reflexivity.
  - intros sessionID operatorID r session row label
           Horder Hs Hopen Hop Hrow Hstatus Hlabel Hshort.
    unfold CommitSession, Begin, abandon. rewrite Hs.
    apply String.eqb_neq in Hopen. rewrite Hopen.
    rewrite Hop, String.eqb_refl. simpl. rewrite Hrow. simpl.
    rewrite Hstatus. simpl. rewrite Hlabel.
    rewrite <- (Horder _) in Hshort.
    destruct (rows_order _) as [| qc0 rest]; [eexists; reflexivity|].
    apply Forall_cons in Hshort as [Hqc0 _].
    unfold GoString.slice.
    assert ((1 <=? Z.of_nat (String.length (QCRecord.Issues qc0)) - 1) = false)
      as -> by lia.
    simpl. eexists. reflexivity.
Qed.

End Workflow.

Section WorkflowExamples.
Import srvreg models store repository handlers demo demo_more.

(** The package of the scenario, checked and labelled, is scanned under
    the name of another session: the commit of its session is refused. *)
Lemma scan_throws_the_package_back_witness :
  List.map Package.Status (packages (db labelled)) = ["qc_passed"]
  /\ exists pkg r1 dbErr,
       ScanPackage "SESSION-other" "PKG-001" labelled = (inr pkg, r1)
       /\ CommitSession "SESSION-r1" "OPR-001" r1 = (Ret (inl dbErr), r1)
       /\ RepositoryError.Code dbErr = "INVALID_STATE".
Proof.
  split; [vm_compute; reflexivity|].
  destruct (ScanPackage "SESSION-other" "PKG-001" labelled) as [[e | pkg] r1]
    eqn:Hscan; [vm_compute in Hscan; discriminate|].
  pose proof (scan_throws_the_package_back outside _ _ _ _ _ Hscan)
    as (_ & _ & Hgate).
  assert (Hbound : Package.SessionID pkg = Some "SESSION-r1")
    by (vm_compute in Hscan; injection Hscan as <- _; reflexivity).
  destruct (proj2 (Hgate "SESSION-r1" openSession Hbound
                     ltac:(vm_compute; reflexivity))
              ltac:(vm_compute; discriminate))
    as (dbErr & Hcommit & Hcode).
  exists pkg, r1, dbErr. auto.
Defined.

(** After a second validation the package is validated again, and the
    quality check is still refused: its record exists. *)
Lemma quality_check_is_not_repeated_witness :
  List.map Package.Status (packages (db revalidated)) = ["validated"]
  /\ exists dbErr,
       QualityCheck "SESSION-r1" true ["all good"] revalidated
       = (inl dbErr, revalidated).
Proof.
  split; [vm_compute; reflexivity|].
  apply (proj1 (quality_check_is_not_repeated outside "SESSION-r1" revalidated)
           {| Package.ID := "PKG-001"; Package.SessionID := Some "SESSION-r1";
              Package.SupplierID := "SUP-001"; Package.DeliveryNoteID := "DN-001";
              Package.Signature := "digital_sig_001"; Package.IsTrusted := true;
              Package.Status := "validated"; Package.Items := [];
              Package.Supplier := None; Package.QCRecords := [] |}
           ltac:(vm_compute; reflexivity) ltac:(vm_compute; reflexivity)).
Defined.

(** A second commit of the session of the scenario, by another operator. *)
Lemma committed_session_is_not_committed_again_witness :
  exists dbErr response err,
    CommitSession "SESSION-r1" "OPR-002" committed
    = (Ret (inl dbErr),
       {| db := db committed; openTx := S (openTx committed);
          l1Addresses := l1Addresses committed |})
    /\ RepositoryError.Code dbErr = "CONFLICT"
    /\ CommitSession_failed dbErr = (Some response, Some err)
    /\ StatusCode response = StatusInternalServerError.
Proof.
  apply (committed_session_is_not_committed_again outside "SESSION-r1" "OPR-001"
           labelled committed ledgerRecord ltac:(vm_compute; reflexivity)).
Defined.

(** The validation of the scenario with the signature any and with the
    signature forged. *)
Lemma any_signature_validates_witness :
  ValidatePackageHandler forgedValidateRequest started
  = ValidatePackageHandler validateRequest started
  /\ statusOf (ValidatePackageHandler validateRequest started) = Some 202.
Proof.
  split; [|vm_compute; reflexivity].
  apply (any_signature_validates bodyCodec validateRequest forgedValidateRequest
           {| validatePackageHandlerBody.Signature := "any";
              validatePackageHandlerBody.PackageID := "PKG-001" |}
           {| validatePackageHandlerBody.Signature := "forged";
              validatePackageHandlerBody.PackageID := "PKG-001" |}
           started);
    first [vm_compute; reflexivity | discriminate].
Defined.

(** The scenario with a quality check that passes without issues: the
    commit of the labelled session panics. *)
Lemma commit_panics_after_a_check_without_issues_witness :
  List.map Package.Status (packages (db labelledNoIssues)) = ["qc_passed"]
  /\ List.map QCRecord.Issues (qc_records (db labelledNoIssues)) = [EmptyString]
  /\ exists why r1,
       CommitSession "SESSION-r1" "OPR-001" labelledNoIssues = (Panic why, r1).
Proof.
  split; [vm_compute; reflexivity|]. split; [vm_compute; reflexivity|].
  destruct (First (fun l => String.eqb (Label.PackageID l) "PKG-001")
                  (labels (db labelledNoIssues))) as [e | label] eqn:Hlabel;
    [vm_compute in Hlabel; discriminate|].
  destruct (proj2 (commit_panics_after_a_check_without_issues outside)
              "SESSION-r1" "OPR-001" labelledNoIssues openSession
              {| Package.ID := "PKG-001"; Package.SessionID := Some "SESSION-r1";
                 Package.SupplierID := "SUP-001"; Package.DeliveryNoteID := "DN-001";
                 Package.Signature := "digital_sig_001"; Package.IsTrusted := true;
                 Package.Status := "qc_passed"; Package.Items := [];
                 Package.Supplier := None; Package.QCRecords := [] |}
              label
              ltac:(intros rows; reflexivity)
              ltac:(vm_compute; reflexivity) ltac:(discriminate)
              ltac:(reflexivity) ltac:(vm_compute; reflexivity)
              ltac:(reflexivity) Hlabel
              ltac:(vm_compute; repeat constructor))
    as (why & Hpanic).
  exists why. eexists. exact Hpanic.
Defined.

End WorkflowExamples.

Section Transactions.
Import srvreg models store repository handlers.

Ltac case_on_matches :=
  repeat match goal with
         | |- context [match ?x with _ => _ end] => destruct x
         end.

(** X21. Of the operations of the repository, only the commit leaves a
    database transaction open: the creation of a session, the scan, the
    validation, the quality check and the labelling end every path with a
    commit or a rollback; [CommitSession] returns without either when the
    session is not found, when it is committed already, and when the
    operator is not the one of the session. *)
Theorem only_the_commit_leaves_a_transaction_open (out : Outside) (r : Repository) :
  (forall sessionID operatorID,
      openTx (snd (CreateSession sessionID operatorID r)) = openTx r)
  /\ (forall sessionID packageID,
        openTx (snd (ScanPackage sessionID packageID r)) = openTx r)
  /\ (forall signature packageID sessionID,
        openTx (snd (ValidatePackage signature packageID sessionID r)) = openTx r)
  /\ (forall sessionID passed issues,
        openTx (snd (QualityCheck sessionID passed issues r)) = openTx r)
  /\ (forall sessionID destination priority courierID,
        openTx (snd (LabelPackage sessionID destination priority courierID r))
        = openTx r)
  /\ (forall sessionID operatorID dbErr,
        First (fun s => String.eqb (Session.ID s) sessionID) (sessions (db r))
          = inl dbErr ->
        openTx (snd (CommitSession sessionID operatorID r)) = S (openTx r))
  /\ (forall sessionID operatorID session,
        First (fun s => String.eqb (Session.ID s) sessionID) (sessions (db r))
          = inr session ->
        Session.Status session = "committed"
        \/ operatorID <> Session.OperatorID session ->
        openTx (snd (CommitSession sessionID operatorID r)) = S (openTx r)).
Proof.
  repeat split.
  - intros. unfold CreateSession, Begin, Rollback, CommitTx.
    case_on_matches; reflexivity.
  - intros. unfold ScanPackage, Begin, Rollback, CommitTx.
    case_on_matches; reflexivity.
  - intros. unfold ValidatePackage, Begin, Rollback, CommitTx.
    case_on_matches; reflexivity.
  - intros. unfold QualityCheck, Begin, Rollback, CommitTx.
    case_on_matches; reflexivity.
  - intros. unfold LabelPackage, Begin, Rollback, CommitTx.
    case_on_matches; reflexivity.
  - intros sessionID operatorID dbErr Hs.
    unfold CommitSession, Begin, abandon. rewrite Hs.
    destruct dbErr; reflexivity.
  - intros sessionID operatorID session Hs Hwhy.
    unfold CommitSession, Begin, abandon. rewrite Hs.
    destruct (String.eqb_spec (Session.Status session) "committed") as [Hc | Hc];
      [reflexivity|].
    destruct Hwhy as [Hwhy | Hwhy]; [contradiction|].
    apply String.eqb_neq in Hwhy. rewrite Hwhy. reflexivity.
Qed.

End Transactions.

Section TransactionsExamples.
Import srvreg models store repository handlers demo demo_more.

(** A commit by another operator, on the store of the scenario. *)
Lemma only_the_commit_leaves_a_transaction_open_witness :
  openTx labelled = 0%nat
  /\ openTx (snd (CommitSession "SESSION-r1" "OPR-002" labelled)) = 1%nat.
Proof.
  split; [vm_compute; reflexivity|].
  apply (proj2 (proj2 (proj2 (proj2 (proj2 (proj2
           (only_the_commit_leaves_a_transaction_open outside labelled))))))
           "SESSION-r1" "OPR-002" openSession ltac:(vm_compute; reflexivity)).
  right. discriminate.
Defined.

End TransactionsExamples.

(* ===================================================================== *)
(** ** The status endpoint *)
(* ===================================================================== *)

Section StatusEndpoint.
Import srvreg app server routing.

(** The encoding of the standard test vectors. *)
Example Base64_vectors :
  Base64.EncodeToString "Man" = "TWFu"
  /\ Base64.EncodeToString "Ma" = "TWE="
  /\ Base64.EncodeToString "M" = "TQ=="
  /\ Base64.EncodeToString "light work." = "bGlnaHQgd29yay4=".
Proof. repeat split; vm_compute; reflexivity. Qed.




End StatusEndpoint.

Section StatusEndpointExamples.
Import srvreg app server routing demo demo_more.


End StatusEndpointExamples.

(* ===================================================================== *)
(** ** The replay of a proposal, twice *)
(* ===================================================================== *)

Section Replay.
Import srvreg models store repository handlers app.

(** X23. [ProcessProposal] cannot be run twice on a session start: the
    replay of a session start of another node that answers 201 creates
    the session, and on the state it leaves the same proposal is rejected,
    since the handler now answers 409 with a unique violation as its
    error. *)
Theorem replayed_session_start_is_rejected
    (codec : EnvelopeCodec) (bodies : BodyCodec) (a : Application Repository)
    (sched : RangeSchedule Repository) (txBytes : string) (tx : Transaction)
    (r r1 : Repository) (response : Response) :
  fst (Unmarshal_ptr txBytes) = Some tx ->
  OriginNodeID tx <> nodeID a ->
  GetHandlerForPath (sched 0%nat) (serviceRegistry a)
    (Method (TRequest tx)) (Path (TRequest tx)) = Some CreateSessionHandler ->
  CreateSessionHandler (TRequest tx) r = (Ret (Some response, None), r1) ->
  StatusCode response = StatusCreated ->
  exists again err,
    CreateSessionHandler (TRequest tx) r1 = (Ret (Some again, Some err), r1)
    /\ StatusCode again = StatusConflict
    /\ ProcessProposal a sched [txBytes] r1 = (Ret (REJECT, Some err), r1).
Proof.
  intros Hdec Hother Hfound Hrun Hcreated.
  assert (Hagain : exists again err,
             CreateSessionHandler (TRequest tx) r1
             = (Ret (Some again, Some err), r1)
             /\ StatusCode again = StatusConflict).
  { revert Hrun. unfold CreateSessionHandler.
    destruct (Unmarshal_startSession (Body (TRequest tx))) as [e | body];
      [discriminate|].
    destruct (String.eqb _ EmptyString) eqn:Hop;
      [intros [= <- <-]; discriminate Hcreated|].
    destruct (CreateSession _ _ r) as [[dbErr | session] r2] eqn:Hcreate.
    - unfold CreateSession_failed.
      destruct (String.eqb _ PgErrForeignKeyViolation);
        [discriminate|].
      destruct (String.eqb _ PgErrUniqueViolation); [discriminate|].
      intros [= <- <-]. discriminate Hcreated.
    - intros [= _ <-].
      apply CreateSession_ok in Hcreate as (_ & _ & _ & Hthere).
      apply First_has_pk in Hthere as [_ Hpk].
      unfold CreateSession, Begin, Rollback, Create_Session. simpl.
      rewrite Hpk. simpl.
      eexists _, _. split; reflexivity. }
  destruct Hagain as (again & err & Hagain & Hstatus).
  exists again, err. split; [exact Hagain|]. split; [exact Hstatus|].
  unfold ProcessProposal. simpl. rewrite Hdec.
  assert (String.eqb (nodeID a) (OriginNodeID tx) = false) as ->
    by (apply String.eqb_neq; congruence).
  simpl. rewrite Hfound, Hagain. reflexivity.
Qed.

End Replay.

Section ReplayExamples.
Import srvreg models store repository handlers app demo.

(** The honest session start of node N1, replayed twice on node N2. *)
Lemma replayed_session_start_is_rejected_witness :
  ProcessProposal node2 inMapOrder [print_envelope honestStart] repo0
  = (Ret (ACCEPT, None), started)
  /\ exists err,
       ProcessProposal node2 inMapOrder [print_envelope honestStart] started
       = (Ret (REJECT, Some err), started).
Proof.
  split; [vm_compute; reflexivity|].
  destruct (replayed_session_start_is_rejected envelopeCodec bodyCodec node2
              inMapOrder (print_envelope honestStart) honestStart repo0 started
              (localResponse (@CreateSessionHandler bodyCodec) startRequest repo0)
              ltac:(vm_compute; reflexivity) ltac:(vm_compute; discriminate)
              ltac:(reflexivity) ltac:(vm_compute; reflexivity)
              ltac:(reflexivity))
    as (again & err & _ & _ & Hreject).
  exists err. exact Hreject.
Defined.

End ReplayExamples.
